(** * Real-estate query backend: a shallow embedding and its properties

    The development follows the repository's modules:
    - [PyStr], [PyList]  the Python string, [re] and list primitives in use;
    - [QueryParser]      helpers/query_parser.py;
    - [PyFloat]          binary64 values as pandas and Python treat them;
    - [PyMath]           the functions of [math] behind the haversine;
    - [DataFilter]       helpers/data_filter.py over an in-memory frame;
    - [ExcelReader]      helpers/excel_reader.py: the locations of the workbook;
    - [ChartBuilder]     helpers/chart_builder.py;
    - [SummaryGenerator] helpers/summary_generator.py;
    - [Views]            api/views.py: the four strategies and [handle_query]
                         from the decoded body on.

    Query text is ASCII: [str.lower], [str.strip] and the classes [\w], [\s]
    and [\d] are given on the ASCII range, where Python's Unicode tables and
    the byte reading agree. Numbers are the kernel's binary64 floats. What
    the code leaves to its libraries, the sort behind [sort_values], the
    means and sums of pandas and the C library behind [math], enters as a
    class of the runtime. *)

From stdpp Require Import gmap strings list.
From Stdlib Require Import ZArith Floats Ascii String DecimalString DecimalZ Bool Lia.
From Stdlib Require Import Sorting.Sorted Sorting.Permutation.
From Stdlib Require Import Structures.OrderedTypeEx.

Local Open Scope string_scope.

(* ===================================================================== *)
(** ** Python strings and the regular expressions of the parser          *)
(* ===================================================================== *)

Module PyStr.

Definition code (c : ascii) : N := N_of_ascii c.

Definition between (lo hi : N) (c : ascii) : bool :=
  (lo <=? code c)%N && (code c <=? hi)%N.

(** [\d], [\s] and [\w] of a [str] pattern, on ASCII. Python counts the four
    separators 0x1c..0x1f as white space, for [strip] and for [\s] alike. *)
Definition is_digit (c : ascii) : bool := between 48 57 c.
Definition is_upper (c : ascii) : bool := between 65 90 c.
Definition is_lower (c : ascii) : bool := between 97 122 c.
Definition is_space (c : ascii) : bool :=
  between 9 13 c || between 28 31 c || (code c =? 32)%N.
Definition is_word (c : ascii) : bool :=
  is_digit c || is_upper c || is_lower c || (code c =? 95)%N.

Definition lower_char (c : ascii) : ascii :=
  if is_upper c then ascii_of_N (code c + 32) else c.

(** [str.lower] *)
Fixpoint lower (s : string) : string :=
  match s with
  | EmptyString => EmptyString
  | String c r => String (lower_char c) (lower r)
  end.

Fixpoint lstrip (s : string) : string :=
  match s with
  | EmptyString => EmptyString
  | String c r => if is_space c then lstrip r else s
  end.

Fixpoint rstrip (s : string) : string :=
  match s with
  | EmptyString => EmptyString
  | String c r =>
      match rstrip r with
      | EmptyString => if is_space c then EmptyString else String c EmptyString
      | r' => String c r'
      end
  end.

(** [str.strip] *)
Definition strip (s : string) : string := rstrip (lstrip s).

Definition is_empty (s : string) : bool :=
  match s with EmptyString => true | _ => false end.

Definition head (s : string) : option ascii :=
  match s with EmptyString => None | String c _ => Some c end.

Fixpoint drop (n : nat) (s : string) : string :=
  match n, s with
  | S k, String _ r => drop k r
  | _, _ => s
  end.

Fixpoint last_char (prev : option ascii) (s : string) : option ascii :=
  match s with
  | EmptyString => prev
  | String c r => last_char (Some c) r
  end.

(** [kw in s] *)
Fixpoint contains (kw s : string) : bool :=
  String.prefix kw s ||
  match s with
  | EmptyString => false
  | String _ r => contains kw r
  end.

(** [any(keyword in s for keyword in keywords)] *)
Definition any_contains (keywords : list string) (s : string) : bool :=
  existsb (fun kw => contains kw s) keywords.

Definition word_opt (o : option ascii) : bool :=
  match o with Some c => is_word c | None => false end.

(** [\b] between the characters [before] and [after] ([None] off the text). *)
Definition boundary (before after : option ascii) : bool :=
  xorb (word_opt before) (word_opt after).

(** The pattern [\b<kw>\b], [kw] escaped, tried at one position; [prev] is the
    character before it. *)
Definition word_match_here (prev : option ascii) (kw rest : string) : bool :=
  boundary prev (head rest)
  && String.prefix kw rest
  && boundary (last_char prev kw) (head (drop (String.length kw) rest)).

Fixpoint word_search_from (prev : option ascii) (kw s : string) : bool :=
  word_match_here prev kw s ||
  match s with
  | EmptyString => false
  | String c r => word_search_from (Some c) kw r
  end.

(** [re.search(rf"\b{re.escape(kw)}\b", s)] as a truth value *)
Definition word_search (kw s : string) : bool := word_search_from None kw s.

Definition any_word (keywords : list string) (s : string) : bool :=
  existsb (fun kw => word_search kw s) keywords.

(** The longest prefix of characters in class [p], and what follows it: a
    greedy [p*]. None of the patterns below can match after giving characters
    back, since what follows each repetition starts outside its class. *)
Fixpoint span (p : ascii -> bool) (s : string) : string * string :=
  match s with
  | EmptyString => (EmptyString, EmptyString)
  | String c r =>
      if p c then let '(a, b) := span p r in (String c a, b)
      else (EmptyString, s)
  end.

(** [p+]: at least one character *)
Definition span1 (p : ascii -> bool) (s : string) : option (string * string) :=
  match span p s with
  | (EmptyString, _) => None
  | (a, b) => Some (a, b)
  end.

Definition strip_prefix (p s : string) : option string :=
  if String.prefix p s then Some (drop (String.length p) s) else None.

(** An alternation [(?:a|b|...)] followed by [k]: the first alternative, in
    order, after which the rest of the pattern matches. *)
Fixpoint alternation {A} (alts : list string) (k : string -> option A)
    (s : string) : option A :=
  match alts with
  | [] => None
  | a :: more =>
      match strip_prefix a s with
      | Some r =>
          match k r with
          | Some v => Some v
          | None => alternation more k s
          end
      | None => alternation more k s
      end
  end.

(** [re.search]: the match at the leftmost position that has one. *)
Fixpoint search {A} (here : string -> option A) (s : string) : option A :=
  match here s with
  | Some v => Some v
  | None =>
      match s with
      | EmptyString => None
      | String _ r => search here r
      end
  end.

Definition digit_value (c : ascii) : Z := Z.of_N (code c) - 48.

Fixpoint digits_value (acc : Z) (s : string) : Z :=
  match s with
  | EmptyString => acc
  | String c r => digits_value (10 * acc + digit_value c) r
  end.

(** CPython refuses to convert more than [sys.int_max_str_digits] digits. *)
Definition INT_MAX_STR_DIGITS : nat := 4300.

(** [int(ds)] for a string of digits; [None] is ValueError. *)
Definition py_int (ds : string) : option Z :=
  if (INT_MAX_STR_DIGITS <? String.length ds)%nat then None
  else Some (digits_value 0 ds).

(** [str(n)] *)
Definition str_of_Z (n : Z) : string := NilEmpty.string_of_int (Z.to_int n).

Definition upper_char (c : ascii) : ascii :=
  if is_lower c then ascii_of_N (code c - 32) else c.

(** [str.title]: a letter after a letter is lowered, any other letter is
    raised; [previous_is_cased] tells whether the character before was a
    letter. *)
Fixpoint title_from (previous_is_cased : bool) (s : string) : string :=
  match s with
  | EmptyString => EmptyString
  | String c r =>
      if is_lower c
      then String (if previous_is_cased then c else upper_char c) (title_from true r)
      else if is_upper c
      then String (if previous_is_cased then lower_char c else c) (title_from true r)
      else String c (title_from false r)
  end.

Definition title (s : string) : string := title_from false s.

End PyStr.

(* ===================================================================== *)
(** ** Python lists                                                      *)
(* ===================================================================== *)

Module PyList.

Fixpoint insert_unique (y : Z) (l : list Z) : list Z :=
  match l with
  | [] => [y]
  | x :: r =>
      if (y <? x)%Z then y :: l
      else if (y =? x)%Z then l
      else x :: insert_unique y r
  end.

(** [sorted(set(l))] for integers *)
Definition sorted_set (l : list Z) : list Z := fold_right insert_unique [] l.

Fixpoint insert_unique_str (y : string) (l : list string) : list string :=
  match l with
  | [] => [y]
  | x :: r =>
      if String.ltb y x then y :: l
      else if String.eqb y x then l
      else x :: insert_unique_str y r
  end.

(** [sorted(set(l))] for strings, which Python orders by code point *)
Definition sorted_set_str (l : list string) : list string :=
  fold_right insert_unique_str [] l.

(** The slice [l[-n:]] *)
Definition last_n {A} (n : Z) (l : list A) : list A :=
  if (0 <? n)%Z then skipn (List.length l - Z.to_nat n) l
  else skipn (Z.to_nat (- n)) l.

(** The slice [l[:n]], which is also [DataFrame.head(n)]: the first [n]
    items, or all but the last [-n] when [n] is negative. *)
Definition first_n {A} (n : Z) (l : list A) : list A :=
  if (0 <=? n)%Z then firstn (Z.to_nat n) l
  else firstn (List.length l - Z.to_nat (- n)) l.

(** [table.get(key)] on a dict given by its items *)
Fixpoint lookup_key {V} (table : list (string * V)) (key : string) : option V :=
  match table with
  | [] => None
  | (k, v) :: more => if String.eqb k key then Some v else lookup_key more key
  end.

(** [table.get(key, default)] *)
Definition dict_get {V} (table : list (string * V)) (key : string) (default : V) : V :=
  match lookup_key table key with
  | Some v => v
  | None => default
  end.

Definition is_nil {A} (l : list A) : bool :=
  match l with [] => true | _ => false end.

(** Insertion of [x] before the first item it does not exceed: the step of a
    stable sort. *)
Fixpoint insert_sorted {A} (le : A -> A -> bool) (x : A) (l : list A) : list A :=
  match l with
  | [] => [x]
  | y :: r => if le x y then x :: l else y :: insert_sorted le x r
  end.

(** A stable sort: equal items keep their order. *)
Definition stable_sort {A} (le : A -> A -> bool) (l : list A) : list A :=
  fold_right (insert_sorted le) [] l.

End PyList.

(* ===================================================================== *)
(** ** helpers/query_parser.py                                           *)
(* ===================================================================== *)

Module QueryParser.
Import PyStr PyList.

Record ParsedQuery := {
  raw_query : string;
  locations : list string;
  metric : string;
  property_types : list string;
  comparison : bool;
  ranking : bool;
  ranking_order : string;
  ranking_limit : option Z;
  coordinate : bool;
  near : bool;
  year : option Z;
  year_range : option (Z * Z);
  last_n_years : option Z;
  stats : list string;
  extrema : bool;
  general_insight : bool;
  all_locations : bool
}.

(** The keyword dictionaries, as lists of items in their order of insertion
    (the order in which Python iterates a dict). *)
Definition METRIC_KEYWORDS : list (string * list string) :=
  [ ("price", ["price"; "prices"; "rate"; "rates"; "valuation"; "cost"; "pricing"]);
    ("demand", ["demand"; "sold"; "sales"; "absorption"; "bookings"; "units sold"]);
    ("supply", ["supply"; "supplied"; "inventory"; "stock"; "pipeline";
                "units available"; "carpet area"]);
    ("sales", ["total_sales"; "total sales"; "revenue"; "turnover"]) ].

Definition PROPERTY_KEYWORDS : list (string * list string) :=
  [ ("flat", ["flat"; "flats"; "apartment"; "apartments"; "residential"]);
    ("office", ["office"; "offices"]);
    ("shop", ["shop"; "shops"; "retail"; "stores"]) ].

Definition SPECIAL_PROPERTY_KEYWORDS : list (string * list string) :=
  [ ("carpet_area", ["carpet area"; "carpet sq"; "sqft supplied"]) ].

Definition COMPARISON_KEYWORDS : list string :=
  [ "compare"; " vs "; " vs. "; "vs"; "v/s"; "versus"; "between"; "against";
    "compared to"; "better than"; "performed better" ].

Definition GENERAL_INSIGHT_KEYWORDS : list string :=
  [ "overview"; "insight"; "analysis"; "summary"; "summarize"; "explain";
    "trend"; "outlook" ].

Definition COORDINATE_KEYWORDS : list string :=
  [ "coordinate"; "coordinates"; "lat"; "lng"; "longitude"; "latitude";
    "location pin" ].

Definition NEAR_KEYWORDS : list string := [ "near"; "nearby"; "close to"; "around" ].

Definition RANKING_DESC_KEYWORDS : list string :=
  [ "highest"; "top"; "most"; "fastest"; "best" ].
Definition RANKING_ASC_KEYWORDS : list string :=
  [ "lowest"; "least"; "slowest"; "bottom"; "worst"; "minimum" ].

Definition STAT_KEYWORDS : list (string * list string) :=
  [ ("average", ["average"; "avg"; "mean"]);
    ("max", ["highest"; "max"; "peak"]);
    ("min", ["lowest"; "min"; "minimum"]);
    ("growth_rate", ["growth rate"; "growth"; "increase"; "rise"; "drop"; "decline"]) ].

Definition ALL_LOCATIONS_KEYWORDS : list string :=
  [ "all locations"; "across all"; "overall"; "entire city"; "whole city";
    "across pune"; "citywide"; "across the city" ].

(** [20\d{2}] at the start of [s]: the year it spells and the rest. *)
Definition year_here (s : string) : option (Z * string) :=
  match s with
  | String "2" (String "0" (String a (String b rest))) =>
      if is_digit a && is_digit b
      then Some (2000 + 10 * digit_value a + digit_value b, rest)%Z
      else None
  | _ => None
  end.

Definition RANGE_CONNECTORS : list string :=
  [ "to"; "-"; "through"; "until"; "till"; "and" ].

(** YEAR_RANGE_REGEX tried at the start of [s]; the two groups, as integers. *)
Definition year_range_here (s : string) : option (Z * Z) :=
  match year_here s with
  | Some (y1, r1) =>
      alternation RANGE_CONNECTORS
        (fun r3 =>
           match year_here (snd (span is_space r3)) with
           | Some (y2, _) => Some (y1, y2)
           | None => None
           end)
        (snd (span is_space r1))
  | None => None
  end.

(** [YEAR_RANGE_REGEX.search] *)
Definition YEAR_RANGE_REGEX_search (s : string) : option (Z * Z) :=
  search year_range_here s.

(** [YEAR_REGEX.findall], each match already converted by [int]: matches do
    not overlap, so the three characters after the start of one are skipped. *)
Fixpoint findall_years (skip : nat) (s : string) : list Z :=
  match s with
  | EmptyString => []
  | String _ r =>
      match skip with
      | S k => findall_years k r
      | O =>
          match year_here s with
          | Some (y, _) => y :: findall_years 3 r
          | None => findall_years 0 r
          end
      end
  end.

Definition YEAR_REGEX_findall (s : string) : list Z := findall_years 0 s.

(** LAST_N_YEARS_REGEX tried at the start of [s]; group 1. *)
Definition last_n_here (s : string) : option string :=
  alternation ["last"; "past"]
    (fun r1 =>
       match span1 is_space r1 with
       | Some (_, r2) =>
           match span1 is_digit r2 with
           | Some (ds, r3) =>
               match span1 is_space r3 with
               | Some (_, r4) => if String.prefix "year" r4 then Some ds else None
               | None => None
               end
           | None => None
           end
       | None => None
       end)
    s.

Definition LAST_N_YEARS_REGEX_search (s : string) : option string :=
  search last_n_here s.

(** TOP_N_REGEX tried at the start of [s]; group 1. *)
Definition top_n_here (s : string) : option string :=
  match strip_prefix "top" s with
  | Some r1 =>
      match span1 is_space r1 with
      | Some (_, r2) =>
          match span1 is_digit r2 with
          | Some (ds, _) => Some ds
          | None => None
          end
      | None => None
      end
  | None => None
  end.

Definition TOP_N_REGEX_search (s : string) : option string :=
  search top_n_here s.

(** The loop of [_match_locations]; [found] is kept in reverse. *)
Fixpoint match_locations_loop (lowered_query : string) (locations : list string)
    (found : list string) : list string :=
  match locations with
  | [] => rev found
  | location :: more =>
      let found' :=
        if word_search (lower location) lowered_query
        then location :: found else found in
      if (List.length found' =? 2)%nat then rev found'
      else match_locations_loop lowered_query more found'
  end.

Definition _match_locations (query : string) (locations : list string) : list string :=
  match_locations_loop (lower query) locations [].

Fixpoint detect_metric_in (table : list (string * list string))
    (lowered_query : string) : string :=
  match table with
  | [] => "general"
  | (metric, keywords) :: more =>
      if any_contains keywords lowered_query then metric
      else detect_metric_in more lowered_query
  end.

Definition _detect_metric (lowered_query : string) : string :=
  detect_metric_in METRIC_KEYWORDS lowered_query.

(** Order-preserving removal of repeats, with the [seen] set as a list. *)
Fixpoint unique_in_order (seen : list string) (detected : list string) : list string :=
  match detected with
  | [] => []
  | p :: more =>
      if existsb (String.eqb p) seen then unique_in_order seen more
      else p :: unique_in_order (p :: seen) more
  end.

Definition _detect_property_types (lowered_query : string) : list string :=
  let detected :=
    (map fst (List.filter (fun item => any_word (snd item) lowered_query) PROPERTY_KEYWORDS)
     ++ map fst (List.filter (fun item => any_contains (snd item) lowered_query)
                   SPECIAL_PROPERTY_KEYWORDS))%list in
  unique_in_order [] detected.

Definition _extract_years (lowered_query : string) : option Z * option (Z * Z) :=
  match YEAR_RANGE_REGEX_search lowered_query with
  | Some (a, b) => (None, Some (Z.min a b, Z.max a b))
  | None =>
      let unique_years := sorted_set (YEAR_REGEX_findall lowered_query) in
      match unique_years with
      | [] => (None, None)
      | [y] => (Some y, None)
      | y0 :: _ => (None, Some (y0, List.last unique_years y0))
      end
  end.

Definition _extract_last_n_years (lowered_query : string) : option Z :=
  match LAST_N_YEARS_REGEX_search lowered_query with
  | Some ds =>
      match py_int ds with
      | Some value => if (0 <? value)%Z then Some value else None
      | None => None
      end
  | None => None
  end.

Definition _detect_boolean (lowered_query : string) (keywords : list string)
    (word_boundary : bool) : bool :=
  if word_boundary then any_word keywords lowered_query
  else any_contains keywords lowered_query.

Definition _detect_ranking (lowered_query : string) : bool * string * option Z :=
  let ranking :=
    _detect_boolean lowered_query (RANKING_DESC_KEYWORDS ++ RANKING_ASC_KEYWORDS)%list true in
  let order :=
    if _detect_boolean lowered_query RANKING_ASC_KEYWORDS true then "asc" else "desc" in
  match TOP_N_REGEX_search lowered_query with
  | Some ds =>
      match py_int ds with
      | Some limit => (true, "desc", Some limit)
      | None => (ranking, order, None)
      end
  | None => (ranking, order, None)
  end.

Definition _detect_stats (lowered_query : string) : list string :=
  map fst (List.filter (fun item => any_contains (snd item) lowered_query) STAT_KEYWORDS).

Definition nonempty {A} (l : list A) : bool :=
  match l with [] => false | _ => true end.

(** [parse_query(query, locations)]; [DEFAULT_LOCATIONS] is the module
    constant read from the dataset when the process starts. *)
Definition parse_query (DEFAULT_LOCATIONS : list string) (query : string)
    (locations : option (list string)) : ParsedQuery :=
  let trimmed_query := strip query in
  let lowered_query := lower trimmed_query in
  let candidate_locations :=
    match locations with Some l => l | None => DEFAULT_LOCATIONS end in
  let parsed_locations := _match_locations trimmed_query candidate_locations in
  let metric := _detect_metric lowered_query in
  let property_types := _detect_property_types lowered_query in
  let '(year, year_range) := _extract_years lowered_query in
  let last_n_years := _extract_last_n_years lowered_query in
  let '(ranking_flag, ranking_order, ranking_limit) := _detect_ranking lowered_query in
  let stats := _detect_stats lowered_query in
  let coordinate := _detect_boolean lowered_query COORDINATE_KEYWORDS true in
  let near := _detect_boolean lowered_query NEAR_KEYWORDS true in
  let all_locations := _detect_boolean lowered_query ALL_LOCATIONS_KEYWORDS false in
  let explicit_comparison := any_contains COMPARISON_KEYWORDS lowered_query in
  let comparison := explicit_comparison || (2 <=? List.length parsed_locations)%nat in
  let ranking := ranking_flag && negb (nonempty parsed_locations) in
  let extrema := ranking_flag && nonempty parsed_locations in
  let general_insight :=
    String.eqb metric "general" || any_contains GENERAL_INSIGHT_KEYWORDS lowered_query in
  {| raw_query := trimmed_query;
     locations := parsed_locations;
     metric := metric;
     property_types := property_types;
     comparison := comparison;
     ranking := ranking;
     ranking_order := ranking_order;
     ranking_limit := ranking_limit;
     coordinate := coordinate;
     near := near;
     year := year;
     year_range := year_range;
     last_n_years := last_n_years;
     stats := stats;
     extrema := extrema;
     general_insight := general_insight;
     all_locations := all_locations |}.

End QueryParser.

(* ===================================================================== *)
(** ** Binary64 values                                                   *)
(* ===================================================================== *)

(** A nullable numeric column of the frame is a float64 column: a missing
    value is NaN. Arithmetic and comparisons are IEEE 754, the kernel's
    primitive floats. *)
Module PyFloat.
Local Open Scope Z_scope.

(** [pd.notna] on a float *)
Definition notna (x : float) : bool := negb (PrimFloat.is_nan x).

(** [math.isfinite] *)
Definition isfinite (x : float) : bool := PrimFloat.is_finite x.

(** [numerator / 2^shift] rounded to the nearest integer, ties to even. *)
Definition round_half_even (numerator : Z) (shift : Z) : Z :=
  let q := Z.shiftr numerator shift in
  let twice_rest := 2 * (numerator - Z.shiftl q shift) in
  let unit := Z.shiftl 1 shift in
  if twice_rest <? unit then q
  else if unit <? twice_rest then q + 1
  else if Z.even q then q else q + 1.

(** [|x| * scale] rounded to the nearest integer, ties to even, for finite
    [x]; the exact value of [x] is [m * 2^e]. *)
Definition scaled_magnitude (scale : Z) (x : float) : Z :=
  match Prim2SF x with
  | S754_finite _ m e =>
      if 0 <=? e then Z.pos m * 2 ^ e * scale
      else round_half_even (Z.pos m * scale) (- e)
  | _ => 0
  end.

Definition sign_bit (x : float) : bool :=
  match Prim2SF x with
  | S754_zero s | S754_infinity s | S754_finite s _ _ => s
  | S754_nan => false
  end.

(** C's [copysign] *)
Definition copysign (magnitude sign : float) : float :=
  if sign_bit sign then (- PrimFloat.abs magnitude)%float else PrimFloat.abs magnitude.

(** [x.is_integer()] *)
Definition is_integer (x : float) : bool :=
  match Prim2SF x with
  | S754_zero _ => true
  | S754_finite _ m e =>
      (0 <=? e) || (Z.land (Z.pos m) (Z.ones (- e)) =? 0)
  | _ => false
  end.

(** [int(x)] for a finite [x]: truncation towards zero. *)
Definition to_int (x : float) : Z :=
  match Prim2SF x with
  | S754_finite s m e =>
      let magnitude := if 0 <=? e then Z.pos m * 2 ^ e else Z.shiftr (Z.pos m) (- e) in
      if s then - magnitude else magnitude
  | _ => 0
  end.

Fixpoint zero_pad (width : nat) (s : string) : string :=
  match width with
  | O => s
  | S w => if (String.length s <? width)%nat then String "0" (zero_pad w s) else s
  end.

(** [format(x, ".<d>f")] for [d] of 1 or more: the decimal expansion nearest
    the exact value of [x], ties to even, with [d] digits after the point. *)
Definition format_fixed (d : nat) (x : float) : string :=
  match Prim2SF x with
  | S754_nan => "nan"
  | S754_infinity s => if s then "-inf" else "inf"
  | _ =>
      let n := scaled_magnitude (10 ^ Z.of_nat d) x in
      ((if sign_bit x then "-" else EmptyString)
       ++ PyStr.str_of_Z (n / 10 ^ Z.of_nat d) ++ "."
       ++ zero_pad d (PyStr.str_of_Z (n mod 10 ^ Z.of_nat d)))%string
  end.

Definition of_Z (n : Z) : float := PrimFloat.of_uint63 (Uint63.of_Z n).

(** [round(x, 2)]: the double nearest the two-decimal rounding of [x]. From
    [2^46] on, doubles are more than 0.01 apart and [x] rounds to itself;
    below, the scaled integer is exact in a double and one correctly rounded
    division gives the result. *)
Definition round2 (x : float) : float :=
  match Prim2SF x with
  | S754_finite s _ _ =>
      if (0x1p46 <=? PrimFloat.abs x)%float then x
      else
        let r := (of_Z (scaled_magnitude 100 x) / 100)%float in
        if s then (- r)%float else r
  | _ => x
  end.

End PyFloat.


(* ===================================================================== *)
(** ** Python's math module                                              *)
(* ===================================================================== *)

(** The functions CPython takes from the C library. Their values are the
    platform's; only [sqrt] is fixed by IEEE 754. *)
Class Libm := {
  libm_sin : float -> float;
  libm_cos : float -> float;
  libm_atan2 : float -> float -> float;
  libm_pow : float -> float -> float
}.

Module PyMath.
Import PyFloat.
Local Open Scope float_scope.

(** An error monad: [None] is a raised exception. *)
Definition bind {A B} (m : option A) (k : A -> option B) : option B :=
  match m with
  | Some x => k x
  | None => None
  end.

Notation "'let?' x := m 'in' k" := (bind m (fun x => k))
  (at level 10, x name, m at level 100, k at level 200).

Definition pi : float := 0x1.921fb54442d18p+1.
Definition degToRad : float := pi / 180.

(** [math.radians] *)
Definition radians (x : float) : float := x * degToRad.

(** The wrapper of a one-argument function that cannot overflow: a NaN
    from a number, or an infinity from a finite number, is ValueError. *)
Definition math_1 (func : float -> float) (x : float) : option float :=
  let r := func x in
  if PrimFloat.is_nan r && negb (PrimFloat.is_nan x) then None
  else if PrimFloat.is_infinity r && PrimFloat.is_finite x then None
  else Some r.

(** [math.sqrt]; the C function is the correctly rounded one. *)
Definition sqrt (x : float) : option float := math_1 PrimFloat.sqrt x.

Section WithLibm.
Context `{Libm}.

(** [math.sin] and [math.cos] *)
Definition sin (x : float) : option float := math_1 libm_sin x.
Definition cos (x : float) : option float := math_1 libm_cos x.

(** CPython's own [m_atan2]: it settles NaN, infinities and a zero [y]
    before asking the C library. *)
Definition m_atan2 (y x : float) : float :=
  if PrimFloat.is_nan x || PrimFloat.is_nan y then nan
  else if PrimFloat.is_infinity y then
    if PrimFloat.is_infinity x then
      if sign_bit x then copysign (0.75 * pi) y else copysign (0.25 * pi) y
    else copysign (0.5 * pi) y
  else if PrimFloat.is_infinity x || (y =? 0) then
    if sign_bit x then copysign pi y else copysign 0 y
  else libm_atan2 y x.

(** [math.atan2] *)
Definition atan2 (y x : float) : option float :=
  let r := m_atan2 y x in
  if PrimFloat.is_nan r && negb (PrimFloat.is_nan y) && negb (PrimFloat.is_nan x) then None
  else if PrimFloat.is_infinity r && PrimFloat.is_finite y && PrimFloat.is_finite x then None
  else Some r.

(** [x ** 2] on a float: the special cases of [float_pow], then the C
    library's [pow]; an infinite result from there is OverflowError. *)
Definition pow2 (x : float) : option float :=
  if PrimFloat.is_nan x then Some x
  else if PrimFloat.is_infinity x then Some (PrimFloat.abs x)
  else if x =? 0 then Some 0
  else if PrimFloat.abs x =? 1 then Some 1
  else
    let r := libm_pow (PrimFloat.abs x) 2 in
    if PrimFloat.is_infinity r then None else Some r.

End WithLibm.

End PyMath.

(* ===================================================================== *)
(** ** The pandas runtime                                                *)
(* ===================================================================== *)

(** What the code asks of pandas and does not fix itself.

    [quicksort] is the sort behind [DataFrame.sort_values] on one column. The
    code never passes [kind], so it gets the default, which pandas documents
    as not stable: rows come out ordered by the key, and the order of rows
    with equal keys is the library's choice.

    [series_mean] is [Series.mean] on the values left by [dropna]; the order
    in which numpy adds them up is its own. *)
Class PandasRuntime := {
  quicksort : forall A : Type, (A -> A -> bool) -> list A -> list A;
  series_mean : list float -> float
}.
Arguments quicksort {_ A} le l.

(** What pandas promises of that sort: it permutes the rows, and where the
    comparison is total and transitive on them it leaves them in order. *)
Class SortContract (pandas : PandasRuntime) : Prop := {
  quicksort_perm :
    forall (A : Type) (le : A -> A -> bool) (l : list A),
      Permutation (quicksort le l) l;
  quicksort_sorted :
    forall (A : Type) (le : A -> A -> bool) (l : list A),
      (forall x y, In x l -> In y l -> le x y = true \/ le y x = true) ->
      (forall x y z, In x l -> In y l -> In z l ->
         le x y = true -> le y z = true -> le x z = true) ->
      StronglySorted (fun x y => le x y = true) (quicksort le l)
}.

(** The sums pandas takes of the values that [skipna] leaves: [series_sum]
    is [Series.sum], [group_sum] the sum of one group of [groupby(...).sum()].
    Each adds in an order of its own; of no value they make zero. *)
Class PandasSums := {
  series_sum : list float -> float;
  group_sum : list float -> float
}.

(* ===================================================================== *)
(** ** helpers/data_filter.py                                            *)
(* ===================================================================== *)

Module DataFilter.
Import PyStr PyList PyFloat.
Local Open Scope Z_scope.

(** A record of the dataset: its location, its year, and its float64 cells by
    column name (the metrics, and [loc_lat] and [loc_lng]). *)
Record Row := {
  final_location : string;
  row_year : Z;
  cells : list (string * float)
}.

(** A frame: the names of its float64 columns and its rows, in index order. *)
Record DataFrame := {
  columns : list string;
  rows : list Row
}.

(** [row[column]]; a cell the row does not hold is missing. *)
Definition cell (column : string) (r : Row) : float :=
  dict_get (cells r) column nan.

(** [column in df.columns] *)
Definition has_column (column : string) (df : DataFrame) : bool :=
  existsb (String.eqb column) (columns df).

(** [df.empty] *)
Definition empty (df : DataFrame) : bool := is_nil (rows df).

Definition with_rows (df : DataFrame) (rs : list Row) : DataFrame :=
  {| columns := columns df; rows := rs |}.

(** [df[mask]] *)
Definition select (mask : Row -> bool) (df : DataFrame) : DataFrame :=
  with_rows df (List.filter mask (rows df)).

(** [df.dropna(subset=[column])] *)
Definition dropna (column : string) (df : DataFrame) : DataFrame :=
  select (fun r => notna (cell column r)) df.

(** [df.head(n)] *)
Definition head (n : Z) (df : DataFrame) : DataFrame :=
  with_rows df (first_n n (rows df)).

Definition year_le (a b : Row) : bool := row_year a <=? row_year b.

(** Ascending or descending order of a float64 column. *)
Definition value_le (column : string) (ascending : bool) (a b : Row) : bool :=
  if ascending then (cell column a <=? cell column b)%float
  else (cell column b <=? cell column a)%float.

Section WithPandas.
Context `{PandasRuntime}.

(** [df.sort_values("year")] *)
Definition sort_by_year (df : DataFrame) : DataFrame :=
  with_rows df (quicksort year_le (rows df)).

(** [df.sort_values(column, ascending=ascending)]: the rows with a value, in
    order, then the rows without one ([na_position] is "last"). *)
Definition sort_values (column : string) (ascending : bool) (df : DataFrame)
    : DataFrame :=
  with_rows df
    (quicksort (value_le column ascending)
       (List.filter (fun r => notna (cell column r)) (rows df))
     ++ List.filter (fun r => negb (notna (cell column r))) (rows df))%list.

(** [series.fillna("").str.strip().str.lower()], on one value *)
Definition _normalize (value : string) : string := lower (strip value).

Definition _location_mask (location : option string) (r : Row) : bool :=
  match location with
  | None => true
  | Some l =>
      if is_empty l then true
      else String.eqb (_normalize (final_location r)) (lower (strip l))
  end.

Definition filter_dataset (df : DataFrame) (location : option string)
    (year : option Z) (year_range : option (Z * Z)) (last_n_years : option Z)
    : DataFrame :=
  let filtered := select (_location_mask location) df in
  let filtered :=
    match year_range with
    | Some (a, b) =>
        let start := Z.min a b in
        let end_ := Z.max a b in
        select (fun r => (start <=? row_year r) && (row_year r <=? end_)) filtered
    | None => filtered
    end in
  let filtered :=
    match year with
    | Some y => select (fun r => row_year r =? y) filtered
    | None => filtered
    end in
  let filtered := sort_by_year filtered in
  match last_n_years with
  | Some n =>
      if (n =? 0) || empty filtered then filtered
      else
        let available_years := last_n n (sorted_set (map row_year (rows filtered))) in
        select (fun r => existsb (Z.eqb (row_year r)) available_years) filtered
  | None => filtered
  end.

Definition filter_two_locations (df : DataFrame) (first_location second_location : string)
    (year : option Z) (year_range : option (Z * Z)) (last_n_years : option Z)
    : DataFrame * DataFrame :=
  (filter_dataset df (Some first_location) year year_range last_n_years,
   filter_dataset df (Some second_location) year year_range last_n_years).

End WithPandas.

(** The order of [sort_values(["final location", "year"])]. Sorting on
    several columns goes through numpy's [lexsort], which is stable. *)
Definition location_year_le (a b : Row) : bool :=
  match String.compare (final_location a) (final_location b) with
  | Lt => true
  | Eq => row_year a <=? row_year b
  | Gt => false
  end.

(** [groupby("final location")["year"].idxmax()] over rows already sorted by
    location: of each run of one location, the first row with the greatest
    year; [best] is that row of the run being read. *)
Fixpoint idxmax_per_location (best : option Row) (sorted : list Row) : list Row :=
  match sorted, best with
  | [], None => []
  | [], Some b => [b]
  | r :: rest, None => idxmax_per_location (Some r) rest
  | r :: rest, Some b =>
      if String.eqb (final_location r) (final_location b)
      then idxmax_per_location (Some (if row_year b <? row_year r then r else b)) rest
      else b :: idxmax_per_location (Some r) rest
  end.

Definition latest_records_per_location (df : DataFrame) : DataFrame :=
  if empty df then df
  else with_rows df (idxmax_per_location None (stable_sort location_year_le (rows df))).

Definition ranking_frame (df : DataFrame) (year : option Z) : DataFrame :=
  match year with
  | Some y => select (fun r => row_year r =? y) df
  | None => latest_records_per_location df
  end.

(** [if locations:] and the mask of [aggregate_across_locations] *)
Definition _locations_mask (locations : option (list string)) (r : Row) : bool :=
  match locations with
  | None | Some [] => true
  | Some ls =>
      existsb (String.eqb (_normalize (final_location r)))
        (map (fun loc => lower (strip loc)) ls)
  end.

Definition aggregate_across_locations (df : DataFrame) (locations : option (list string))
    (year : option Z) (year_range : option (Z * Z)) (last_n_years : option Z)
    : DataFrame :=
  let working := select (_locations_mask locations) df in
  let working :=
    match year_range with
    | Some (a, b) =>
        let start := Z.min a b in
        let end_ := Z.max a b in
        select (fun r => (start <=? row_year r) && (row_year r <=? end_)) working
    | None => working
    end in
  let working :=
    match year with
    | Some y => select (fun r => row_year r =? y) working
    | None => working
    end in
  let working := with_rows working (stable_sort location_year_le (rows working)) in
  match last_n_years with
  | Some n =>
      if (n =? 0) || empty working then working
      else
        let available_years := last_n n (sorted_set (map row_year (rows working))) in
        select (fun r => existsb (Z.eqb (row_year r)) available_years) working
  | None => working
  end.

End DataFilter.

(* ===================================================================== *)
(** ** helpers/excel_reader.py                                           *)
(* ===================================================================== *)

(** The workbook is read once, when the module is loaded; [df] is that
    frame. Its records carry a location each, so [dropna] keeps them all. *)
Module ExcelReader.
Import PyList DataFilter.

(** [get_dataframe]: a deep copy, which an immutable value is already. *)
Definition get_dataframe (df : DataFrame) : DataFrame := df.

Definition list_locations (df : DataFrame) : list string :=
  sorted_set_str (map final_location (rows df)).

End ExcelReader.

(* ===================================================================== *)
(** ** helpers/chart_builder.py                                          *)
(* ===================================================================== *)

Module ChartBuilder.
Import PyStr PyList PyFloat DataFilter.

(** [{"labels": ..., "values": ...}]; a value of [None] is JSON null. *)
Record SeriesPayload := {
  labels : list string;
  values : list (option float)
}.

(** [{"labels": ..., "series": {name: values}}] *)
Record MultiSeriesPayload := {
  multi_labels : list string;
  series : gmap string (list (option float))
}.

(** One step of the loop of [_sanitize_values]; [float(value)] of a float is
    the value. *)
Definition sanitize_value (value : option float) : option float :=
  match value with
  | None => None
  | Some v => if notna v then Some v else None
  end.

Definition _sanitize_values (values : list (option float)) : list (option float) :=
  map sanitize_value values.

(** [df[column].tolist()] *)
Definition column_tolist (column : string) (df : DataFrame) : list (option float) :=
  map (fun r => Some (cell column r)) (rows df).

(** [df["year"].astype(str).tolist()] *)
Definition year_labels (df : DataFrame) : list string :=
  map (fun r => str_of_Z (row_year r)) (rows df).

Definition build_bar_chart (labels : list string) (values : list (option float))
    : SeriesPayload :=
  {| labels := labels; values := _sanitize_values values |}.

(** The value of one series at one unified label: [None] when the frame has
    no row with the label or the cell is missing; with two rows under one
    label [.loc] yields a Series and its truth value raises, the outer
    [None]. *)
Definition series_value (value_column : string) (df : DataFrame) (label : string)
    : option (option float) :=
  match List.filter (fun r => String.eqb (str_of_Z (row_year r)) label) (rows df) with
  | [] => Some None
  | [r] => Some (if notna (cell value_column r) then Some (cell value_column r) else None)
  | _ => None
  end.

Fixpoint sequence {A} (l : list (option A)) : option (list A) :=
  match l with
  | [] => Some []
  | None :: _ => None
  | Some x :: r =>
      match sequence r with
      | Some xs => Some (x :: xs)
      | None => None
      end
  end.

(** [build_multi_line_chart(frames, value_column)] with the year as label
    column; [None] when building a series raises. *)
Definition build_multi_line_chart (frames : gmap string DataFrame) (value_column : string)
    : option MultiSeriesPayload :=
  let combined_labels :=
    sorted_set_str (flat_map (fun item => year_labels (snd item)) (map_to_list frames)) in
  let computed :=
    (fun df => sequence (map (series_value value_column df) combined_labels)) <$> frames in
  if forallb (fun item => match snd item with Some _ => true | None => false end)
       (map_to_list computed)
  then Some {| multi_labels := combined_labels;
               series := default [] <$> computed |}
  else None.

Section WithPandas.
Context `{PandasRuntime}.

(** [build_line_chart(df, value_column)] with the year as label column;
    [None] is the KeyError of a column the frame does not have. *)
Definition build_line_chart (df : DataFrame) (value_column : string)
    : option SeriesPayload :=
  let sorted_df := sort_by_year df in
  if has_column value_column sorted_df
  then Some {| labels := year_labels sorted_df;
               values := _sanitize_values (column_tolist value_column sorted_df) |}
  else None.

(** [build_multi_line_from_columns(df, column_map)]; [None] is the KeyError
    of a mapped column the frame does not have. *)
Definition build_multi_line_from_columns (df : DataFrame) (column_map : gmap string string)
    : option MultiSeriesPayload :=
  let sorted_df := sort_by_year df in
  if forallb (fun item => has_column (snd item) sorted_df) (map_to_list column_map)
  then Some {| multi_labels := year_labels sorted_df;
               series := (fun column => _sanitize_values (column_tolist column sorted_df))
                         <$> column_map |}
  else None.

End WithPandas.

End ChartBuilder.

(* ===================================================================== *)
(** ** helpers/summary_generator.py                                      *)
(* ===================================================================== *)

Module SummaryGenerator.
Import PyStr PyList PyFloat QueryParser.
Local Open Scope string_scope.

Definition METRIC_MESSAGES : list (string * string) :=
  [ ("price", "pricing trends");
    ("demand", "buyer demand");
    ("sales", "sales values");
    ("supply", "new supply and inventory levels");
    ("general", "overall performance metrics") ].

Definition PROPERTY_LABELS : list (string * string) :=
  [ ("flat", "flats");
    ("office", "offices");
    ("shop", "shops");
    ("carpet_area", "carpet area supplied") ].

(** [sep.join(items)] *)
Fixpoint join (sep : string) (items : list string) : string :=
  match items with
  | [] => EmptyString
  | [x] => x
  | x :: more => x ++ sep ++ join sep more
  end.

(** One entry of the statistics dict: its keys, where present. *)
Record StatEntry := {
  stat_value : option float;
  stat_year : option Z;
  stat_direction : option string
}.

(** One row of the rank list *)
Record RankRecord := {
  rank : Z;
  rank_location : string;
  rank_value : float;
  rank_year : Z
}.

(** One row of the nearby list *)
Record NearbyRecord := {
  nearby_location : string;
  nearby_lat : float;
  nearby_lng : float;
  distance_km : float
}.

(** The comparison context when it is not the empty dict *)
Record ComparisonRecord := {
  winner : string;
  loser : string;
  difference : float
}.

(** The context dict, read through [.get] with its defaults: an absent key
    and an empty value are one. *)
Record Context := {
  coordinate_lat : option float;
  coordinate_lng : option float;
  nearby : list NearbyRecord;
  ranking_rows : list RankRecord;
  comparison_context : option ComparisonRecord;
  stats_context : gmap string StatEntry
}.

Definition empty_context : Context :=
  {| coordinate_lat := None; coordinate_lng := None; nearby := [];
     ranking_rows := []; comparison_context := None; stats_context := ∅ |}.

Definition _metric_phrase (parsed : ParsedQuery) : string :=
  let base := dict_get METRIC_MESSAGES (metric parsed) "overall performance metrics" in
  match property_types parsed with
  | [] => base
  | props =>
      base ++ " for " ++ join " & " (map (fun prop => dict_get PROPERTY_LABELS prop prop) props)
  end.

(** The truth value of an [int | None] *)
Definition truthy (n : option Z) : bool :=
  match n with Some v => negb (v =? 0)%Z | None => false end.

Definition _time_phrase (parsed : ParsedQuery) : string :=
  if truthy (year parsed) then "in " ++ str_of_Z (default 0%Z (year parsed))
  else
    match year_range parsed with
    | Some (start, end_) => "from " ++ str_of_Z start ++ " to " ++ str_of_Z end_
    | None =>
        if truthy (last_n_years parsed)
        then "across the last " ++ str_of_Z (default 0%Z (last_n_years parsed)) ++ " years"
        else "across the available years"
    end.

Definition _format_value (value : option float) : string :=
  match value with
  | None => "N/A"
  | Some v =>
      if negb (isfinite v) then "N/A"
      else
        let absolute := PrimFloat.abs v in
        if (1000000000 <=? absolute)%float then format_fixed 2 (v / 1000000000)%float ++ "B"
        else if (1000000 <=? absolute)%float then format_fixed 2 (v / 1000000)%float ++ "M"
        else if (1000 <=? absolute)%float then format_fixed 1 (v / 1000)%float ++ "K"
        else if is_integer absolute then str_of_Z (to_int v)
        else format_fixed 2 v
  end.

Definition year_suffix (y : option Z) : string :=
  if truthy y then " in " ++ str_of_Z (default 0%Z y) else EmptyString.

Definition _stats_sentence (stats : gmap string StatEntry) : string :=
  let average_part :=
    match stats !! "average" with
    | Some entry =>
        match stat_value entry with
        | Some v => ["average " ++ _format_value (Some v)]
        | None => []
        end
    | None => []
    end in
  let max_part :=
    match stats !! "max" with
    | Some entry =>
        ["peak of " ++ _format_value (stat_value entry) ++ year_suffix (stat_year entry)]
    | None => []
    end in
  let min_part :=
    match stats !! "min" with
    | Some entry =>
        ["lowest value of " ++ _format_value (stat_value entry) ++ year_suffix (stat_year entry)]
    | None => []
    end in
  let growth_part :=
    match stats !! "growth_rate" with
    | Some entry =>
        match stat_value entry with
        | Some rate =>
            [default "change" (stat_direction entry) ++ " of "
             ++ _format_value (Some rate) ++ "% across the selected years"]
        | None => []
        end
    | None => []
    end in
  match (average_part ++ max_part ++ min_part ++ growth_part)%list with
  | [] => EmptyString
  | parts => " Key stats: " ++ join "; " parts ++ "."
  end.

Definition first_location_or (parsed : ParsedQuery) (fallback : string) : string :=
  match locations parsed with
  | l :: _ => l
  | [] => fallback
  end.

Definition generate_summary (parsed : ParsedQuery) (context : Context) : string :=
  if coordinate parsed then
    let location := first_location_or parsed "the requested location" in
    match coordinate_lat context, coordinate_lng context with
    | Some lat, Some lng =>
        "Coordinates for " ++ location ++ ": lat " ++ _format_value (Some lat)
        ++ ", lng " ++ _format_value (Some lng) ++ "."
    | _, _ =>
        "Latitude/longitude for " ++ location ++ " could not be located in the dataset."
    end
  else if near parsed then
    let location := first_location_or parsed "the target locality" in
    match nearby context with
    | [] => "No nearby localities were detected for " ++ location ++ "."
    | entries =>
        "Localities closest to " ++ location ++ " include "
        ++ join ", " (map nearby_location entries) ++ "."
    end
  else if ranking parsed then
    match ranking_rows context with
    | [] => "No ranking data was available for the requested metric."
    | top :: _ =>
        let time_phrase :=
          if negb (rank_year top =? 0)%Z then "in " ++ str_of_Z (rank_year top)
          else "based on the latest data" in
        rank_location top ++ " leads " ++ _metric_phrase parsed ++ " " ++ time_phrase
        ++ " with " ++ _format_value (Some (rank_value top)) ++ "."
    end
  else if comparison parsed && (2 <=? List.length (locations parsed))%nat then
    match comparison_context context, locations parsed with
    | Some c, _ =>
        if negb (is_empty (winner c)) && negb (is_empty (loser c)) then
          winner c ++ " currently outperforms " ++ loser c ++ " for "
          ++ _metric_phrase parsed ++ " by " ++ _format_value (Some (difference c))
          ++ ". Use the chart to inspect the year-wise divergence."
        else
          "Comparing " ++ _metric_phrase parsed ++ " between "
          ++ nth 0 (locations parsed) EmptyString ++ " and "
          ++ nth 1 (locations parsed) EmptyString ++ " " ++ _time_phrase parsed ++ "."
    | None, _ =>
        "Comparing " ++ _metric_phrase parsed ++ " between "
        ++ nth 0 (locations parsed) EmptyString ++ " and "
        ++ nth 1 (locations parsed) EmptyString ++ " " ++ _time_phrase parsed ++ "."
    end
  else if general_insight parsed && nonempty (locations parsed) then
    "Overview of " ++ _metric_phrase parsed ++ " for "
    ++ nth 0 (locations parsed) EmptyString ++ " " ++ _time_phrase parsed ++ "."
  else if all_locations parsed && negb (nonempty (locations parsed)) then
    "Aggregated " ++ _metric_phrase parsed ++ " across Pune " ++ _time_phrase parsed ++ "."
    ++ _stats_sentence (stats_context context)
  else if negb (nonempty (locations parsed)) then
    "No matching location was found in the dataset. Please refine the query."
  else
    "Showing " ++ _metric_phrase parsed ++ " for "
    ++ nth 0 (locations parsed) EmptyString ++ " " ++ _time_phrase parsed ++ "."
    ++ _stats_sentence (stats_context context).

End SummaryGenerator.

(* ===================================================================== *)
(** ** api/views.py                                                      *)
(* ===================================================================== *)

Module Views.
Import PyStr PyList PyFloat QueryParser DataFilter ChartBuilder SummaryGenerator.
Local Open Scope string_scope.

Definition BASE_METRIC_COLUMNS : list (string * string) :=
  [ ("price", "flat - weighted average rate");
    ("demand", "total sold - igr");
    ("supply", "total units");
    ("sales", "total_sales - igr");
    ("general", "total_sales - igr") ].

Definition PROPERTY_METRIC_COLUMNS : list (string * list (string * string)) :=
  [ ("price", [ ("flat", "flat - weighted average rate");
                ("office", "office - weighted average rate");
                ("shop", "shop - weighted average rate") ]);
    ("demand", [ ("flat", "flat_sold - igr");
                 ("office", "office_sold - igr");
                 ("shop", "shop_sold - igr") ]);
    ("supply", [ ("flat", "flat total");
                 ("office", "office total");
                 ("shop", "shop total");
                 ("carpet_area", "total carpet area supplied (sqft)") ]);
    ("sales", [ ("flat", "flat_sold - igr");
                ("office", "office_sold - igr");
                ("shop", "shop_sold - igr") ]) ].

Definition RANKING_KEYWORDS_LIMIT : list string :=
  [ "which"; "highest"; "lowest"; "most"; "least" ].
Definition DEFAULT_RANKING_LIMIT : Z := 5.
Definition NEARBY_LIMIT : Z := 3.

Definition _metric_column_for_property (metric : string) (property_type : option string)
    : option string :=
  match property_type with
  | None => None
  | Some p =>
      if is_empty p then None
      else lookup_key (default [] (lookup_key PROPERTY_METRIC_COLUMNS metric)) p
  end.

Definition _resolve_value_column (parsed : ParsedQuery) : string :=
  let base := dict_get BASE_METRIC_COLUMNS (metric parsed) "total_sales - igr" in
  match property_types parsed with
  | first_type :: _ =>
      match _metric_column_for_property (metric parsed) (Some first_type) with
      | Some first_column => if is_empty first_column then base else first_column
      | None => base
      end
  | [] => base
  end.

(** [key in requested] *)
Definition requested (key : string) (requested_stats : list string) : bool :=
  existsb (String.eqb key) requested_stats.

(** [idxmax] of the values left by [dropna]: the first row holding the
    greatest. *)
Fixpoint idxmax (column : string) (best : option Row) (rs : list Row) : option Row :=
  match rs with
  | [] => best
  | r :: rest =>
      if notna (cell column r) then
        match best with
        | None => idxmax column (Some r) rest
        | Some b =>
            idxmax column
              (Some (if (cell column b <? cell column r)%float then r else b)) rest
        end
      else idxmax column best rest
  end.

Fixpoint idxmin (column : string) (best : option Row) (rs : list Row) : option Row :=
  match rs with
  | [] => best
  | r :: rest =>
      if notna (cell column r) then
        match best with
        | None => idxmin column (Some r) rest
        | Some b =>
            idxmin column
              (Some (if (cell column r <? cell column b)%float then r else b)) rest
        end
      else idxmin column best rest
  end.

Definition extremum_entry (column : string) (r : Row) : StatEntry :=
  {| stat_value := Some (cell column r);
     stat_year := Some (row_year r);
     stat_direction := None |}.

(** [df[column].dropna()] as a list *)
Definition non_null_values (column : string) (df : DataFrame) : list float :=
  List.filter notna (map (cell column) (rows df)).

(** The growth between two values, in percent *)
Definition growth_percent (first_value last_value : float) : float :=
  ((last_value - first_value) / first_value * 100)%float.

Definition growth_entry (growth : float) : StatEntry :=
  {| stat_value := Some (round2 growth);
     stat_year := None;
     stat_direction := Some (if (0 <=? growth)%float then "increase" else "decrease") |}.

(** The status and the body of an HTTP answer that is not an exception. *)
Inductive ChartData :=
  | NoChart
  | OneSeries (payload : SeriesPayload)
  | ManySeries (payload : MultiSeriesPayload).

Inductive TableData :=
  | RankTable (records : list RankRecord)
  | RowTable (records : list Row)
  | CoordinateTable (location : string) (lat lng : option float)
  | NearbyTable (records : list NearbyRecord).

Inductive JsonResponse :=
  | Payload (summary : string) (chart_type : string) (chart_data : ChartData)
      (table_data : TableData)
  | Detail (detail : string) (status : Z).

Definition _build_response (summary chart_type : string) (chart_data : ChartData)
    (table_data : TableData) : JsonResponse :=
  Payload summary chart_type chart_data table_data.

Definition _resolve_ranking_limit (parsed : ParsedQuery) : Z :=
  let by_keyword :=
    if any_contains RANKING_KEYWORDS_LIMIT (lower (raw_query parsed)) then 1%Z
    else DEFAULT_RANKING_LIMIT in
  match ranking_limit parsed with
  | Some n => if (n =? 0)%Z then by_keyword else n
  | None => by_keyword
  end.

(** The loop that numbers the rows, [idx] being the next rank. *)
Fixpoint rank_records (value_column : string) (idx : Z) (rs : list Row) : list RankRecord :=
  match rs with
  | [] => []
  | r :: rest =>
      {| rank := idx;
         rank_location := final_location r;
         rank_value := cell value_column r;
         rank_year := row_year r |} :: rank_records value_column (idx + 1)%Z rest
  end.

(** The context of a comparison, from the last value of each location. *)
Definition compare_latest (first_location second_location : string)
    (first_latest second_latest : float) : option ComparisonRecord :=
  if notna first_latest && notna second_latest then
    if (second_latest <? first_latest)%float then
      Some {| winner := first_location; loser := second_location;
              difference := (first_latest - second_latest)%float |}
    else if (first_latest <? second_latest)%float then
      Some {| winner := second_location; loser := first_location;
              difference := (second_latest - first_latest)%float |}
    else None
  else None.

(** The labels of the property types in chart legends *)
Definition PROPERTY_LABELS : list (string * string) :=
  [ ("flat", "Flat");
    ("office", "Office");
    ("shop", "Shop");
    ("carpet_area", "Carpet Area") ].

Definition _metric_label (metric : string) : string :=
  dict_get
    [ ("price", "Price"); ("demand", "Demand"); ("supply", "Supply");
      ("sales", "Sales"); ("general", "Metric") ]
    metric "Metric".

(** One turn of the loop of [_multi_property_columns] *)
Definition add_property_column (metric : string) (columns : gmap string string)
    (property_type : string) : gmap string string :=
  match _metric_column_for_property metric (Some property_type) with
  | Some column =>
      if is_empty column then columns
      else
        let label := dict_get PROPERTY_LABELS property_type (title property_type) in
        <[label ++ " " ++ _metric_label metric := column]> columns
  | None => columns
  end.

Definition _multi_property_columns (parsed : ParsedQuery) : gmap string string :=
  if (List.length (property_types parsed) <=? 1)%nat then ∅
  else fold_left (add_property_column (metric parsed)) (property_types parsed) ∅.

(** One record of the city-wide table: a year and the total of the value
    column over all locations. *)
Record YearTotal := {
  total_year : Z;
  total_value : float
}.

(** [pd.DataFrame(table_records)] of such records: a frame of the year and
    the value column, with no location in it. *)
Definition totals_frame (value_column : string) (records : list YearTotal) : DataFrame :=
  {| columns := [value_column];
     rows := map (fun t => {| final_location := EmptyString;
                              row_year := total_year t;
                              cells := [(value_column, total_value t)] |}) records |}.

(** What [handle_query] answers: one of the responses above, or the
    city-wide payload, whose table holds year totals. *)
Inductive Answer :=
  | Listed (response : JsonResponse)
  | CityWide (summary : string) (chart_type : string) (chart_data : ChartData)
      (table_data : list YearTotal).

(** The strategies of [handle_query] *)
Inductive Strategy := CoordinateStrategy | RankingStrategy | ComparisonStrategy
  | SingleLocationStrategy.

(** The chain of tests of [handle_query] on the parsed query *)
Definition dispatch (parsed : ParsedQuery) : Strategy :=
  if coordinate parsed || near parsed then CoordinateStrategy
  else if ranking parsed then RankingStrategy
  else if comparison parsed && (2 <=? List.length (locations parsed))%nat
  then ComparisonStrategy
  else SingleLocationStrategy.

Section WithPandas.
Context `{PandasRuntime}.

Definition _compute_stats (df : DataFrame) (column : string) (requested_stats : list string)
    : gmap string StatEntry :=
  if negb (has_column column df) || empty df || is_nil requested_stats then ∅
  else
    let numeric_series := non_null_values column df in
    if is_nil numeric_series then ∅
    else
      let stats : gmap string StatEntry := ∅ in
      let stats :=
        if requested "average" requested_stats
        then <["average" := {| stat_value := Some (series_mean numeric_series);
                               stat_year := None; stat_direction := None |}]> stats
        else stats in
      let stats :=
        if requested "max" requested_stats
        then match idxmax column None (rows df) with
             | Some r => <["max" := extremum_entry column r]> stats
             | None => stats
             end
        else stats in
      let stats :=
        if requested "min" requested_stats
        then match idxmin column None (rows df) with
             | Some r => <["min" := extremum_entry column r]> stats
             | None => stats
             end
        else stats in
      if requested "growth_rate" requested_stats && (2 <=? List.length numeric_series)%nat
      then
        let sorted_values := non_null_values column (sort_by_year df) in
        match sorted_values with
        | first_value :: _ =>
            let last_value := List.last sorted_values first_value in
            if notna first_value && negb (first_value =? 0)%float
            then <["growth_rate" := growth_entry (growth_percent first_value last_value)]> stats
            else stats
        | [] => stats (* not reached: sorting loses no row *)
        end
      else stats.

Definition _handle_ranking (df : DataFrame) (parsed : ParsedQuery) : JsonResponse :=
  let value_column := _resolve_value_column parsed in
  let ranking_df := ranking_frame df (year parsed) in
  if negb (has_column value_column ranking_df)
  then Detail ("Column '" ++ value_column ++ "' is missing in the data.") 400
  else
    let ranking_df := dropna value_column ranking_df in
    if empty ranking_df then Detail "No data available for ranking." 404
    else
      let ranking_df :=
        sort_values value_column (String.eqb (ranking_order parsed) "asc") ranking_df in
      let ranking_df := head (_resolve_ranking_limit parsed) ranking_df in
      let labels := map final_location (rows ranking_df) in
      let values := column_tolist value_column ranking_df in
      let chart_data := build_bar_chart labels values in
      let table_records := rank_records value_column 1 (rows ranking_df) in
      let context :=
        {| coordinate_lat := None; coordinate_lng := None; nearby := [];
           ranking_rows := table_records; comparison_context := None;
           stats_context := ∅ |} in
      let summary := generate_summary parsed context in
      _build_response summary "bar" (OneSeries chart_data) (RankTable table_records).

(** [df.sort_values("year").iloc[-1][column]]; [None] on an empty frame,
    where [iloc] raises. *)
Definition latest_value (column : string) (df : DataFrame) : option float :=
  match rows (sort_by_year df) with
  | [] => None
  | r :: rest => Some (cell column (List.last rest r))
  end.

(** [_handle_comparison]; [None] when an exception leaves the handler. *)
Definition _handle_comparison (df : DataFrame) (parsed : ParsedQuery)
    : option JsonResponse :=
  match locations parsed with
  | first_location :: second_location :: _ =>
      let value_column := _resolve_value_column parsed in
      let '(first_df, second_df) :=
        filter_two_locations df first_location second_location
          (year parsed) (year_range parsed) (last_n_years parsed) in
      if empty first_df || empty second_df
      then Some (Detail "Requested locations are missing in the data." 404)
      else if negb (has_column value_column first_df)
              || negb (has_column value_column second_df)
      then Some (Detail ("Column '" ++ value_column ++ "' is missing in the data.") 400)
      else
        match build_multi_line_chart
                (<[second_location := second_df]> (<[first_location := first_df]> ∅))
                value_column with
        | None => None
        | Some chart_data =>
            let table_records :=
              stable_sort location_year_le (rows first_df ++ rows second_df)%list in
            match latest_value value_column first_df,
                  latest_value value_column second_df with
            | Some first_latest, Some second_latest =>
                let comparison_context :=
                  compare_latest first_location second_location
                    first_latest second_latest in
                let context :=
                  {| coordinate_lat := None; coordinate_lng := None; nearby := [];
                     ranking_rows := []; comparison_context := comparison_context;
                     stats_context := ∅ |} in
                let summary := generate_summary parsed context in
                Some (_build_response summary "multi_line" (ManySeries chart_data)
                        (RowTable table_records))
            | _, _ => None
            end
        end
  | _ => Some (Detail "Please mention two locations for comparison." 400)
  end.

Section WithLibm.
Context `{Libm}.
Import PyMath.

(** [_distance_km]; [None] when a function of [math] raises. A row without
    a coordinate holds NaN there. *)
Definition _distance_km (first_row second_row : Row) : option float :=
  let R := 6371%float in
  let lat1 := radians (cell "loc_lat" first_row) in
  let lon1 := radians (cell "loc_lng" first_row) in
  let lat2 := radians (cell "loc_lat" second_row) in
  let lon2 := radians (cell "loc_lng" second_row) in
  let dlat := (lat2 - lat1)%float in
  let dlon := (lon2 - lon1)%float in
  let? sin_dlat := PyMath.sin (dlat / 2)%float in
  let? sin2_dlat := pow2 sin_dlat in
  let? cos_lat1 := PyMath.cos lat1 in
  let? cos_lat2 := PyMath.cos lat2 in
  let? sin_dlon := PyMath.sin (dlon / 2)%float in
  let? sin2_dlon := pow2 sin_dlon in
  let a := (sin2_dlat + cos_lat1 * cos_lat2 * sin2_dlon)%float in
  let? root_a := PyMath.sqrt a in
  let? root_1_a := PyMath.sqrt (1 - a)%float in
  let? angle := PyMath.atan2 root_a root_1_a in
  let c := (2 * angle)%float in
  Some (R * c)%float.

(** [others["distance_km"] = ...] on one row *)
Definition with_distance (base row : Row) : option Row :=
  let? d := _distance_km base row in
  Some {| final_location := final_location row;
          row_year := row_year row;
          cells := ("distance_km", round2 d) :: cells row |}.

Definition nearby_record (row : Row) : NearbyRecord :=
  {| nearby_location := final_location row;
     nearby_lat := cell "loc_lat" row;
     nearby_lng := cell "loc_lng" row;
     distance_km := cell "distance_km" row |}.

(** Is [row] a record of [location]? The name in the frame is stripped and
    lowered, the one asked for is lowered. *)
Definition at_location (location : string) (row : Row) : bool :=
  String.eqb (_normalize (final_location row)) (lower location).

(** [_nearby_localities]; [None] when a distance raises. *)
Definition _nearby_localities (df : DataFrame) (location : string)
    : option (list NearbyRecord) :=
  let latest := latest_records_per_location df in
  match List.filter (at_location location) (rows latest) with
  | [] => Some []
  | base :: _ =>
      let others := List.filter (fun row => negb (at_location location row)) (rows latest) in
      if is_nil others then Some []
      else
        let? measured := sequence (map (with_distance base) others) in
        let nearest :=
          head NEARBY_LIMIT
            (sort_values "distance_km" true
               {| columns := "distance_km" :: columns latest; rows := measured |}) in
        Some (map nearby_record (rows nearest))
  end.

(** [_handle_coordinate]; [None] when an exception leaves the handler. *)
Definition _handle_coordinate (df : DataFrame) (parsed : ParsedQuery)
    : option JsonResponse :=
  match locations parsed with
  | [] => Some (Detail "Please mention a location for coordinate queries." 400)
  | location :: _ =>
      let filtered := filter_dataset df (Some location) None None None in
      if empty filtered
      then Some (Detail "Requested location is missing in the data." 404)
      else
        match rows (sort_by_year filtered) with
        | [] => None
        | r :: rest =>
            let latest_row := List.last rest r in
            let lat := lookup_key (cells latest_row) "loc_lat" in
            let lng := lookup_key (cells latest_row) "loc_lng" in
            if near parsed then
              let? nearby_rows := _nearby_localities df location in
              let context :=
                {| coordinate_lat := lat; coordinate_lng := lng; nearby := nearby_rows;
                   ranking_rows := []; comparison_context := None;
                   stats_context := ∅ |} in
              Some (_build_response (generate_summary parsed context) "none" NoChart
                      (NearbyTable nearby_rows))
            else
              let context :=
                {| coordinate_lat := lat; coordinate_lng := lng; nearby := [];
                   ranking_rows := []; comparison_context := None;
                   stats_context := ∅ |} in
              Some (_build_response (generate_summary parsed context) "none" NoChart
                      (CoordinateTable location lat lng))
        end
  end.

End WithLibm.

Section WithSums.
Context `{PandasSums}.

(** [working.groupby("year", as_index=False)[value_column].sum()]: a total
    for each year of the frame, the years ascending. *)
Definition groupby_year_sum (value_column : string) (working : DataFrame)
    : list YearTotal :=
  map (fun y =>
         {| total_year := y;
            total_value :=
              group_sum (non_null_values value_column
                           (select (fun r => (row_year r =? y)%Z) working)) |})
      (sorted_set (map row_year (rows working))).

(** [_handle_single_location]; [None] when an exception leaves the handler. *)
Definition _handle_single_location (df : DataFrame) (parsed : ParsedQuery)
    : option Answer :=
  let value_column := _resolve_value_column parsed in
  let multi_property_columns := _multi_property_columns parsed in
  let stats_of stats :=
    {| coordinate_lat := None; coordinate_lng := None; nearby := [];
       ranking_rows := []; comparison_context := None; stats_context := stats |} in
  if all_locations parsed && negb (nonempty (locations parsed)) then
    let working :=
      aggregate_across_locations df None
        (year parsed) (year_range parsed) (last_n_years parsed) in
    if empty working
    then Some (Listed (Detail "No matching data was found for Pune-wide query." 404))
    else if negb (has_column value_column working)
    then Some (Listed (Detail ("Column '" ++ value_column ++ "' is missing in the data.") 400))
    else
      let charted :=
        if truthy (year parsed) && negb (bool_decide (is_Some (year_range parsed))) then
          let total_value := series_sum (non_null_values value_column working) in
          let this_year := default 0%Z (year parsed) in
          Some (build_bar_chart [str_of_Z this_year] [Some total_value],
                [ {| total_year := this_year; total_value := total_value |} ])
        else
          let grouped := groupby_year_sum value_column working in
          match build_line_chart (totals_frame value_column grouped) value_column with
          | Some chart_data => Some (chart_data, grouped)
          | None => None
          end in
      match charted with
      | Some (chart_data, table_records) =>
          let stats :=
            _compute_stats (totals_frame value_column table_records) value_column
              (stats parsed) in
          let summary := generate_summary parsed (stats_of stats) in
          Some (CityWide summary
                  (if (1 <? List.length table_records)%nat then "line" else "bar")
                  (OneSeries chart_data) table_records)
      | None => None
      end
  else
    match locations parsed with
    | [] => Some (Listed (Detail "Please mention at least one location in your query." 400))
    | location :: _ =>
        let filtered_df :=
          filter_dataset df (Some location)
            (year parsed) (year_range parsed) (last_n_years parsed) in
        if empty filtered_df
        then Some (Listed (Detail "Requested location is missing in the data." 404))
        else if negb (has_column value_column filtered_df)
        then Some (Listed (Detail ("Column '" ++ value_column ++ "' is missing in the data.") 400))
        else
          let charted :=
            if negb (bool_decide (multi_property_columns = ∅)) then
              match build_multi_line_from_columns filtered_df multi_property_columns with
              | Some chart_data => Some (ManySeries chart_data, "multi_line")
              | None => None
              end
            else
              match build_line_chart filtered_df value_column with
              | Some chart_data => Some (OneSeries chart_data, "line")
              | None => None
              end in
          match charted with
          | Some (chart_data, chart_type) =>
              let stats := _compute_stats filtered_df value_column (stats parsed) in
              let summary := generate_summary parsed (stats_of stats) in
              Some (Listed (_build_response summary chart_type chart_data
                              (RowTable (rows filtered_df))))
          | None => None
          end
    end.

Section WithLibm.
Context `{Libm}.

(** [handle_query] once the body is decoded: [payload_query] is
    [payload.get("query")], [None] for a key that is absent or null, and
    [df] the frame of the workbook. *)
Definition handle_query (df : DataFrame) (payload_query : option string)
    : option Answer :=
  let query := strip (default EmptyString payload_query) in
  if is_empty query then Some (Listed (Detail "Query text is required." 400))
  else
    let df := ExcelReader.get_dataframe df in
    let parsed :=
      parse_query (ExcelReader.list_locations df) query
        (Some (ExcelReader.list_locations df)) in
    if coordinate parsed || near parsed then Listed <$> _handle_coordinate df parsed
    else if ranking parsed then Some (Listed (_handle_ranking df parsed))
    else if comparison parsed && (2 <=? List.length (locations parsed))%nat
    then Listed <$> _handle_comparison df parsed
    else _handle_single_location df parsed.

End WithLibm.

End WithSums.

End WithPandas.

End Views.

(* ===================================================================== *)
(** ** Two runtimes, a dataset, and the order of binary64 values         *)
(* ===================================================================== *)

(** The mean as a running sum divided by the count. *)
Definition sequential_mean (values : list float) : float :=
  (fold_left PrimFloat.add values 0 / PyFloat.of_Z (Z.of_nat (List.length values)))%float.

(** A runtime whose sort keeps rows with equal keys in their order. *)
Definition stable_runtime : PandasRuntime :=
  {| quicksort := fun A le l => PyList.stable_sort le l;
     series_mean := sequential_mean |}.

(** A runtime whose sort lays rows with equal keys out in the reverse of
    their order; it sorts as well as the other. *)
Definition tie_reversing_runtime : PandasRuntime :=
  {| quicksort := fun A le l => PyList.stable_sort le (rev l);
     series_mean := sequential_mean |}.

Definition sample_row (location : string) (year : Z) (sold rate : float)
    : DataFilter.Row :=
  {| DataFilter.final_location := location;
     DataFilter.row_year := year;
     DataFilter.cells :=
       [ ("total sold - igr", sold); ("flat - weighted average rate", rate) ] |}.

(** Four localities; the latest records of Aundh and Wakad sold the same. *)
Definition sample_frame : DataFilter.DataFrame :=
  {| DataFilter.columns := [ "total sold - igr"; "flat - weighted average rate" ];
     DataFilter.rows :=
       [ sample_row "Wakad" 2022 100 5000;
         sample_row "Wakad" 2023 1500 5500;
         sample_row "Aundh" 2023 1500 7000;
         sample_row "Aundh" 2021 50 nan;
         sample_row "Baner" 2023 nan 8000;
         sample_row "Akurdi" 2020 7 3000 ] |}.

Definition sample_locations : list string := [ "Akurdi"; "Aundh"; "Baner"; "Wakad" ].

(** The place of a number in the order of the binary64 values, as a triple
    read lexicographically: the class (infinities outermost, zero in the
    middle), then exponent and mantissa, negated below zero. *)
Definition sf_rank (x : spec_float) : Z * Z * Z :=
  match x with
  | S754_nan => (0, 0, 0)
  | S754_zero _ => (0, 0, 0)
  | S754_infinity s => (if s then -2 else 2, 0, 0)
  | S754_finite s m e => if s then (-1, - e, - Z.pos m) else (1, e, Z.pos m)
  end%Z.

Definition lex_lt (a b : Z * Z * Z) : Prop :=
  let '(a1, a2, a3) := a in
  let '(b1, b2, b3) := b in
  (a1 < b1 \/ (a1 = b1 /\ (a2 < b2 \/ (a2 = b2 /\ a3 < b3))))%Z.

Definition float_rank (x : float) : Z * Z * Z := sf_rank (Prim2SF x).

(** A descriptor with another year range and last-N window *)
Definition with_window (parsed : QueryParser.ParsedQuery)
    (range : option (Z * Z)) (last_n : option Z) : QueryParser.ParsedQuery :=
  {| QueryParser.raw_query := QueryParser.raw_query parsed;
     QueryParser.locations := QueryParser.locations parsed;
     QueryParser.metric := QueryParser.metric parsed;
     QueryParser.property_types := QueryParser.property_types parsed;
     QueryParser.comparison := QueryParser.comparison parsed;
     QueryParser.ranking := QueryParser.ranking parsed;
     QueryParser.ranking_order := QueryParser.ranking_order parsed;
     QueryParser.ranking_limit := QueryParser.ranking_limit parsed;
     QueryParser.coordinate := QueryParser.coordinate parsed;
     QueryParser.near := QueryParser.near parsed;
     QueryParser.year := QueryParser.year parsed;
     QueryParser.year_range := range;
     QueryParser.last_n_years := last_n;
     QueryParser.stats := QueryParser.stats parsed;
     QueryParser.extrema := QueryParser.extrema parsed;
     QueryParser.general_insight := QueryParser.general_insight parsed;
     QueryParser.all_locations := QueryParser.all_locations parsed |}.

(** A stand-in for the C library that is right where the C standard fixes
    the value: [sin] of zero is zero and [cos] of zero is one. Between records
    at latitude and longitude zero the haversine asks for nothing else. *)
Definition libm_at_zero : Libm :=
  {| libm_sin := fun x => x;
     libm_cos := fun _ => 1%float;
     libm_atan2 := fun y _ => y;
     libm_pow := fun x _ => (x * x)%float |}.

Definition located_row (location : string) (year : Z) (lat lng : float)
    : DataFilter.Row :=
  {| DataFilter.final_location := location;
     DataFilter.row_year := year;
     DataFilter.cells := [ ("loc_lat", lat); ("loc_lng", lng) ] |}.

(** Five localities on one point *)
Definition one_point_frame : DataFilter.DataFrame :=
  {| DataFilter.columns := [ "loc_lat"; "loc_lng" ];
     DataFilter.rows :=
       [ located_row "Wakad" 2023 0 0;
         located_row "Aundh" 2023 0 0;
         located_row "Baner" 2022 0 0;
         located_row "Akurdi" 2021 0 0;
         located_row "Kharadi" 2021 0 0 ] |}.

(** Rows in order of a float64 column, those without a value last. *)
Definition in_column_order (column : string) (a b : DataFilter.Row) : Prop :=
  PyFloat.notna (DataFilter.cell column b) = true ->
  PyFloat.notna (DataFilter.cell column a) = true /\
  (DataFilter.cell column a <=? DataFilter.cell column b)%float = true.

(** A record of the frame that no record of the same location comes
    after. *)
Definition latest_of_its_location (df : DataFilter.DataFrame) (r : DataFilter.Row) : Prop :=
  In r (DataFilter.rows df) /\
  forall r', In r' (DataFilter.rows df) ->
    DataFilter.final_location r' = DataFilter.final_location r ->
    (DataFilter.row_year r' <= DataFilter.row_year r)%Z.

(** Rows in order of location name *)
Definition location_le (a b : DataFilter.Row) : Prop :=
  String.leb (DataFilter.final_location a) (DataFilter.final_location b) = true.

Definition location_lt (a b : DataFilter.Row) : Prop :=
  String.compare (DataFilter.final_location a) (DataFilter.final_location b) = Lt.

(** Items the comparison places level with [x] *)
Definition level_with {A} (le : A -> A -> bool) (x y : A) : bool := le x y && le y x.

(** The comparison is total and transitive on the items that satisfy [D]. *)
Definition orders {A} (le : A -> A -> bool) (D : A -> Prop) : Prop :=
  (forall x y, D x -> D y -> le x y = true \/ le y x = true) /\
  (forall x y z, D x -> D y -> D z -> le x y = true -> le y z = true -> le x z = true).

(** Three ranking queries over the sample locations *)
Definition top3_by_demand : QueryParser.ParsedQuery :=
  QueryParser.parse_query sample_locations "top 3 locations by demand" None.
Definition top0_by_demand : QueryParser.ParsedQuery :=
  QueryParser.parse_query sample_locations "top 0 locations by demand" None.
Definition compare_demand : QueryParser.ParsedQuery :=
  QueryParser.parse_query sample_locations "compare Wakad and Aundh demand" None.
Definition compare_price : QueryParser.ParsedQuery :=
  QueryParser.parse_query sample_locations "compare Wakad and Aundh price" None.

(** A row of the frame with a value in [column] and no row with a value
    before it, or none after it. *)
Definition chronologically_first (column : string) (df : DataFilter.DataFrame)
    (r : DataFilter.Row) : Prop :=
  In r (DataFilter.rows df) /\
  PyFloat.notna (DataFilter.cell column r) = true /\
  forall r', In r' (DataFilter.rows df) ->
    PyFloat.notna (DataFilter.cell column r') = true ->
    (DataFilter.row_year r <= DataFilter.row_year r')%Z.

Definition chronologically_last (column : string) (df : DataFilter.DataFrame)
    (r : DataFilter.Row) : Prop :=
  In r (DataFilter.rows df) /\
  PyFloat.notna (DataFilter.cell column r) = true /\
  forall r', In r' (DataFilter.rows df) ->
    PyFloat.notna (DataFilter.cell column r') = true ->
    (DataFilter.row_year r' <= DataFilter.row_year r)%Z.

(** A row of the frame with no row after it, with or without a value. *)
Definition latest_row (df : DataFilter.DataFrame) (r : DataFilter.Row) : Prop :=
  In r (DataFilter.rows df) /\
  forall r', In r' (DataFilter.rows df) ->
    (DataFilter.row_year r' <= DataFilter.row_year r)%Z.

(** The context the comparison handler gives the summary *)
Definition comparison_summary_context
    (c : option SummaryGenerator.ComparisonRecord) : SummaryGenerator.Context :=
  {| SummaryGenerator.coordinate_lat := None;
     SummaryGenerator.coordinate_lng := None;
     SummaryGenerator.nearby := [];
     SummaryGenerator.ranking_rows := [];
     SummaryGenerator.comparison_context := c;
     SummaryGenerator.stats_context := ∅ |}.

(** The records of Wakad, as [filter_dataset] returns them *)
Definition wakad_frame : DataFilter.DataFrame :=
  @DataFilter.filter_dataset stable_runtime sample_frame (Some "Wakad") None None None.

Section RankingOrder.
Context `{PandasRuntime}.

(** The rows the rank list is drawn from: one per location, with a value. *)
Definition ranking_candidates (df : DataFilter.DataFrame) (parsed : QueryParser.ParsedQuery) : list DataFilter.Row :=
  DataFilter.rows (DataFilter.dropna (Views._resolve_value_column parsed)
    (DataFilter.ranking_frame df (QueryParser.year parsed))).

(** The candidates in the order the sort leaves them. *)
Definition ranking_sorted (df : DataFilter.DataFrame) (parsed : QueryParser.ParsedQuery) : list DataFilter.Row :=
  quicksort
    (DataFilter.value_le (Views._resolve_value_column parsed)
       (String.eqb (QueryParser.ranking_order parsed) "asc"))
    (ranking_candidates df parsed).

End RankingOrder.

(** *** More sample data *)

(** The sums as running sums from zero *)
Definition sequential_sums : PandasSums :=
  {| series_sum := fun values => fold_left PrimFloat.add values 0%float;
     group_sum := fun values => fold_left PrimFloat.add values 0%float |}.

Definition rated_row (location : string) (year : Z) (flat office : float)
    : DataFilter.Row :=
  {| DataFilter.final_location := location;
     DataFilter.row_year := year;
     DataFilter.cells :=
       [ ("flat - weighted average rate", flat);
         ("office - weighted average rate", office) ] |}.

(** Rates of flats and offices; one office rate is missing. *)
Definition rates_frame : DataFilter.DataFrame :=
  {| DataFilter.columns :=
       [ "flat - weighted average rate"; "office - weighted average rate" ];
     DataFilter.rows :=
       [ rated_row "Wakad" 2023 5500 nan;
         rated_row "Wakad" 2022 5000 9000;
         rated_row "Aundh" 2023 7000 9500 ] |}.

(** The sample frame with a second record of Wakad for 2023 *)
Definition repeated_year_frame : DataFilter.DataFrame :=
  {| DataFilter.columns := DataFilter.columns sample_frame;
     DataFilter.rows :=
       (DataFilter.rows sample_frame ++ [ sample_row "Wakad" 2023 1600 5600 ])%list |}.

(** More queries over the sample locations *)
Definition coordinates_of_wakad : QueryParser.ParsedQuery :=
  QueryParser.parse_query sample_locations "coordinates of Wakad" None.
Definition overall_demand : QueryParser.ParsedQuery :=
  QueryParser.parse_query sample_locations "overall demand" None.
Definition wakad_flat_office_price : QueryParser.ParsedQuery :=
  QueryParser.parse_query sample_locations "flat and office price in Wakad" None.
Definition wakad_demand : QueryParser.ParsedQuery :=
  QueryParser.parse_query sample_locations "demand in Wakad with average and peak" None.

Definition surveyed_row (location : string) (year : Z) (sold : float) : DataFilter.Row :=
  {| DataFilter.final_location := location;
     DataFilter.row_year := year;
     DataFilter.cells :=
       [ ("loc_lat", 0%float); ("loc_lng", 0%float); ("total sold - igr", sold) ] |}.

(** A frame with every column the views know of *)
Definition complete_frame : DataFilter.DataFrame :=
  {| DataFilter.columns :=
       ([ "loc_lat"; "loc_lng" ] ++ map snd Views.BASE_METRIC_COLUMNS
        ++ flat_map (fun item => map snd (snd item)) Views.PROPERTY_METRIC_COLUMNS)%list;
     DataFilter.rows :=
       [ surveyed_row "Wakad" 2022 100;
         surveyed_row "Wakad" 2023 150;
         surveyed_row "Aundh" 2023 120 ] |}.

(* ===================================================================== *)
(** ** Readings of texts, windows and frames                             *)
(* ===================================================================== *)

Section Readings.
Import PyStr PyList PyFloat QueryParser DataFilter.

(** A text that does not start with white space *)
Definition starts_clean (s : string) : Prop :=
  match s with
  | EmptyString => True
  | String c _ => is_space c = false
  end.

(** The descriptor with another text *)
Definition with_raw_query (parsed : ParsedQuery) (text : string) : ParsedQuery :=
  {| raw_query := text;
     locations := locations parsed;
     metric := metric parsed;
     property_types := property_types parsed;
     comparison := comparison parsed;
     ranking := ranking parsed;
     ranking_order := ranking_order parsed;
     ranking_limit := ranking_limit parsed;
     coordinate := coordinate parsed;
     near := near parsed;
     year := year parsed;
     year_range := year_range parsed;
     last_n_years := last_n_years parsed;
     stats := stats parsed;
     extrema := extrema parsed;
     general_insight := general_insight parsed;
     all_locations := all_locations parsed |}.

(** Do all characters of the text satisfy [p]? *)
Fixpoint all_chars (p : ascii -> bool) (s : string) : bool :=
  match s with
  | EmptyString => true
  | String c r => p c && all_chars p r
  end.

(** Is the year within the range, the ends in either order, and is it the
    year asked for? No range and no year leave every year in. *)
Definition within (year_range : option (Z * Z)) (y : Z) : bool :=
  match year_range with
  | Some (a, b) => (Z.min a b <=? y)%Z && (y <=? Z.max a b)%Z
  | None => true
  end.

Definition of_year (year : option Z) (y : Z) : bool :=
  match year with
  | Some v => (y =? v)%Z
  | None => true
  end.

(** How many of the years are later than [y] *)
Definition later_years (years : list Z) (y : Z) : nat :=
  List.length (List.filter (fun other => (y <? other)%Z) years).

(** [m] is the first row of [rs] to hold the greatest value of the column,
    or the least. *)
Definition first_greatest (column : string) (rs : list DataFilter.Row) (m : DataFilter.Row)
    : Prop :=
  exists pre post,
    rs = (pre ++ m :: post)%list /\
    PyFloat.notna (DataFilter.cell column m) = true /\
    (forall r, In r rs -> PyFloat.notna (DataFilter.cell column r) = true ->
       (DataFilter.cell column r <=? DataFilter.cell column m)%float = true) /\
    (forall r, In r pre -> PyFloat.notna (DataFilter.cell column r) = true ->
       (DataFilter.cell column r <? DataFilter.cell column m)%float = true).

Definition first_least (column : string) (rs : list DataFilter.Row) (m : DataFilter.Row)
    : Prop :=
  exists pre post,
    rs = (pre ++ m :: post)%list /\
    PyFloat.notna (DataFilter.cell column m) = true /\
    (forall r, In r rs -> PyFloat.notna (DataFilter.cell column r) = true ->
       (DataFilter.cell column m <=? DataFilter.cell column r)%float = true) /\
    (forall r, In r pre -> PyFloat.notna (DataFilter.cell column r) = true ->
       (DataFilter.cell column m <? DataFilter.cell column r)%float = true).

(** The frame holds two rows or more for one year. *)
Definition year_repeated (df : DataFilter.DataFrame) : Prop :=
  exists y,
    (2 <= List.length (List.filter (fun r => (DataFilter.row_year r =? y)%Z)
                         (DataFilter.rows df)))%nat.

End Readings.

(** What tells two records of the dataset apart: the normalised location
    and the year. *)
Definition record_key (r : DataFilter.Row) : string * Z :=
  (DataFilter._normalize (DataFilter.final_location r), DataFilter.row_year r).

(** Every record names its location, and no two records are of one location
    and one year. *)
Definition clean_records (df : DataFilter.DataFrame) : Prop :=
  (forall r, In r (DataFilter.rows df) -> DataFilter.final_location r <> EmptyString) /\
  List.NoDup (map record_key (DataFilter.rows df)).

(** The frame has every column that the table of property columns names. *)
Definition columns_complete (df : DataFilter.DataFrame) : Prop :=
  forall metric table property_type column,
    In (metric, table) Views.PROPERTY_METRIC_COLUMNS ->
    In (property_type, column) table ->
    DataFilter.has_column column df = true.

(** [math] raises on no pair of records of the frame. *)
Definition distances_computable `{Libm} (df : DataFilter.DataFrame) : Prop :=
  forall a b, In a (DataFilter.rows df) -> In b (DataFilter.rows df) ->
    is_Some (Views._distance_km a b).

(* ===================================================================== *)
(** * Properties                                                         *)
(* ===================================================================== *)

Import PyStr PyList PyFloat QueryParser DataFilter ChartBuilder SummaryGenerator Views.

(** ** Lists and sorting *)

Section Sorting.
Context {A : Type} (le : A -> A -> bool).

Lemma insert_sorted_perm (x : A) (l : list A) :
  Permutation (insert_sorted le x l) (x :: l).
Proof.
  induction l as [|y r IH]; cbn; [reflexivity|].
  destruct (le x y); [reflexivity|].
  rewrite IH. apply perm_swap.
Qed.

Lemma stable_sort_perm (l : list A) : Permutation (stable_sort le l) l.
Proof.
  induction l as [|x r IH]; cbn; [reflexivity|].
  rewrite insert_sorted_perm. now constructor.
Qed.

Lemma insert_sorted_sorted (D : A -> Prop) (x : A) (l : list A) :
  orders le D -> D x -> Forall D l ->
  StronglySorted (fun a b => le a b = true) l ->
  StronglySorted (fun a b => le a b = true) (insert_sorted le x l).
Proof.
  intros [Htot Htrans] Dx. induction l as [|y r IH]; intros HD HS; cbn.
  - repeat constructor.
  - inversion HD as [|? ? Dy Dr]; subst. inversion HS as [|? ? Sr Hy]; subst.
    destruct (le x y) eqn:E.
    + constructor; [assumption|]. constructor; [assumption|].
      rewrite List.Forall_forall in Hy, Dr |- *. intros z Hz.
      apply (Htrans x y z); auto.
    + constructor; [auto|].
      assert (Hyx : le y x = true) by (destruct (Htot x y Dx Dy); congruence).
      rewrite List.Forall_forall. intros z Hz.
      apply (Permutation_in _ (insert_sorted_perm x r)) in Hz.
      destruct Hz as [<-|Hz]; [assumption|].
      rewrite List.Forall_forall in Hy. auto.
Qed.

Lemma stable_sort_sorted (D : A -> Prop) (l : list A) :
  orders le D -> Forall D l ->
  StronglySorted (fun a b => le a b = true) (stable_sort le l).
Proof.
  intros Hord. induction l as [|x r IH]; intros HD; cbn; [constructor|].
  inversion HD; subst.
  apply (insert_sorted_sorted D); auto.
  rewrite List.Forall_forall. intros z Hz.
  apply (Permutation_in _ (stable_sort_perm r)) in Hz.
  rewrite List.Forall_forall in H2. auto.
Qed.

End Sorting.

Lemma orders_on_list {A} (le : A -> A -> bool) (l : list A) :
  (forall x y, In x l -> In y l -> le x y = true \/ le y x = true) ->
  (forall x y z, In x l -> In y l -> In z l ->
     le x y = true -> le y z = true -> le x z = true) ->
  orders le (fun x => In x l).
Proof. intros; split; auto. Qed.

Lemma stable_runtime_contract : SortContract stable_runtime.
Proof.
  split; intros A le l; cbn.
  - apply stable_sort_perm.
  - intros Htot Htrans.
    apply (stable_sort_sorted le (fun x => In x l)).
    + now apply orders_on_list.
    + rewrite List.Forall_forall. auto.
Qed.

Lemma tie_reversing_runtime_contract : SortContract tie_reversing_runtime.
Proof.
  split; intros A le l; cbn.
  - rewrite stable_sort_perm. symmetry. apply Permutation_rev.
  - intros Htot Htrans.
    apply (stable_sort_sorted le (fun x => In x l)).
    + now apply orders_on_list.
    + rewrite List.Forall_forall. intros x Hx. now apply in_rev.
Qed.

(** ** The order of binary64 values that are not NaN *)

Section FloatOrder.
Local Open Scope Z_scope.

Lemma sf_compare_rank (x y : spec_float) :
  x <> S754_nan -> y <> S754_nan ->
  exists c, SFcompare x y = Some c /\
    (c = Lt <-> lex_lt (sf_rank x) (sf_rank y)) /\
    (c = Eq <-> sf_rank x = sf_rank y) /\
    (c = Gt <-> lex_lt (sf_rank y) (sf_rank x)).
Proof.
  intros Hx Hy.
  destruct x as [sx|sx| |sx mx ex], y as [sy|sy| |sy my ey]; try congruence;
    try destruct sx; try destruct sy;
    cbn [SFcompare sf_rank lex_lt];
    (eexists; split; [reflexivity|]).
  all: try rewrite Pos.compare_cont_spec; cbn [Pos.switch_Eq].
  all: try (destruct (Z.compare_spec ex ey) as [E|E|E]).
  all: try (destruct (Pos.compare_spec mx my) as [F|F|F]).
  all: cbn [CompOpp].
  all: repeat split; intros H; try discriminate H; try (injection H as ?); try lia.
  all: try (subst; reflexivity).
Qed.

Lemma notna_not_nan (x : float) : notna x = true -> Prim2SF x <> S754_nan.
Proof.
  unfold notna, PrimFloat.is_nan. rewrite negb_involutive, FloatAxioms.eqb_spec.
  intros H E. rewrite E in H. discriminate H.
Qed.

Lemma not_nan_notna (x : float) : Prim2SF x <> S754_nan -> notna x = true.
Proof.
  intros Hx. unfold notna, PrimFloat.is_nan.
  rewrite negb_involutive, FloatAxioms.eqb_spec. unfold SFeqb.
  destruct (sf_compare_rank _ _ Hx Hx) as (c & -> & _ & HEq & _).
  now rewrite (proj2 HEq eq_refl).
Qed.

Lemma leb_notna_l (x y : float) : (x <=? y)%float = true -> notna x = true.
Proof.
  rewrite FloatAxioms.leb_spec. unfold SFleb. intros H.
  apply not_nan_notna. intros E. rewrite E in H. discriminate H.
Qed.

Lemma float_order (x y : float) :
  notna x = true -> notna y = true ->
  ((x <? y)%float = true <-> lex_lt (float_rank x) (float_rank y)) /\
  ((x =? y)%float = true <-> float_rank x = float_rank y) /\
  ((x <=? y)%float = true <->
     lex_lt (float_rank x) (float_rank y) \/ float_rank x = float_rank y).
Proof.
  intros Hx%notna_not_nan Hy%notna_not_nan.
  rewrite FloatAxioms.ltb_spec, FloatAxioms.eqb_spec, FloatAxioms.leb_spec.
  unfold SFltb, SFeqb, SFleb, float_rank.
  destruct (sf_compare_rank _ _ Hx Hy) as (c & -> & HLt & HEq & HGt).
  destruct c; intuition congruence.
Qed.

Lemma leb_total (x y : float) :
  notna x = true -> notna y = true ->
  (x <=? y)%float = true \/ (y <=? x)%float = true.
Proof.
  intros Hx Hy.
  destruct (float_order x y Hx Hy) as (_ & _ & H1).
  destruct (float_order y x Hy Hx) as (_ & _ & H2).
  rewrite H1, H2. unfold lex_lt.
  destruct (float_rank x) as [[a1 a2] a3], (float_rank y) as [[b1 b2] b3].
  destruct (Z.compare_spec a1 b1), (Z.compare_spec a2 b2), (Z.compare_spec a3 b3);
    subst; try (left; lia); try (right; lia); left; right; reflexivity.
Qed.

Lemma leb_trans (x y z : float) :
  notna x = true -> notna y = true -> notna z = true ->
  (x <=? y)%float = true -> (y <=? z)%float = true -> (x <=? z)%float = true.
Proof.
  intros Hx Hy Hz.
  destruct (float_order x y Hx Hy) as (_ & _ & H1).
  destruct (float_order y z Hy Hz) as (_ & _ & H2).
  destruct (float_order x z Hx Hz) as (_ & _ & H3).
  rewrite H1, H2, H3. unfold lex_lt.
  destruct (float_rank x) as [[a1 a2] a3], (float_rank y) as [[b1 b2] b3],
    (float_rank z) as [[c1 c2] c3].
  intros [H|H] [K|K]; try (inversion H; subst); try (inversion K; subst);
    try (left; lia); try (right; reflexivity).
Qed.

Lemma lex_trichotomy (a b : Z * Z * Z) :
  (lex_lt a b /\ a <> b /\ ~ lex_lt b a) \/
  (~ lex_lt a b /\ a = b /\ ~ lex_lt b a) \/
  (~ lex_lt a b /\ a <> b /\ lex_lt b a).
Proof.
  destruct a as [[a1 a2] a3], b as [[b1 b2] b3]. unfold lex_lt.
  destruct (Z.compare_spec a1 b1), (Z.compare_spec a2 b2), (Z.compare_spec a3 b3); subst.
  2-27: first
    [ left; split; [lia|]; split; [intros E; inversion E; lia | lia]
    | right; right; split; [lia|]; split; [intros E; inversion E; lia | lia] ].
  right; left. split; [lia|]. split; [reflexivity | lia].
Qed.

Lemma bool_true_of_iff (b : bool) (P : Prop) : (b = true <-> P) -> P -> b = true.
Proof. tauto. Qed.

Lemma bool_false_of_iff (b : bool) (P : Prop) : (b = true <-> P) -> ~ P -> b = false.
Proof. destruct b; intuition congruence. Qed.

(** One of two numbers is the greater exactly when they are not equal. *)
Lemma ltb_either_iff_neq (x y : float) :
  notna x = true -> notna y = true ->
  ((y <? x)%float || (x <? y)%float) = negb (x =? y)%float.
Proof.
  intros Hx Hy.
  destruct (float_order x y Hx Hy) as (H1 & H2 & _).
  destruct (float_order y x Hy Hx) as (H3 & _ & _).
  destruct (lex_trichotomy (float_rank x) (float_rank y))
    as [(A & B & C)|[(A & B & C)|(A & B & C)]].
  - rewrite (bool_true_of_iff _ _ H1 A), (bool_false_of_iff _ _ H2 B),
      (bool_false_of_iff _ _ H3 C). reflexivity.
  - rewrite (bool_false_of_iff _ _ H1 A), (bool_true_of_iff _ _ H2 B),
      (bool_false_of_iff _ _ H3 C). reflexivity.
  - rewrite (bool_false_of_iff _ _ H1 A), (bool_false_of_iff _ _ H2 B),
      (bool_true_of_iff _ _ H3 C). reflexivity.
Qed.

End FloatOrder.

(** ** The parser *)

Section SortedSet.
Local Open Scope Z_scope.

Lemma insert_unique_In (y x : Z) (l : list Z) :
  In x (insert_unique y l) <-> x = y \/ In x l.
Proof.
  induction l as [|a r IH]; cbn.
  - intuition.
  - destruct (Z.ltb_spec y a); [cbn; intuition|].
    destruct (Z.eqb_spec y a); [subst; cbn; intuition|].
    cbn. rewrite IH. intuition.
Qed.

Lemma sorted_set_In (x : Z) (l : list Z) : In x (sorted_set l) <-> In x l.
Proof.
  induction l as [|a r IH]; cbn; [reflexivity|].
  rewrite insert_unique_In, IH. intuition.
Qed.

Lemma insert_unique_sorted (y : Z) (l : list Z) :
  StronglySorted Z.lt l -> StronglySorted Z.lt (insert_unique y l).
Proof.
  induction l as [|a r IH]; intros HS; cbn.
  - repeat constructor.
  - inversion HS as [|? ? Sr Ha]; subst.
    destruct (Z.ltb_spec y a).
    + constructor; [assumption|]. constructor; [assumption|].
      rewrite List.Forall_forall in Ha |- *. intros z Hz. specialize (Ha z Hz). lia.
    + destruct (Z.eqb_spec y a); [assumption|].
      constructor; [auto|].
      rewrite List.Forall_forall in Ha |- *. intros z Hz.
      apply insert_unique_In in Hz. destruct Hz as [->|Hz]; [lia|auto].
Qed.

Lemma sorted_set_sorted (l : list Z) : StronglySorted Z.lt (sorted_set l).
Proof.
  induction l; cbn; [constructor|]. now apply insert_unique_sorted.
Qed.

Lemma last_In (d : Z) (l : list Z) : l <> [] -> In (List.last l d) l.
Proof.
  induction l as [|a [|b r] IH]; intros Hne; [congruence|now left|].
  right. apply IH. discriminate.
Qed.

Lemma sorted_last_max (d : Z) (l : list Z) :
  StronglySorted Z.lt l -> forall w, In w l -> w <= List.last l d.
Proof.
  induction l as [|a r IH]; intros HS w Hw; [destruct Hw|].
  inversion HS as [|? ? Sr Ha]; subst. rewrite List.Forall_forall in Ha.
  destruct r as [|b r'].
  - destruct Hw as [->|[]]. cbn. lia.
  - change (List.last (a :: b :: r') d) with (List.last (b :: r') d).
    destruct Hw as [->|Hw]; [|auto].
    assert (In (List.last (b :: r') d) (b :: r')) by (apply last_In; discriminate).
    specialize (Ha _ H). lia.
Qed.

End SortedSet.

(** C1. The descriptor of [parse_query] never has the ranking flag and the
    extrema flag together: the ranking flag is set exactly when the ranking
    signal of [_detect_ranking] is present and no location was resolved, and
    the signal with one or more resolved locations gives extrema without
    ranking. *)
Theorem parse_query_ranking_xor_extrema
    (DEFAULT_LOCATIONS : list string) (query : string)
    (candidates : option (list string)) :
  let parsed := parse_query DEFAULT_LOCATIONS query candidates in
  let signal := fst (fst (_detect_ranking (lower (strip query)))) in
  (ranking parsed && extrema parsed = false) /\
  (ranking parsed = true <-> signal = true /\ locations parsed = []) /\
  (signal = true -> locations parsed <> [] ->
     extrema parsed = true /\ ranking parsed = false).
Proof.
  cbv zeta. unfold parse_query.
  destruct (_extract_years (lower (strip query))) as [y r].
  destruct (_detect_ranking (lower (strip query))) as [[flag order] limit].
  cbn [ranking extrema locations fst].
  destruct (_match_locations _ _) as [|l0 ls]; destruct flag; cbn;
    intuition congruence.
Qed.

(** C4. The result of [_extract_years] sets at most one of the single year
    and the year range. When the two-year pattern with a connector matches,
    the result is the ordered range of its two years and no single year.
    Otherwise the bare years decide: none gives nothing, one distinct year
    gives that year and no range, two or more distinct years give the range
    from the smallest to the largest and no single year. *)
Theorem extract_years_single_or_range (lowered_query : string) :
  let result := _extract_years lowered_query in
  let years := YEAR_REGEX_findall lowered_query in
  (fst result = None \/ snd result = None) /\
  (forall a b, YEAR_RANGE_REGEX_search lowered_query = Some (a, b) ->
     result = (None, Some (Z.min a b, Z.max a b)) /\ (Z.min a b <= Z.max a b)%Z) /\
  (YEAR_RANGE_REGEX_search lowered_query = None ->
     (years = [] -> result = (None, None)) /\
     (forall y, In y years -> (forall z, In z years -> z = y) ->
        result = (Some y, None)) /\
     (forall y z, In y years -> In z years -> y <> z ->
        exists lo hi,
          result = (None, Some (lo, hi)) /\ In lo years /\ In hi years /\
          (lo < hi)%Z /\ forall w, In w years -> (lo <= w <= hi)%Z)).
Proof.
  cbv zeta. unfold _extract_years.
  destruct (YEAR_RANGE_REGEX_search lowered_query) as [[a b]|].
  - cbn. split; [now left|]. split; [|discriminate].
    intros a' b' E. injection E as <- <-. split; [reflexivity|lia].
  - pose proof (sorted_set_sorted (YEAR_REGEX_findall lowered_query)) as HS.
    pose proof (fun x => sorted_set_In x (YEAR_REGEX_findall lowered_query)) as HIn.
    destruct (sorted_set (YEAR_REGEX_findall lowered_query)) as [|y0 [|y1 r]] eqn:E.
    + cbn. split; [now left|]. split; [discriminate|]. intros _.
      split; [reflexivity|].
      split; [intros y Hy; apply HIn in Hy; destruct Hy|].
      intros y z Hy; apply HIn in Hy; destruct Hy.
    + cbn. split; [now right|]. split; [discriminate|]. intros _.
      split; [intros E0; rewrite E0 in E; discriminate E|].
      split.
      * intros y Hy Hall. assert (In y0 (YEAR_REGEX_findall lowered_query))
          by (apply HIn; now left).
        now rewrite (Hall y0 H).
      * intros y z Hy Hz Hne. apply HIn in Hy, Hz.
        destruct Hy as [<-|[]], Hz as [<-|[]]. congruence.
    + split; [now left|]. split; [discriminate|]. intros _.
      split; [intros E0; rewrite E0 in E; discriminate E|].
      assert (Hlast : In (List.last (y0 :: y1 :: r) y0) (y0 :: y1 :: r))
        by (apply last_In; discriminate).
      assert (Hy1 : In y1 (y0 :: y1 :: r)) by (right; now left).
      pose proof (sorted_last_max y0 _ HS) as Hmax.
      inversion HS as [|? ? Sr H0]; subst. rewrite List.Forall_forall in H0.
      split.
      * intros y Hy Hall.
        assert (y0 = y) by (apply Hall, HIn; now left).
        assert (y1 = y) by (apply Hall, HIn; right; now left).
        specialize (H0 y1 (or_introl eq_refl)). lia.
      * intros y z _ _ _.
        exists y0, (List.last (y0 :: y1 :: r) y0).
        split; [reflexivity|].
        split; [apply HIn; now left|].
        split; [now apply HIn|].
        split.
        -- specialize (H0 y1 (or_introl eq_refl)). specialize (Hmax y1 Hy1). lia.
        -- intros w Hw. apply HIn in Hw. split; [|now apply Hmax].
           destruct Hw as [->|Hw]; [lia|]. specialize (H0 w Hw). lia.
Qed.

(** C5. When the pattern [top N] matches and [int] accepts its digits, the
    result of [_detect_ranking] is the ranking signal, descending order and
    the limit N, whatever other keywords the text holds. *)
Theorem detect_ranking_top_n (lowered_query digits : string) (n : Z) :
  TOP_N_REGEX_search lowered_query = Some digits ->
  py_int digits = Some n ->
  _detect_ranking lowered_query = (true, "desc", Some n).
Proof.
  intros Hmatch Hint. unfold _detect_ranking. now rewrite Hmatch, Hint.
Qed.

(** A text with an ascending keyword beside [top 3]: the order is still
    descending. *)
Lemma detect_ranking_top_n_witness :
  _detect_boolean "top 3 lowest priced areas" RANKING_ASC_KEYWORDS true = true /\
  _detect_ranking "top 3 lowest priced areas" = (true, "desc", Some 3%Z).
Proof.
  split; [reflexivity|].
  apply (detect_ranking_top_n "top 3 lowest priced areas" "3" 3%Z); reflexivity.
Defined.

(** ** Chart values *)

(** C8, as the code has it. [_sanitize_values] keeps the length and the
    positions of its input; a missing value, [None] or NaN, comes out as
    null, and every other value, the infinities among them, comes out as the
    same float, never as zero in place of a missing one. *)
Theorem sanitize_values_positional (values : list (option float)) :
  List.length (_sanitize_values values) = List.length values /\
  forall (i : nat) (value : option float),
    nth_error values i = Some value ->
    (value = None -> nth_error (_sanitize_values values) i = Some None) /\
    (forall v, value = Some v -> PrimFloat.is_nan v = true ->
       nth_error (_sanitize_values values) i = Some None) /\
    (forall v, value = Some v -> PrimFloat.is_nan v = false ->
       nth_error (_sanitize_values values) i = Some (Some v)).
Proof.
  unfold _sanitize_values. split; [apply List.length_map|].
  intros i value Hi. rewrite nth_error_map, Hi. cbn.
  repeat split.
  - now intros ->.
  - intros v -> Hv. unfold sanitize_value, notna. now rewrite Hv.
  - intros v -> Hv. unfold sanitize_value, notna. now rewrite Hv.
Qed.

(** C8, as the specification states it, fails on an infinity: it is not finite, and the
    bar chart carries it through as a number. *)
Lemma sanitize_values_infinity_counterexample :
  isfinite infinity = false /\
  _sanitize_values [Some infinity; Some nan; None; Some neg_infinity]
    = [Some infinity; None; None; Some neg_infinity] /\
  values (build_bar_chart ["2023"] [Some infinity]) = [Some infinity].
Proof. repeat split. Qed.

(** The bar chart passes its values through [_sanitize_values]. *)
Lemma build_bar_chart_values (labels : list string) (vs : list (option float)) :
  values (build_bar_chart labels vs) = _sanitize_values vs.
Proof. reflexivity. Qed.

(** A series of the multi-line chart holds no NaN: a missing cell is null. *)
Lemma series_value_not_nan (column : string) (df : DataFrame) (label : string) (v : float) :
  series_value column df label = Some (Some v) -> notna v = true.
Proof.
  unfold series_value.
  destruct (List.filter _ (rows df)) as [|r [|r' rest]]; try discriminate.
  destruct (notna (cell column r)) eqn:E; [|discriminate].
  intros [= <-]. exact E.
Qed.

(** ** The ranking strategy *)

(** C10. The answer of the ranking handler does not depend on the year range
    or on the last-N window of the descriptor: two descriptors with the
    ranking flag that agree on every other field get the same answer. *)
Theorem ranking_ignores_time_window `{PandasRuntime}
    (df : DataFrame) (p1 p2 : ParsedQuery) :
  ranking p1 = true ->
  p2 = with_window p1 (year_range p2) (last_n_years p2) ->
  _handle_ranking df p1 = _handle_ranking df p2.
Proof.
  intros Hrank ->. generalize (year_range p2) (last_n_years p2). intros range last_n.
  destruct p1; cbn in Hrank; subst.
  unfold _handle_ranking, generate_summary, _resolve_value_column,
    _resolve_ranking_limit, _metric_phrase, with_window; cbn.
  reflexivity.
Qed.

Lemma first_n_is_firstn {A} (n : Z) (l : list A) :
  exists k, first_n n l = firstn k l.
Proof. unfold first_n. destruct (0 <=? n)%Z; eauto. Qed.

Lemma first_n_length {A} (n : Z) (l : list A) :
  (0 <= n)%Z -> List.length (first_n n l) = Nat.min (Z.to_nat n) (List.length l).
Proof.
  intros Hn. unfold first_n. destruct (Z.leb_spec 0 n); [|lia].
  apply List.length_firstn.
Qed.

Lemma firstn_In {A} (k : nat) (l : list A) (x : A) : In x (firstn k l) -> In x l.
Proof.
  revert l. induction k as [|k IH]; intros [|y r]; cbn; try tauto.
  intros [->|H]; auto.
Qed.

Lemma StronglySorted_weaken {A} (R S : A -> A -> Prop) (l : list A) :
  (forall a b, R a b -> S a b) -> StronglySorted R l -> StronglySorted S l.
Proof.
  intros HRS. induction 1 as [|x r Sr IH Hx]; constructor; [assumption|].
  rewrite List.Forall_forall in Hx |- *. auto.
Qed.

Lemma StronglySorted_firstn {A} (R : A -> A -> Prop) (k : nat) (l : list A) :
  StronglySorted R l -> StronglySorted R (firstn k l).
Proof.
  revert l. induction k as [|k IH]; intros [|x r] HS; cbn; try constructor.
  - inversion HS; subst. auto.
  - inversion HS as [|? ? Sr Hx]; subst.
    rewrite List.Forall_forall in Hx |- *. intros z Hz.
    apply Hx. eapply firstn_In; eauto.
Qed.

Lemma filter_filter_same {A} (p : A -> bool) (l : list A) :
  List.filter p (List.filter p l) = List.filter p l.
Proof.
  induction l as [|x r IH]; cbn; [reflexivity|].
  destruct (p x) eqn:E; cbn; [rewrite E|]; now rewrite ?IH.
Qed.

Lemma filter_negb_filter {A} (p : A -> bool) (l : list A) :
  List.filter (fun x => negb (p x)) (List.filter p l) = [].
Proof.
  induction l as [|x r IH]; cbn; [reflexivity|].
  destruct (p x) eqn:E; cbn; [rewrite E|]; now rewrite ?IH.
Qed.

Lemma rank_records_length (column : string) (idx : Z) (rs : list Row) :
  List.length (rank_records column idx rs) = List.length rs.
Proof. revert idx. induction rs as [|r rest IH]; intros idx; cbn; [|rewrite IH]; reflexivity. Qed.

Lemma rank_records_values (column : string) (idx : Z) (rs : list Row) :
  map rank_value (rank_records column idx rs) = map (cell column) rs.
Proof. revert idx. induction rs as [|r rest IH]; intros idx; cbn; [|rewrite IH]; reflexivity. Qed.

Lemma rank_records_ranks (column : string) (idx : Z) (rs : list Row) :
  map rank (rank_records column idx rs)
  = map (fun i => (idx + Z.of_nat i)%Z) (seq 0 (List.length rs)).
Proof.
  revert idx. induction rs as [|r rest IH]; intros idx; cbn; [reflexivity|].
  rewrite IH, <- seq_shift, List.map_map. f_equal; [lia|].
  apply List.map_ext. intros i. lia.
Qed.

Lemma StronglySorted_map {A B} (f : A -> B) (R : B -> B -> Prop) (l : list A) :
  StronglySorted (fun a b => R (f a) (f b)) l -> StronglySorted R (map f l).
Proof.
  induction 1 as [|x r Sr IH Hx]; cbn; constructor; [assumption|].
  rewrite List.Forall_forall in Hx |- *. intros z Hz.
  apply in_map_iff in Hz. destruct Hz as (a & <- & Ha). auto.
Qed.

Lemma StronglySorted_of_map {A B} (f : A -> B) (R : B -> B -> Prop) (l : list A) :
  StronglySorted R (map f l) -> StronglySorted (fun a b => R (f a) (f b)) l.
Proof.
  induction l as [|x r IH]; cbn; intros HS; constructor; inversion HS; subst; auto.
  rewrite List.Forall_forall in H2 |- *. intros z Hz. apply H2. now apply in_map.
Qed.

Section Ranking.
Context `{contract : SortContract}.

Lemma handle_ranking_payload (df : DataFrame) (parsed : ParsedQuery)
    (summary chart_type : string) (chart_data : ChartData) (records : list RankRecord) :
  _handle_ranking df parsed = Payload summary chart_type chart_data (RankTable records) ->
  records = rank_records (_resolve_value_column parsed) 1
              (first_n (_resolve_ranking_limit parsed) (ranking_sorted df parsed)).
Proof.
  unfold _handle_ranking.
  destruct (negb (has_column _ _)); [discriminate|].
  destruct (empty _); [discriminate|].
  unfold _build_response. intros [= _ _ _ <-].
  unfold ranking_sorted, ranking_candidates, head, sort_values, dropna, select, with_rows.
  cbn [rows]. now rewrite filter_filter_same, filter_negb_filter, app_nil_r.
Qed.

Lemma ranking_candidates_notna (df : DataFrame) (parsed : ParsedQuery) (r : Row) :
  In r (ranking_candidates df parsed) ->
  notna (cell (_resolve_value_column parsed) r) = true.
Proof.
  unfold ranking_candidates, dropna, select, with_rows. cbn [rows].
  intros Hr%filter_In. tauto.
Qed.

Lemma value_le_orders (column : string) (ascending : bool) (l : list Row) :
  (forall r, In r l -> notna (cell column r) = true) ->
  orders (value_le column ascending) (fun r => In r l).
Proof.
  intros Hl. unfold value_le. split.
  - intros x y Hx%Hl Hy%Hl. destruct ascending; [now apply leb_total|].
    destruct (leb_total (cell column x) (cell column y) Hx Hy); auto.
  - intros x y z Hx%Hl Hy%Hl Hz%Hl. destruct ascending.
    + now apply leb_trans.
    + intros H1 H2. now apply (leb_trans _ (cell column y)).
Qed.

Lemma ranking_sorted_sorted (df : DataFrame) (parsed : ParsedQuery) :
  StronglySorted
    (fun a b => value_le (_resolve_value_column parsed)
                  (String.eqb (ranking_order parsed) "asc") a b = true)
    (ranking_sorted df parsed).
Proof.
  unfold ranking_sorted.
  destruct (value_le_orders (_resolve_value_column parsed)
              (String.eqb (ranking_order parsed) "asc")
              (ranking_candidates df parsed)
              (ranking_candidates_notna df parsed)) as [Htot Htrans].
  apply quicksort_sorted; auto.
Qed.

End Ranking.




(** C6, as the code has it. The limit is the explicit [top N] value when
    there is one and it is not zero. With no explicit value, or with zero, it
    is 1 when the lowered query holds one of the five words of
    RANKING_KEYWORDS_LIMIT anywhere in it, and 5 otherwise. The rank list
    holds as many rows as [head] leaves of the candidates: the smaller of the
    limit and their number. *)
Theorem ranking_limit_resolved `{contract : SortContract}
    (df : DataFrame) (parsed : ParsedQuery)
    (summary chart_type : string) (chart_data : ChartData) (records : list RankRecord) :
  _handle_ranking df parsed = Payload summary chart_type chart_data (RankTable records) ->
  let limit := _resolve_ranking_limit parsed in
  let superlative := any_contains RANKING_KEYWORDS_LIMIT (lower (raw_query parsed)) in
  let available := List.length (ranking_candidates df parsed) in
  (forall n, ranking_limit parsed = Some n -> n <> 0%Z -> limit = n) /\
  (ranking_limit parsed = None \/ ranking_limit parsed = Some 0%Z ->
     limit = if superlative then 1%Z else 5%Z) /\
  ((0 <= limit)%Z -> List.length records = Nat.min (Z.to_nat limit) available) /\
  ((limit < 0)%Z -> List.length records = (available - Z.to_nat (- limit))%nat).
Proof.
  intros Hpayload limit superlative available.
  apply handle_ranking_payload in Hpayload.
  assert (Hlen : List.length (ranking_sorted df parsed) = available)
    by (apply Permutation_length, quicksort_perm).
  split; [|split; [|split]].
  - intros n Hn Hne. unfold limit, _resolve_ranking_limit. rewrite Hn.
    destruct (Z.eqb_spec n 0); [contradiction|reflexivity].
  - intros [Hn|Hn]; unfold limit, _resolve_ranking_limit; rewrite Hn; reflexivity.
  - intros Hpos. subst records.
    now rewrite rank_records_length, first_n_length, Hlen.
  - intros Hneg. subst records. rewrite rank_records_length.
    unfold first_n. fold limit. destruct (Z.leb_spec 0 limit); [lia|].
    rewrite List.length_firstn, Hlen. lia.
Qed.

Lemma ranking_limit_resolved_witness :
  exists summary chart_data records,
    @_handle_ranking stable_runtime sample_frame top3_by_demand
      = Payload summary "bar" chart_data (RankTable records) /\
    ranking_limit top3_by_demand = Some 3%Z /\
    _resolve_ranking_limit top3_by_demand = 3%Z /\
    List.length records = 3%nat.
Proof.
  eexists _, _, _. split; [vm_compute; reflexivity|]. split; [reflexivity|].
  split.
  - exact (proj1
      (@ranking_limit_resolved stable_runtime stable_runtime_contract
         sample_frame top3_by_demand _ _ _ _ eq_refl) 3%Z eq_refl ltac:(discriminate)).
  - reflexivity.
Defined.

(** C6, as the specification states it, fails for [top 0]: the explicit limit is there,
    it is 0, and the rank list is cut to 5, not to 0. The frame has three
    candidates and all three are listed. *)
Lemma ranking_limit_zero_counterexample :
  ranking top0_by_demand = true /\
  ranking_limit top0_by_demand = Some 0%Z /\
  _resolve_ranking_limit top0_by_demand = 5%Z /\
  exists summary chart_data records,
    @_handle_ranking stable_runtime sample_frame top0_by_demand
      = Payload summary "bar" chart_data (RankTable records) /\
    List.length records = 3%nat.
Proof.
  repeat split. eexists _, _, _. split; [vm_compute; reflexivity|reflexivity].
Qed.

(** A ranking descriptor and the same with a year range and a window *)
Lemma ranking_ignores_time_window_witness :
  @_handle_ranking stable_runtime sample_frame top3_by_demand
  = @_handle_ranking stable_runtime sample_frame
      (with_window top3_by_demand (Some (2019, 2021)%Z) (Some 2%Z)).
Proof.
  apply (@ranking_ignores_time_window stable_runtime sample_frame top3_by_demand
           (with_window top3_by_demand (Some (2019, 2021)%Z) (Some 2%Z)));
    reflexivity.
Defined.

(** ** Rows in order of year *)

Lemma StronglySorted_filter {A} (R : A -> A -> Prop) (p : A -> bool) (l : list A) :
  StronglySorted R l -> StronglySorted R (List.filter p l).
Proof.
  induction 1 as [|x r Sr IH Hx]; cbn; [constructor|].
  destruct (p x); [|assumption]. constructor; [assumption|].
  rewrite List.Forall_forall in Hx |- *. intros z Hz%filter_In. now apply Hx.
Qed.

Lemma sorted_last_greatest {A} (R : A -> A -> Prop) (d : A) (l : list A) :
  StronglySorted R l -> forall x, In x l -> x = List.last l d \/ R x (List.last l d).
Proof.
  induction 1 as [|a r Sr IH Ha]; intros x Hx; [destruct Hx|].
  rewrite List.Forall_forall in Ha.
  destruct r as [|b r'].
  - destruct Hx as [->|[]]. now left.
  - change (List.last (a :: b :: r') d) with (List.last (b :: r') d).
    destruct Hx as [->|Hx]; [|auto].
    right. apply Ha. clear. revert b. induction r' as [|c r'' IH]; intros b; [now left|].
    right. apply IH.
Qed.

Lemma last_cons_eq {A} (a d : A) (l : list A) :
  List.last (a :: l) d = List.last l a.
Proof.
  revert a d. induction l as [|b r IH]; intros a d; [reflexivity|].
  change (List.last (a :: b :: r) d) with (List.last (b :: r) d).
  now rewrite (IH b d), (IH b a).
Qed.

Lemma last_cons_default {A} (a d : A) (l : list A) :
  List.last l a = List.last (a :: l) d.
Proof. symmetry. apply last_cons_eq. Qed.

Lemma last_In_cons {A} (a : A) (l : list A) : In (List.last l a) (a :: l).
Proof.
  revert a. induction l as [|b r IH]; intros a; [now left|].
  right. rewrite (last_cons_eq b a r). apply IH.
Qed.

Lemma filter_map_comm {A B} (f : A -> B) (p : B -> bool) (l : list A) :
  List.filter p (map f l) = map f (List.filter (fun x => p (f x)) l).
Proof.
  induction l as [|x r IH]; cbn; [reflexivity|].
  destruct (p (f x)); cbn; now rewrite IH.
Qed.

Section ByYear.
Context `{contract : SortContract}.

Lemma year_le_orders (l : list Row) : orders year_le (fun r => In r l).
Proof.
  unfold year_le. split.
  - intros x y _ _. destruct (Z.leb_spec (row_year x) (row_year y)); [now left|].
    right. apply Z.leb_le. lia.
  - intros x y z _ _ _ H1%Z.leb_le H2%Z.leb_le. apply Z.leb_le. lia.
Qed.

Lemma sort_by_year_perm (df : DataFrame) : Permutation (rows (sort_by_year df)) (rows df).
Proof. apply quicksort_perm. Qed.

Lemma sort_by_year_sorted (df : DataFrame) :
  StronglySorted (fun a b => (row_year a <= row_year b)%Z) (rows (sort_by_year df)).
Proof.
  destruct (year_le_orders (rows df)) as [Htot Htrans].
  eapply StronglySorted_weaken; [|apply (quicksort_sorted _ year_le (rows df)); auto].
  intros a b H. now apply Z.leb_le.
Qed.

(** [latest_value] reads a row of the frame that no row comes after. *)
Lemma latest_value_is_latest (column : string) (df : DataFrame) (v : float) :
  latest_value column df = Some v ->
  exists r, latest_row df r /\ cell column r = v.
Proof.
  unfold latest_value.
  pose proof (sort_by_year_perm df) as Hperm.
  pose proof (sort_by_year_sorted df) as Hsorted.
  destruct (rows (sort_by_year df)) as [|a rest]; [discriminate|].
  intros [= <-]. exists (List.last rest a). split; [|reflexivity].
  split.
  - eapply Permutation_in; [exact Hperm|apply last_In_cons].
  - intros r' Hr'. apply (Permutation_in _ (Permutation_sym Hperm)) in Hr'.
    rewrite (last_cons_default a a rest).
    destruct (sorted_last_greatest _ a _ Hsorted r' Hr') as [->|H]; lia.
Qed.

Lemma latest_value_nonempty (column : string) (df : DataFrame) :
  empty df = false -> exists v, latest_value column df = Some v.
Proof.
  unfold latest_value, empty. intros Hne.
  pose proof (Permutation_length (sort_by_year_perm df)) as Hlen.
  destruct (rows (sort_by_year df)); [|eauto].
  destruct (rows df); [discriminate|discriminate].
Qed.

End ByYear.

(** ** The comparison strategy *)

Lemma compare_latest_some_iff (l1 l2 : string) (v1 v2 : float) :
  compare_latest l1 l2 v1 v2 <> None <->
  notna v1 = true /\ notna v2 = true /\ (v1 =? v2)%float = false.
Proof.
  unfold compare_latest.
  destruct (notna v1) eqn:E1, (notna v2) eqn:E2; cbn;
    try (split; [congruence|intros (? & ? & ?); congruence]).
  pose proof (ltb_either_iff_neq v1 v2 E1 E2) as H.
  destruct (v2 <? v1)%float, (v1 <? v2)%float, (v1 =? v2)%float; cbn in H;
    try discriminate H;
    (split; [intros Hn; repeat split; congruence | intros (_ & _ & Hneq); congruence]).
Qed.

Lemma compare_latest_winner (l1 l2 : string) (v1 v2 : float) (c : ComparisonRecord) :
  compare_latest l1 l2 v1 v2 = Some c ->
  (winner c = l1 /\ loser c = l2 /\ (v2 <? v1)%float = true /\
   difference c = (v1 - v2)%float) \/
  (winner c = l2 /\ loser c = l1 /\ (v1 <? v2)%float = true /\
   difference c = (v2 - v1)%float).
Proof.
  unfold compare_latest.
  destruct (notna v1 && notna v2); [|discriminate].
  destruct (v2 <? v1)%float eqn:E1; [intros [= <-]; left; auto|].
  destruct (v1 <? v2)%float eqn:E2; [intros [= <-]; right; auto|discriminate].
Qed.

Lemma dispatch_comparison (parsed : ParsedQuery) :
  dispatch parsed = ComparisonStrategy ->
  coordinate parsed = false /\ near parsed = false /\ ranking parsed = false /\
  (comparison parsed && (2 <=? List.length (locations parsed))%nat) = true.
Proof.
  unfold dispatch.
  destruct (coordinate parsed), (near parsed); cbn; try discriminate.
  destruct (ranking parsed); [discriminate|].
  destruct (comparison parsed && _); [auto|discriminate].
Qed.



(** ** Statistics *)

Lemma filter_Permutation_list {A} (p : A -> bool) (l l' : list A) :
  Permutation l l' -> Permutation (List.filter p l) (List.filter p l').
Proof.
  induction 1 as [|x l l' _ IH|x y l|l l' l'' _ IH1 _ IH2]; cbn.
  - constructor.
  - destruct (p x); [now constructor|assumption].
  - destruct (p x), (p y); try reflexivity. apply perm_swap.
  - now transitivity (List.filter p l').
Qed.

Lemma last_map {A B} (f : A -> B) (l : list A) (d : A) :
  List.last (map f l) (f d) = f (List.last l d).
Proof.
  induction l as [|x [|y r] IH]; cbn in *; auto.
Qed.

Section Growth.
Context `{contract : SortContract}.

(** The rows with a value in [column], in the order [sort_values("year")]
    leaves them. *)
Lemma non_null_values_rows (column : string) (df : DataFrame) :
  non_null_values column df
  = map (cell column) (List.filter (fun r => notna (cell column r)) (rows df)).
Proof. apply filter_map_comm. Qed.

Lemma non_null_sorted_length (column : string) (df : DataFrame) :
  List.length (non_null_values column (sort_by_year df))
  = List.length (non_null_values column df).
Proof.
  rewrite !non_null_values_rows, !List.length_map.
  apply Permutation_length, filter_Permutation_list, sort_by_year_perm.
Qed.

Lemma sorted_non_null_ends (column : string) (df : DataFrame) (rf : Row) (rest : list Row) :
  List.filter (fun r => notna (cell column r)) (rows (sort_by_year df)) = rf :: rest ->
  chronologically_first column df rf /\
  chronologically_last column df (List.last rest rf).
Proof.
  intros E.
  pose proof (filter_Permutation_list (fun r => notna (cell column r)) _ _
                (sort_by_year_perm df)) as Hperm.
  pose proof (StronglySorted_filter _ (fun r => notna (cell column r)) _
                (sort_by_year_sorted df)) as Hsorted.
  rewrite E in Hperm, Hsorted.
  assert (Hin : forall r, In r (rf :: rest) <->
                  In r (rows df) /\ notna (cell column r) = true).
  { intros r. split.
    - intros Hr. apply (Permutation_in _ Hperm) in Hr.
      now apply filter_In in Hr.
    - intros Hr. apply (Permutation_in _ (Permutation_sym Hperm)). now apply filter_In. }
  split.
  - destruct (proj1 (Hin rf) (or_introl eq_refl)) as [H1 H2].
    repeat split; [assumption..|].
    intros r' Hr' Hv. destruct (proj2 (Hin r') (conj Hr' Hv)) as [<-|Hrest]; [lia|].
    inversion Hsorted as [|? ? _ Hall]; subst.
    rewrite List.Forall_forall in Hall. now apply Hall.
  - destruct (proj1 (Hin (List.last rest rf)) (last_In_cons rf rest)) as [H1 H2].
    repeat split; [assumption..|].
    intros r' Hr' Hv. rewrite (last_cons_default rf rf rest).
    destruct (sorted_last_greatest _ rf _ Hsorted r' (proj2 (Hin r') (conj Hr' Hv)))
      as [->|H]; lia.
Qed.

End Growth.

(** C7. With growth-rate among the requested statistics, [_compute_stats]
    always returns, and its result has a [growth_rate] entry exactly when
    the column has two or more values and the first of them in order of year
    is not zero. The entry holds the change from that first value to the last
    one in order of year, in percent and rounded by [round(..., 2)], and the
    direction is [increase] when the change is zero or more and [decrease]
    otherwise. When the conditions fail the entry is left out. *)
Theorem growth_rate_entry `{contract : SortContract}
    (df : DataFrame) (column : string) (requested_stats : list string) :
  requested "growth_rate" requested_stats = true ->
  match _compute_stats df column requested_stats !! "growth_rate" with
  | Some entry =>
      has_column column df = true /\
      (2 <= List.length (non_null_values column df))%nat /\
      exists first_row last_row,
        chronologically_first column df first_row /\
        chronologically_last column df last_row /\
        (cell column first_row =? 0)%float = false /\
        let first_value := cell column first_row in
        let last_value := cell column last_row in
        let growth := ((last_value - first_value) / first_value * 100)%float in
        entry = {| stat_value := Some (round2 growth);
                   stat_year := None;
                   stat_direction :=
                     Some (if (0 <=? growth)%float then "increase" else "decrease") |}
  | None =>
      has_column column df = false \/
      (List.length (non_null_values column df) < 2)%nat \/
      exists first_row,
        chronologically_first column df first_row /\
        (cell column first_row =? 0)%float = true
  end.
Proof.
  intros Hreq. unfold _compute_stats.
  destruct (has_column column df) eqn:Hc; cbn [negb orb];
    [|rewrite lookup_empty; now left].
  destruct (empty df) eqn:He; cbn [orb].
  { rewrite lookup_empty. right; left. unfold empty in He.
    unfold non_null_values. destruct (rows df); [cbn; lia|discriminate]. }
  destruct (is_nil requested_stats) eqn:Hnil.
  { destruct requested_stats; [discriminate Hreq|discriminate Hnil]. }
  destruct (is_nil (non_null_values column df)) eqn:Hnn.
  { rewrite lookup_empty. right; left.
    destruct (non_null_values column df); [cbn; lia|discriminate]. }
  rewrite Hreq. cbn [andb].
  match goal with
  | |- context [if (2 <=? _)%nat then _ else ?S] => set (S0 := S)
  end.
  assert (HS0 : S0 !! "growth_rate" = None).
  { subst S0.
    repeat match goal with
    | |- context [if ?b then _ else _] => destruct b
    | |- context [match ?o with Some _ => _ | None => _ end] => destruct o
    end;
    repeat (rewrite lookup_insert_ne by discriminate); apply lookup_empty. }
  destruct (Nat.leb_spec 2 (List.length (non_null_values column df))) as [Hlen|Hlen];
    [|rewrite HS0; right; left; exact Hlen].
  rewrite (non_null_values_rows column (sort_by_year df)).
  destruct (List.filter (fun r => notna (cell column r)) (rows (sort_by_year df)))
    as [|rf rest] eqn:E.
  { exfalso. pose proof (non_null_sorted_length column df) as HL.
    rewrite (non_null_values_rows column (sort_by_year df)), E in HL. cbn in HL. lia. }
  destruct (sorted_non_null_ends column df rf rest E) as [Hfirst Hlast].
  cbn [map].
  change (cell column rf :: map (cell column) rest) with (map (cell column) (rf :: rest)).
  rewrite last_map, last_cons_eq.
  destruct Hfirst as (Hf1 & Hf2 & Hf3). rewrite Hf2. cbn [andb].
  destruct (cell column rf =? 0)%float eqn:Hz; cbn [negb].
  - rewrite HS0. right; right. exists rf. repeat split; assumption.
  - rewrite lookup_insert_eq. split; [reflexivity|]. split; [exact Hlen|].
    exists rf, (List.last rest rf). repeat split; try assumption; apply Hlast.
Qed.

(** Wakad sold 100 in 2022 and 1500 in 2023: a growth of 1400 percent. *)
Lemma growth_rate_entry_witness :
  exists entry,
    @_compute_stats stable_runtime wakad_frame "total sold - igr" ["growth_rate"]
      !! "growth_rate" = Some entry /\
    stat_value entry = Some 1400%float /\
    stat_direction entry = Some "increase" /\
    has_column "total sold - igr" wakad_frame = true /\
    (2 <= List.length (non_null_values "total sold - igr" wakad_frame))%nat.
Proof.
  pose proof (@growth_rate_entry stable_runtime stable_runtime_contract
                wakad_frame "total sold - igr" ["growth_rate"] eq_refl) as H.
  destruct (@_compute_stats stable_runtime wakad_frame "total sold - igr" ["growth_rate"]
              !! "growth_rate") as [entry|] eqn:E.
  - exists entry. split; [reflexivity|].
    destruct H as (Hcolumn & Hlen & _).
    vm_compute in E. injection E as <-.
    repeat split; assumption.
  - vm_compute in E. discriminate E.
Defined.

(** ** Further properties of the parser and of the routing *)

Lemma match_locations_loop_spec (lowered_query : string) (locations found : list string) :
  (List.length found < 2)%nat ->
  match_locations_loop lowered_query locations found
  = firstn 2 (rev found
              ++ List.filter (fun l => word_search (lower l) lowered_query) locations).
Proof.
  revert found. induction locations as [|l more IH]; intros found Hlen; cbn.
  - rewrite List.app_nil_r, firstn_all2; [reflexivity|]. rewrite List.length_rev. lia.
  - destruct (word_search (lower l) lowered_query) eqn:E.
    + replace (rev found ++ l :: List.filter
                 (fun l0 => word_search (lower l0) lowered_query) more)%list
        with (rev (l :: found) ++ List.filter
                (fun l0 => word_search (lower l0) lowered_query) more)%list
        by (cbn [rev]; rewrite <- List.app_assoc; reflexivity).
      destruct (Nat.eqb_spec (List.length (l :: found)) 2) as [H2|H2].
      * rewrite List.firstn_app, firstn_all2 by (rewrite List.length_rev; lia).
        replace (2 - List.length (rev (l :: found)))%nat with 0%nat
          by (rewrite List.length_rev; lia).
        cbn [firstn]. now rewrite List.app_nil_r.
      * apply IH. cbn in *. lia.
    + destruct (Nat.eqb_spec (List.length found) 2); [lia|]. now apply IH.
Qed.

(** The resolved locations are the first two names of the candidate list,
    in the order of the list, that the query holds as whole words; the order
    of the names in the query plays no part. *)
Theorem match_locations_in_list_order (query : string) (locations : list string) :
  _match_locations query locations
  = firstn 2 (List.filter (fun l => word_search (lower l) (lower query)) locations).
Proof.
  unfold _match_locations. rewrite match_locations_loop_spec by (cbn; lia). reflexivity.
Qed.

(** A query with two resolved locations and no coordinate or near keyword
    goes to the comparison, superlatives or not; and a coordinate or near
    keyword sends any query to the coordinate strategy. *)
Theorem dispatch_of_parsed (DEFAULT_LOCATIONS : list string) (query : string)
    (candidates : option (list string)) :
  let parsed := parse_query DEFAULT_LOCATIONS query candidates in
  (coordinate parsed || near parsed = true -> dispatch parsed = CoordinateStrategy) /\
  (coordinate parsed || near parsed = false ->
   (2 <= List.length (locations parsed))%nat ->
   dispatch parsed = ComparisonStrategy) /\
  (dispatch parsed = RankingStrategy -> locations parsed = []).
Proof.
  cbv zeta. unfold dispatch, parse_query.
  destruct (_extract_years (lower (strip query))) as [y r].
  destruct (_detect_ranking (lower (strip query))) as [[flag order] limit].
  cbn [coordinate near ranking comparison locations].
  destruct (_detect_boolean _ COORDINATE_KEYWORDS true || _detect_boolean _ NEAR_KEYWORDS true);
    destruct (_match_locations _ _) as [|l1 [|l2 rest]];
    destruct flag;
    try match goal with
        | |- context [any_contains COMPARISON_KEYWORDS ?q] =>
            destruct (any_contains COMPARISON_KEYWORDS q)
        end;
    cbn; repeat split; intros; try discriminate; try reflexivity; cbn in *; lia.
Qed.

(** ** Nearby localities *)

Lemma sequence_In {A} (l : list (option A)) (xs : list A) (x : A) :
  sequence l = Some xs -> In x xs -> In (Some x) l.
Proof.
  revert xs. induction l as [|[a|] r IH]; intros xs; cbn; try discriminate.
  - intros [= <-] [].
  - destruct (sequence r) as [ys|]; [|discriminate].
    intros [= <-] [->|Hx]; [now left|right; eauto].
Qed.

Lemma StronglySorted_app {A} (R : A -> A -> Prop) (l1 l2 : list A) :
  StronglySorted R l1 -> StronglySorted R l2 ->
  (forall a b, In a l1 -> In b l2 -> R a b) ->
  StronglySorted R (l1 ++ l2).
Proof.
  induction 1 as [|x r Sr IH Hx]; intros S2 Hcross; cbn; [assumption|].
  constructor.
  - apply IH; [assumption|]. intros a b Ha Hb. apply Hcross; [now right|assumption].
  - rewrite List.Forall_forall in Hx |- *. intros z Hz.
    apply in_app_or in Hz. destruct Hz as [Hz|Hz]; [auto|].
    apply Hcross; [now left|assumption].
Qed.

Lemma StronglySorted_all {A} (R : A -> A -> Prop) (l : list A) :
  (forall a b, In b l -> R a b) -> StronglySorted R l.
Proof.
  induction l as [|x r IH]; intros H; constructor.
  - apply IH. intros a b Hb. apply H. now right.
  - rewrite List.Forall_forall. intros z Hz. apply H. now right.
Qed.

Lemma sort_values_ascending `{contract : SortContract} (column : string) (df : DataFrame) :
  Permutation (rows (sort_values column true df)) (rows df) /\
  StronglySorted (in_column_order column) (rows (sort_values column true df)).
Proof.
  unfold sort_values, with_rows. cbn [rows]. split.
  - rewrite quicksort_perm.
    induction (rows df) as [|x r IH]; cbn; [constructor|].
    destruct (notna (cell column x)); cbn; [now constructor|].
    symmetry. apply Permutation_cons_app. now symmetry.
  - apply StronglySorted_app.
    + assert (Hna : forall r, In r (List.filter (fun r => notna (cell column r)) (rows df)) ->
                      notna (cell column r) = true)
        by (intros r Hr%filter_In; tauto).
      destruct (value_le_orders column true _ Hna) as [Htot Htrans].
      eapply StronglySorted_weaken;
        [|apply (quicksort_sorted _ (value_le column true)); auto].
      intros a b Hab _. unfold value_le in Hab. split; [|assumption].
      now apply leb_notna_l in Hab.
    + apply StronglySorted_all. intros a b Hb%filter_In Hv.
      destruct Hb as [_ Hb]. rewrite Hv in Hb. discriminate Hb.
    + intros a b _ Hb%filter_In Hv. destruct Hb as [_ Hb]. rewrite Hv in Hb. discriminate Hb.
Qed.

(** ** The latest record of each location *)

Lemma string_compare_refl (a : string) : String.compare a a = Eq.
Proof. now apply String_as_OT.cmp_eq. Qed.

Lemma string_compare_lt_trans (a b c : string) :
  String.compare a b = Lt -> String.compare b c = Lt -> String.compare a c = Lt.
Proof.
  intros H1%String_as_OT.cmp_lt H2%String_as_OT.cmp_lt.
  apply String_as_OT.cmp_lt. eapply String_as_OT.lt_trans; eassumption.
Qed.

Lemma string_leb_cases (a b : string) :
  String.leb a b = true <-> String.compare a b = Lt \/ a = b.
Proof.
  unfold String.leb. destruct (String.compare a b) eqn:E; split; intros H; auto.
  - right. now apply String.compare_eq_iff.
  - discriminate H.
  - destruct H as [H| ->]; [discriminate H|]. now rewrite string_compare_refl in E.
Qed.

Lemma string_leb_trans (a b c : string) :
  String.leb a b = true -> String.leb b c = true -> String.leb a c = true.
Proof.
  rewrite !string_leb_cases. intros [H1| ->] [H2| ->]; auto.
  left. eapply string_compare_lt_trans; eassumption.
Qed.

Lemma string_lt_leb_trans (a b c : string) :
  String.compare a b = Lt -> String.leb b c = true -> String.compare a c = Lt.
Proof.
  intros H1 [H2| ->]%string_leb_cases; [|assumption].
  eapply string_compare_lt_trans; eassumption.
Qed.

Lemma location_year_le_orders (D : Row -> Prop) : orders location_year_le D.
Proof.
  unfold location_year_le. split.
  - intros x y _ _. rewrite (String.compare_antisym (final_location y)).
    destruct (String.compare (final_location x) (final_location y)); cbn; auto.
    destruct (Z.leb_spec (row_year x) (row_year y)); [now left|].
    right. apply Z.leb_le. lia.
  - intros x y z _ _ _.
    destruct (String.compare (final_location x) (final_location y)) eqn:E1;
      destruct (String.compare (final_location y) (final_location z)) eqn:E2;
      intros H1 H2; try discriminate H1; try discriminate H2.
    + apply String.compare_eq_iff in E1, E2. rewrite E1, E2, string_compare_refl.
      apply Z.leb_le in H1, H2. apply Z.leb_le. lia.
    + apply String.compare_eq_iff in E1. now rewrite E1, E2.
    + apply String.compare_eq_iff in E2. now rewrite <- E2, E1.
    + now rewrite (string_compare_lt_trans _ _ _ E1 E2).
Qed.

Lemma location_year_le_location (a b : Row) :
  location_year_le a b = true -> location_le a b.
Proof.
  unfold location_year_le, location_le, String.leb.
  destruct (String.compare (final_location a) (final_location b)); auto.
Qed.

Lemma idxmax_per_location_spec (rest : list Row) :
  forall b,
    StronglySorted location_le rest ->
    (forall c, In c rest -> location_le b c) ->
    let out := idxmax_per_location (Some b) rest in
    (forall r, In r out ->
       In r (b :: rest) /\ location_le b r /\
       forall r', In r' (b :: rest) -> final_location r' = final_location r ->
         (row_year r' <= row_year r)%Z) /\
    (forall c, In c (b :: rest) -> exists r, In r out /\ final_location r = final_location c) /\
    StronglySorted location_lt out.
Proof.
  induction rest as [|r0 rest IH]; intros b Hsorted Hb; cbn.
  - split; [|split].
    + intros r [<-|[]]. split; [now left|]. split.
      * unfold location_le, String.leb. now rewrite string_compare_refl.
      * intros r' [<-|[]] _. lia.
    + intros c [<-|[]]. exists b. split; [now left|reflexivity].
    + repeat constructor.
  - inversion Hsorted as [|? ? Srest Hr0]; subst.
    rewrite List.Forall_forall in Hr0.
    destruct (String.eqb_spec (final_location r0) (final_location b)) as [Eloc|Nloc].
    + set (b2 := if (row_year b <? row_year r0)%Z then r0 else b).
      assert (Hb2loc : final_location b2 = final_location b)
        by (unfold b2; destruct (row_year b <? row_year r0)%Z; auto).
      assert (Hb2max : (row_year b <= row_year b2 /\ row_year r0 <= row_year b2)%Z)
        by (unfold b2; destruct (Z.ltb_spec (row_year b) (row_year r0)); lia).
      assert (Hb2in : In b2 (b :: r0 :: rest))
        by (unfold b2; destruct (row_year b <? row_year r0)%Z; [right|]; now left).
      destruct (IH b2 Srest) as (Hmax & Hcover & Hdistinct).
      { intros c Hc. unfold location_le. rewrite Hb2loc. apply Hb. now right. }
      split; [|split].
      * intros r Hr. destruct (Hmax r Hr) as (Hin & Hle & Hyear).
        split; [destruct Hin as [<-|Hin]; [assumption|right; now right]|].
        split; [unfold location_le in *; now rewrite <- Hb2loc|].
        intros r' Hr' Hloc.
        destruct Hr' as [<-|[<-|Hr']].
        -- specialize (Hyear b2 (or_introl eq_refl)). rewrite Hb2loc in Hyear.
           specialize (Hyear Hloc). lia.
        -- specialize (Hyear b2 (or_introl eq_refl)). rewrite Hb2loc, <- Eloc in Hyear.
           specialize (Hyear Hloc). lia.
        -- apply Hyear; [now right|assumption].
      * intros c [<-|[<-|Hc]].
        -- destruct (Hcover b2 (or_introl eq_refl)) as (r & Hr & E).
           exists r. split; [assumption|congruence].
        -- destruct (Hcover b2 (or_introl eq_refl)) as (r & Hr & E).
           exists r. split; [assumption|congruence].
        -- apply Hcover. now right.
      * assumption.
    + destruct (IH r0 Srest Hr0) as (Hmax & Hcover & Hdistinct).
      assert (Hlt : String.compare (final_location b) (final_location r0) = Lt).
      { specialize (Hb r0 (or_introl eq_refl)). apply string_leb_cases in Hb.
        destruct Hb as [Hb|Hb]; [assumption|congruence]. }
      split; [|split].
      * intros r [<-|Hr].
        -- split; [now left|]. split.
           ++ unfold location_le, String.leb. now rewrite string_compare_refl.
           ++ intros r' [<-|[<-|Hr']] Hloc; [lia|congruence|].
              exfalso. specialize (Hr0 r' Hr').
              pose proof (string_lt_leb_trans _ _ _ Hlt Hr0) as H.
              rewrite Hloc, string_compare_refl in H. discriminate H.
        -- destruct (Hmax r Hr) as (Hin & Hle & Hyear).
           pose proof (string_lt_leb_trans _ _ _ Hlt Hle) as Hbr.
           split; [now right|].
           split; [apply string_leb_cases; now left|].
           intros r' [<-|Hr'] Hloc; [|now apply Hyear].
           rewrite Hloc, string_compare_refl in Hbr. discriminate Hbr.
      * intros c [<-|Hc].
        -- exists b. split; [now left|reflexivity].
        -- destruct (Hcover c Hc) as (r & Hr & E). exists r. split; [now right|assumption].
      * constructor; [assumption|].
        apply List.Forall_forall. intros r Hr.
        destruct (Hmax r Hr) as (_ & Hle & _).
        exact (string_lt_leb_trans _ _ _ Hlt Hle).
Qed.

Lemma latest_records_latest (df : DataFrame) (r : Row) :
  In r (rows (latest_records_per_location df)) -> latest_of_its_location df r.
Proof.
  unfold latest_records_per_location, empty.
  destruct (rows df) as [|x l] eqn:E; cbn [is_nil]; [rewrite E; intros []|].
  unfold with_rows. cbn [rows]. rewrite <- E.
  pose proof (stable_sort_perm location_year_le (rows df)) as Hperm.
  assert (Hsorted : StronglySorted location_le (stable_sort location_year_le (rows df))).
  { eapply StronglySorted_weaken; [apply location_year_le_location|].
    apply (stable_sort_sorted location_year_le (fun _ => True)).
    - apply location_year_le_orders.
    - apply List.Forall_forall. auto. }
  destruct (stable_sort location_year_le (rows df)) as [|b rest] eqn:ES.
  { apply Permutation_nil in Hperm. rewrite E in Hperm. discriminate Hperm. }
  inversion Hsorted as [|? ? Srest Hb]; subst.
  rewrite List.Forall_forall in Hb.
  change (idxmax_per_location None (b :: rest)) with (idxmax_per_location (Some b) rest).
  destruct (idxmax_per_location_spec rest b Srest Hb) as (Hmax & _ & _).
  intros Hr. destruct (Hmax r Hr) as (Hin & _ & Hyear). split.
  - eapply Permutation_in; eassumption.
  - intros r' Hr'. apply Hyear. eapply Permutation_in; [symmetry|]; eassumption.
Qed.

(** [latest_records_per_location] keeps, of each location, one record, and
    no record of that location comes after it; the rows come out in order
    of location name. *)
Theorem latest_records_are_latest (df : DataFrame) :
  let latest := rows (latest_records_per_location df) in
  (forall r, In r latest -> latest_of_its_location df r) /\
  (forall r', In r' (rows df) ->
     exists r, In r latest /\ final_location r = final_location r') /\
  StronglySorted location_lt latest.
Proof.
  cbv zeta. unfold latest_records_per_location, empty.
  destruct (rows df) as [|x l] eqn:E; cbn [is_nil].
  { rewrite E. split; [intros r []|]. split; [intros r' []|constructor]. }
  unfold with_rows. cbn [rows]. rewrite <- E.
  pose proof (stable_sort_perm location_year_le (rows df)) as Hperm.
  assert (Hsorted : StronglySorted location_le (stable_sort location_year_le (rows df))).
  { eapply StronglySorted_weaken; [apply location_year_le_location|].
    apply (stable_sort_sorted location_year_le (fun _ => True)).
    - apply location_year_le_orders.
    - apply List.Forall_forall. auto. }
  destruct (stable_sort location_year_le (rows df)) as [|b rest] eqn:ES.
  { apply Permutation_nil in Hperm. rewrite E in Hperm. discriminate Hperm. }
  inversion Hsorted as [|? ? Srest Hb]; subst.
  rewrite List.Forall_forall in Hb.
  change (idxmax_per_location None (b :: rest)) with (idxmax_per_location (Some b) rest).
  destruct (idxmax_per_location_spec rest b Srest Hb) as (Hmax & Hcover & Hdistinct).
  split; [|split].
  - intros r Hr. destruct (Hmax r Hr) as (Hin & _ & Hyear). split.
    + eapply Permutation_in; eassumption.
    + intros r' Hr'. apply Hyear. eapply Permutation_in; [symmetry|]; eassumption.
  - intros r' Hr'. apply Hcover. eapply Permutation_in; [symmetry|]; eassumption.
  - assumption.
Qed.

(** ** The near strategy *)




(** ** What a stable sort would give *)

Section Stability.
Context {A : Type} (le : A -> A -> bool) (D : A -> Prop).
Hypothesis le_orders : orders le D.

Lemma insert_sorted_level (x a : A) (s : list A) :
  D x -> D a -> Forall D s ->
  StronglySorted (fun u v => le u v = true) s ->
  List.filter (level_with le x) (insert_sorted le a s)
  = if level_with le x a then a :: List.filter (level_with le x) s
    else List.filter (level_with le x) s.
Proof.
  destruct le_orders as [Htot Htrans].
  intros Dx Da.
  induction s as [|y r IH]; intros HD HS; cbn [insert_sorted List.filter].
  - destruct (level_with le x a); reflexivity.
  - inversion HD as [|? ? Dy Dr]; subst. inversion HS as [|? ? Sr Hy]; subst.
    destruct (le a y) eqn:Eay; cbn [List.filter].
    + destruct (level_with le x a); reflexivity.
    + rewrite (IH Dr Sr).
      assert (Hya : le y a = true) by (destruct (Htot a y Da Dy); congruence).
      destruct (level_with le x a) eqn:Exa; [|reflexivity].
      assert (Hxy : level_with le x y = false).
      { unfold level_with in *. apply andb_true_iff in Exa. destruct Exa as [Hxa Hax].
        destruct (le x y) eqn:Exy; [|reflexivity]. cbn.
        destruct (le y x) eqn:Eyx; [|reflexivity].
        rewrite (Htrans a x y Da Dx Dy Hax Exy) in Eay. discriminate Eay. }
      now rewrite Hxy.
Qed.

(** The insertion sort keeps items that are level in the order they had. *)
Lemma stable_sort_keeps_ties (x : A) (l : list A) :
  D x -> Forall D l ->
  List.filter (level_with le x) (stable_sort le l) = List.filter (level_with le x) l.
Proof.
  intros Dx. induction l as [|a r IH]; intros HD; [reflexivity|].
  change (stable_sort le (a :: r)) with (insert_sorted le a (stable_sort le r)).
  cbn [List.filter].
  inversion HD as [|? ? Da Dr]; subst.
  rewrite insert_sorted_level; try assumption.
  - rewrite (IH Dr). reflexivity.
  - apply List.Forall_forall. intros z Hz.
    apply (Permutation_in _ (stable_sort_perm le r)) in Hz.
    rewrite List.Forall_forall in Dr. auto.
  - now apply (stable_sort_sorted le D).
Qed.

End Stability.



(* ===================================================================== *)
(** * Further properties of the modules                                  *)
(* ===================================================================== *)

(** ** Text *)

(** ** Strings *)

Lemma lower_char_idem (c : ascii) : lower_char (lower_char c) = lower_char c.
Proof. destruct c as [[] [] [] [] [] [] [] []]; reflexivity. Qed.

Lemma is_space_lower_char (c : ascii) : is_space (lower_char c) = is_space c.
Proof. destruct c as [[] [] [] [] [] [] [] []]; reflexivity. Qed.

Lemma lower_idem (s : string) : lower (lower s) = lower s.
Proof. induction s as [|c r IH]; cbn; [reflexivity|]. now rewrite lower_char_idem, IH. Qed.

Lemma lower_lstrip (s : string) : lower (lstrip s) = lstrip (lower s).
Proof.
  induction s as [|c r IH]; cbn; [reflexivity|].
  rewrite is_space_lower_char. destruct (is_space c); [exact IH|reflexivity].
Qed.

Lemma lower_rstrip (s : string) : lower (rstrip s) = rstrip (lower s).
Proof.
  induction s as [|c r IH]; cbn; [reflexivity|].
  rewrite <- IH, is_space_lower_char.
  destruct (rstrip r) as [|c' r']; cbn; [destruct (is_space c)|]; reflexivity.
Qed.

Lemma lower_strip (s : string) : lower (strip s) = strip (lower s).
Proof. unfold strip. now rewrite lower_rstrip, lower_lstrip. Qed.

Lemma rstrip_idem (s : string) : rstrip (rstrip s) = rstrip s.
Proof.
  induction s as [|c r IH]; cbn; [reflexivity|].
  destruct (rstrip r) as [|c' r'] eqn:E.
  - destruct (is_space c) eqn:Ec; cbn; [reflexivity|now rewrite Ec].
  - cbn [rstrip]. cbn [rstrip] in IH. rewrite IH. reflexivity.
Qed.


Lemma lstrip_starts_clean (s : string) : starts_clean (lstrip s).
Proof.
  induction s as [|c r IH]; cbn; [exact I|].
  destruct (is_space c) eqn:E; [exact IH|exact E].
Qed.

Lemma rstrip_starts_clean (s : string) : starts_clean s -> starts_clean (rstrip s).
Proof.
  destruct s as [|c r]; cbn; [auto|]. intros Hc.
  destruct (rstrip r); [rewrite Hc|]; exact Hc.
Qed.

Lemma lstrip_clean (s : string) : starts_clean s -> lstrip s = s.
Proof. destruct s as [|c r]; cbn; [auto|]. now intros ->. Qed.

Lemma strip_idem (s : string) : strip (strip s) = strip s.
Proof.
  unfold strip.
  rewrite (lstrip_clean (rstrip (lstrip s))).
  - apply rstrip_idem.
  - apply rstrip_starts_clean, lstrip_starts_clean.
Qed.


Lemma parse_query_strip
    (DEFAULT_LOCATIONS : list string) (query : string) (candidates : option (list string)) :
  parse_query DEFAULT_LOCATIONS (strip query) candidates
  = parse_query DEFAULT_LOCATIONS query candidates.
Proof. unfold parse_query. rewrite strip_idem. reflexivity. Qed.

Lemma parse_query_lower
    (DEFAULT_LOCATIONS : list string) (query : string) (candidates : option (list string)) :
  parse_query DEFAULT_LOCATIONS (lower query) candidates
  = with_raw_query (parse_query DEFAULT_LOCATIONS query candidates) (lower (strip query)).
Proof.
  unfold parse_query, _match_locations.
  rewrite <- !lower_strip, !lower_idem.
  destruct (_extract_years (lower (strip query))) as [y yr].
  destruct (_detect_ranking (lower (strip query))) as [[flag order] limit].
  reflexivity.
Qed.

(** The parser reads a query whatever the white space around it and the
    case of its letters: stripping the text changes nothing, and lowering it
    changes the recorded text alone. *)
Theorem parse_query_normalises_text
    (DEFAULT_LOCATIONS : list string) (query : string) (candidates : option (list string)) :
  parse_query DEFAULT_LOCATIONS (strip query) candidates
  = parse_query DEFAULT_LOCATIONS query candidates /\
  parse_query DEFAULT_LOCATIONS (lower query) candidates
  = with_raw_query (parse_query DEFAULT_LOCATIONS query candidates) (lower (strip query)).
Proof.
  split.
  - unfold parse_query. rewrite strip_idem. reflexivity.
  - unfold parse_query, _match_locations.
    rewrite <- !lower_strip, !lower_idem.
    destruct (_extract_years (lower (strip query))) as [y yr].
    destruct (_detect_ranking (lower (strip query))) as [[flag order] limit].
    reflexivity.
Qed.

Lemma is_empty_lower (s : string) : is_empty (lower s) = is_empty s.
Proof. destruct s; reflexivity. Qed.

Lemma parse_query_raw_query
    (DEFAULT_LOCATIONS : list string) (query : string) (candidates : option (list string)) :
  raw_query (parse_query DEFAULT_LOCATIONS query candidates) = strip query.
Proof.
  unfold parse_query.
  destruct (_extract_years (lower (strip query))) as [y yr].
  destruct (_detect_ranking (lower (strip query))) as [[flag order] limit].
  reflexivity.
Qed.

Section CaseOfLetters.
Context `{pandas : PandasRuntime} `{sums : PandasSums} `{libm : Libm}.

Lemma resolve_ranking_limit_lowered (parsed : ParsedQuery) :
  _resolve_ranking_limit (with_raw_query parsed (lower (raw_query parsed)))
  = _resolve_ranking_limit parsed.
Proof. unfold _resolve_ranking_limit. cbn. now rewrite lower_idem. Qed.

Lemma handle_ranking_lowered (df : DataFrame) (parsed : ParsedQuery) :
  _handle_ranking df (with_raw_query parsed (lower (raw_query parsed)))
  = _handle_ranking df parsed.
Proof.
  unfold _handle_ranking. rewrite resolve_ranking_limit_lowered. reflexivity.
Qed.

(** The answer to a query does not depend on the case of its letters, nor
    on the white space around it: the lowered query and the stripped query
    get the answer of the query itself. *)
Theorem handle_query_ignores_case_and_margins (df : DataFrame) (query : string) :
  handle_query df (Some (lower query)) = handle_query df (Some query) /\
  handle_query df (Some (strip query)) = handle_query df (Some query).
Proof.
  split.
  - unfold handle_query, default. cbn [from_option id].
    rewrite <- lower_strip, is_empty_lower.
    destruct (is_empty (strip query)); [reflexivity|].
    set (names := ExcelReader.list_locations (ExcelReader.get_dataframe df)).
    pose proof (parse_query_lower names (strip query) (Some names)) as Hl.
    pose proof (parse_query_strip names query (Some names)) as Hq.
    rewrite Hl, strip_idem, !Hq.
    set (parsed := parse_query names query (Some names)).
    rewrite <- (parse_query_raw_query names query (Some names)). fold parsed.
    change (coordinate (with_raw_query parsed (lower (raw_query parsed))))
      with (coordinate parsed).
    change (near (with_raw_query parsed (lower (raw_query parsed)))) with (near parsed).
    change (ranking (with_raw_query parsed (lower (raw_query parsed))))
      with (ranking parsed).
    change (comparison (with_raw_query parsed (lower (raw_query parsed))))
      with (comparison parsed).
    change (locations (with_raw_query parsed (lower (raw_query parsed))))
      with (locations parsed).
    rewrite handle_ranking_lowered. reflexivity.
  - unfold handle_query, default. cbn [from_option id]. rewrite strip_idem. reflexivity.
Qed.

End CaseOfLetters.


(** ** The time fields of the descriptor *)

Section TimeFields.
Local Open Scope Z_scope.

Lemma digit_value_bounds (c : ascii) : is_digit c = true -> 0 <= digit_value c <= 9.
Proof.
  destruct c as [[] [] [] [] [] [] [] []]; intros Hc; try discriminate Hc;
    vm_compute; split; discriminate.
Qed.

Lemma year_here_bounds (s : string) (y : Z) (r : string) :
  year_here s = Some (y, r) -> 2000 <= y <= 2099.
Proof.
  unfold year_here.
  destruct s as [|c1 [|c2 [|a [|b rest]]]]; try discriminate;
    try (destruct c1 as [[] [] [] [] [] [] [] []]; discriminate);
    try (destruct c1 as [[] [] [] [] [] [] [] []]; try discriminate;
         destruct c2 as [[] [] [] [] [] [] [] []]; discriminate).
  destruct c1 as [[] [] [] [] [] [] [] []]; try discriminate.
  destruct c2 as [[] [] [] [] [] [] [] []]; try discriminate.
  destruct (is_digit a) eqn:Ea; [|discriminate].
  destruct (is_digit b) eqn:Eb; [|discriminate].
  cbn. intros [= <- _].
  pose proof (digit_value_bounds a Ea). pose proof (digit_value_bounds b Eb). lia.
Qed.

Lemma alternation_some {A} (alts : list string) (k : string -> option A) (s : string) (v : A) :
  alternation alts k s = Some v -> exists r, k r = Some v.
Proof.
  induction alts as [|a more IH]; cbn; [discriminate|].
  destruct (strip_prefix a s) as [r|]; [|exact IH].
  destruct (k r) as [w|] eqn:E; [|exact IH].
  intros [= <-]. eauto.
Qed.

Lemma search_some {A} (here : string -> option A) (s : string) (v : A) :
  search here s = Some v -> exists s', here s' = Some v.
Proof.
  induction s as [|c r IH]; cbn.
  - destruct (here EmptyString) eqn:E; [|discriminate]. intros [= <-]. eauto.
  - destruct (here (String c r)) eqn:E; [intros [= <-]; eauto|exact IH].
Qed.

Lemma year_range_search_bounds (s : string) (a b : Z) :
  YEAR_RANGE_REGEX_search s = Some (a, b) -> 2000 <= a <= 2099 /\ 2000 <= b <= 2099.
Proof.
  intros [s' H]%search_some. unfold year_range_here in H.
  destruct (year_here s') as [[y1 r1]|] eqn:E1; [|discriminate].
  apply alternation_some in H. destruct H as [r H].
  destruct (year_here (snd (span is_space r))) as [[y2 r2]|] eqn:E2; [|discriminate].
  injection H as <- <-.
  split; eapply year_here_bounds; eauto.
Qed.

Lemma findall_years_bounds (s : string) :
  forall skip y, In y (findall_years skip s) -> 2000 <= y <= 2099.
Proof.
  induction s as [|c r IH]; intros skip y; cbn [findall_years]; [intros []|].
  destruct skip as [|k]; [|apply IH].
  destruct (year_here (String c r)) as [[y0 r0]|] eqn:E; [|apply IH].
  intros [<-|H]; [eapply year_here_bounds; eauto|eapply IH; eauto].
Qed.


Lemma span_all_chars (p : ascii -> bool) (s : string) : all_chars p (fst (span p s)) = true.
Proof.
  induction s as [|c r IH]; cbn; [reflexivity|].
  destruct (p c) eqn:E; [|reflexivity].
  destruct (span p r) as [a b]. cbn in *. now rewrite E.
Qed.

Lemma span1_all_chars (p : ascii -> bool) (s a b : string) :
  span1 p s = Some (a, b) -> all_chars p a = true.
Proof.
  unfold span1. pose proof (span_all_chars p s) as H.
  destruct (span p s) as [[|c a'] b']; [discriminate|].
  now intros [= <- <-].
Qed.

Lemma digits_value_nonneg (s : string) :
  forall acc, all_chars is_digit s = true -> 0 <= acc -> 0 <= digits_value acc s.
Proof.
  induction s as [|c r IH]; intros acc; cbn; [auto|].
  intros [Hc Hr]%andb_true_iff Hacc. apply IH; [exact Hr|].
  pose proof (digit_value_bounds c Hc). lia.
Qed.

Lemma top_n_digits (s ds : string) :
  TOP_N_REGEX_search s = Some ds -> all_chars is_digit ds = true.
Proof.
  intros [s' H]%search_some. unfold top_n_here in H.
  destruct (strip_prefix "top" s') as [r1|]; [|discriminate].
  destruct (span1 is_space r1) as [[w r2]|]; [|discriminate].
  destruct (span1 is_digit r2) as [[d r3]|] eqn:E; [|discriminate].
  injection H as <-. eapply span1_all_chars; eauto.
Qed.

Lemma parse_query_fields
    (DEFAULT_LOCATIONS : list string) (query : string) (candidates : option (list string)) :
  let parsed := parse_query DEFAULT_LOCATIONS query candidates in
  let lowered_query := lower (strip query) in
  locations parsed
    = _match_locations (strip query)
        (match candidates with Some l => l | None => DEFAULT_LOCATIONS end) /\
  metric parsed = _detect_metric lowered_query /\
  property_types parsed = _detect_property_types lowered_query /\
  (year parsed, year_range parsed) = _extract_years lowered_query /\
  last_n_years parsed = _extract_last_n_years lowered_query /\
  (ranking parsed || extrema parsed, ranking_order parsed, ranking_limit parsed)
    = _detect_ranking lowered_query /\
  stats parsed = _detect_stats lowered_query.
Proof.
  unfold parse_query.
  destruct (_extract_years (lower (strip query))) as [y yr].
  destruct (_detect_ranking (lower (strip query))) as [[flag order] limit].
  cbn. repeat split.
  destruct flag; cbn; [|reflexivity].
  now destruct (nonempty _).
Qed.

(** The time fields of a parsed query: a single year lies between 2000
    and 2099 and excludes a range; a range has its ends in order and within
    those bounds; a last-N window is positive; and a limit read from "top N"
    is not negative and comes with descending order. *)
Theorem parse_query_time_fields
    (DEFAULT_LOCATIONS : list string) (query : string) (candidates : option (list string)) :
  let parsed := parse_query DEFAULT_LOCATIONS query candidates in
  (forall y, year parsed = Some y -> 2000 <= y <= 2099 /\ year_range parsed = None) /\
  (forall a b, year_range parsed = Some (a, b) ->
     2000 <= a /\ a <= b /\ b <= 2099 /\ year parsed = None) /\
  (forall n, last_n_years parsed = Some n -> 0 < n) /\
  (forall n, ranking_limit parsed = Some n ->
     0 <= n /\ ranking_order parsed = "desc" /\ ranking parsed || extrema parsed = true).
Proof.
  intros parsed.
  destruct (parse_query_fields DEFAULT_LOCATIONS query candidates)
    as (_ & _ & _ & Hyears & Hlast & Hrank & _).
  fold parsed in Hyears, Hlast, Hrank.
  set (q := lower (strip query)) in *.
  assert (Hy : forall y, In y (sorted_set (YEAR_REGEX_findall q)) -> 2000 <= y <= 2099).
  { intros y Hin. apply (proj1 (sorted_set_In _ _)) in Hin.
    exact (findall_years_bounds _ _ _ Hin). }
  split; [|split; [|split]].
  - (* a single year *)
    intros y H. unfold _extract_years in Hyears.
    destruct (YEAR_RANGE_REGEX_search q) as [[a b]|]; [congruence|].
    destruct (sorted_set (YEAR_REGEX_findall q)) as [|y0 [|y1 more]];
      [congruence| |congruence].
    assert (y = y0) as -> by congruence.
    split; [apply Hy; now left|congruence].
  - (* a range *)
    intros a b H. unfold _extract_years in Hyears.
    destruct (YEAR_RANGE_REGEX_search q) as [[a0 b0]|] eqn:E.
    + apply year_range_search_bounds in E.
      assert (a = Z.min a0 b0 /\ b = Z.max a0 b0) as [-> ->] by (split; congruence).
      repeat split; try lia. congruence.
    + pose proof (sorted_set_sorted (YEAR_REGEX_findall q)) as Hs.
      destruct (sorted_set (YEAR_REGEX_findall q)) as [|y0 [|y1 more]] eqn:El;
        [congruence..|].
      assert (a = y0 /\ b = List.last (y0 :: y1 :: more) y0) as [-> ->]
        by (split; congruence).
      assert (Hlast_in : In (List.last (y0 :: y1 :: more) y0) (y0 :: y1 :: more))
        by (apply last_In; discriminate).
      repeat split.
      * apply Hy. now left.
      * apply (sorted_last_max y0 _ Hs). now left.
      * apply Hy, Hlast_in.
      * congruence.
  - (* the last N years *)
    intros n H. rewrite Hlast in H. unfold _extract_last_n_years in H.
    destruct (LAST_N_YEARS_REGEX_search q) as [ds|]; [|discriminate].
    destruct (py_int ds) as [v|]; [|discriminate].
    destruct (0 <? v) eqn:E; [|discriminate]. injection H as <-. lia.
  - (* the limit *)
    intros n H. unfold _detect_ranking in Hrank.
    destruct (TOP_N_REGEX_search q) as [ds|] eqn:E; [|congruence].
    apply top_n_digits in E.
    unfold py_int in Hrank.
    destruct (INT_MAX_STR_DIGITS <? String.length ds)%nat; [congruence|].
    assert (n = digits_value 0 ds) as -> by congruence.
    repeat split; [apply digits_value_nonneg; [exact E|lia]|congruence..].
Qed.

End TimeFields.

(** ** Keywords that hold other keywords *)

Lemma prefix_empty (s : string) : String.prefix EmptyString s = true.
Proof. now destruct s. Qed.

Lemma prefix_append (a r : string) : String.prefix a (a ++ r) = true.
Proof.
  induction a as [|c a IH]; [apply prefix_empty|].
  simpl. destruct (ascii_dec c c); [exact IH|contradiction].
Qed.

Lemma prefix_split (a s : string) : String.prefix a s = true -> exists r, s = a ++ r.
Proof.
  revert s. induction a as [|c a IH]; intros s.
  - intros _. now exists s.
  - destruct s as [|d s]; [discriminate|]. cbn.
    destruct (ascii_dec c d) as [<-|]; [|discriminate].
    intros [r ->]%IH. now exists r.
Qed.

Lemma contains_append (kw p r : string) : contains kw (p ++ kw ++ r) = true.
Proof.
  induction p as [|c p IH].
  - change (EmptyString ++ kw ++ r) with (kw ++ r).
    destruct (kw ++ r) eqn:E; cbn [contains]; rewrite <- ?E, prefix_append; reflexivity.
  - change (String c p ++ kw ++ r) with (String c (p ++ kw ++ r)).
    cbn [contains]. rewrite IH. apply orb_true_r.
Qed.

Lemma contains_split (kw s : string) :
  contains kw s = true -> exists p r, s = p ++ kw ++ r.
Proof.
  induction s as [|c s IH]; cbn [contains].
  - rewrite orb_false_r. intros [r ->]%prefix_split. now exists EmptyString, r.
  - intros [H|H]%orb_true_iff.
    + apply prefix_split in H. destruct H as [r ->]. now exists EmptyString, r.
    + destruct (IH H) as (p & r & ->). now exists (String c p), r.
Qed.

Lemma append_assoc (a b c : string) : (a ++ b) ++ c = a ++ b ++ c.
Proof.
  induction a as [|x a IH]; [reflexivity|].
  change (String x ((a ++ b) ++ c) = String x (a ++ b ++ c)). now rewrite IH.
Qed.

(** A text that holds a phrase holds every part of the phrase. *)
Lemma contains_trans (a b s : string) :
  contains a b = true -> contains b s = true -> contains a s = true.
Proof.
  intros (p1 & r1 & ->)%contains_split (p2 & r2 & ->)%contains_split.
  replace (p2 ++ (p1 ++ a ++ r1) ++ r2) with ((p2 ++ p1) ++ a ++ (r1 ++ r2)).
  - apply contains_append.
  - now rewrite !append_assoc.
Qed.

Lemma contains_part_absent (a b s : string) :
  contains a b = true -> contains a s = false -> contains b s = false.
Proof.
  intros Hab Has. destruct (contains b s) eqn:E; [|reflexivity].
  now rewrite (contains_trans a b s Hab E) in Has.
Qed.

(** A query that says "growth rate" is a query about prices: "rate" is a
    keyword of the metric tried first. *)
Theorem growth_rate_reads_as_price
    (DEFAULT_LOCATIONS : list string) (query : string) (candidates : option (list string)) :
  let parsed := parse_query DEFAULT_LOCATIONS query candidates in
  contains "growth rate" (lower (strip query)) = true ->
  metric parsed = "price" /\ In "growth_rate" (stats parsed) /\
  general_insight parsed
  = any_contains GENERAL_INSIGHT_KEYWORDS (lower (strip query)).
Proof.
  intros parsed H.
  assert (Hrate : contains "rate" (lower (strip query)) = true)
    by (apply (contains_trans "rate" "growth rate"); [reflexivity|exact H]).
  assert (Hm : _detect_metric (lower (strip query)) = "price").
  { unfold _detect_metric. cbn [detect_metric_in METRIC_KEYWORDS].
    replace (any_contains _ (lower (strip query))) with true; [reflexivity|].
    symmetry. cbn [any_contains existsb]. rewrite Hrate. now rewrite !orb_true_r. }
  destruct (parse_query_fields DEFAULT_LOCATIONS query candidates)
    as (_ & Hmetric & _ & _ & _ & _ & Hstats).
  fold parsed in Hmetric, Hstats.
  split; [congruence|]. split.
  - rewrite Hstats. unfold _detect_stats.
    cbn [STAT_KEYWORDS List.filter snd any_contains existsb].
    rewrite H. cbn [orb].
    repeat (match goal with |- context [if ?b then _ else _] => destruct b end);
      cbn; auto 10.
  - unfold parsed, parse_query.
    destruct (_extract_years (lower (strip query))) as [y yr].
    destruct (_detect_ranking (lower (strip query))) as [[flag order] limit].
    cbn [general_insight]. rewrite Hm. reflexivity.
Qed.

(** The metric "sales" is reached by "revenue" or "turnover" alone: its
    other keywords hold "sales", a keyword of the metric "demand", which is
    tried before. *)
Theorem sales_metric_needs_revenue_or_turnover (lowered_query : string) :
  (_detect_metric lowered_query = "sales" ->
   (contains "revenue" lowered_query = true \/ contains "turnover" lowered_query = true) /\
   contains "sales" lowered_query = false) /\
  (contains "total sales" lowered_query = true \/
   contains "total_sales" lowered_query = true ->
   _detect_metric lowered_query = "price" \/ _detect_metric lowered_query = "demand").
Proof.
  unfold _detect_metric. cbn [detect_metric_in METRIC_KEYWORDS].
  split.
  - match goal with |- context [if ?b then "price" else _] => destruct b end;
      [intros Habs; discriminate Habs|].
    match goal with |- context [if ?b then "demand" else _] => destruct b eqn:Ed end;
      [intros Habs; discriminate Habs|].
    match goal with |- context [if ?b then "supply" else _] => destruct b end;
      [intros Habs; discriminate Habs|].
    match goal with |- context [if ?b then "sales" else _] => destruct b eqn:Es end;
      [|intros Habs; discriminate Habs].
    intros _.
    cbn [any_contains existsb] in Ed, Es.
    rewrite !orb_false_iff in Ed. destruct Ed as (_ & _ & Hsales & _).
    rewrite (contains_part_absent "sales" "total_sales" _ eq_refl Hsales) in Es.
    rewrite (contains_part_absent "sales" "total sales" _ eq_refl Hsales) in Es.
    cbn [orb] in Es. rewrite orb_false_r in Es.
    apply orb_true_iff in Es. split; [exact Es|exact Hsales].
  - intros H.
    assert (Hsales : contains "sales" lowered_query = true).
    { destruct H as [H|H];
        [apply (contains_trans "sales" "total sales")|
         apply (contains_trans "sales" "total_sales")]; auto. }
    match goal with |- context [if ?b then "price" else _] => destruct b end;
      [now left|].
    match goal with |- context [if ?b then "demand" else _] =>
      replace b with true; [now right|] end.
    symmetry. cbn [any_contains existsb]. rewrite Hsales. now rewrite !orb_true_r.
Qed.

(** ** The filters of the dataset *)

Lemma filter_filter {A} (p q : A -> bool) (l : list A) :
  List.filter q (List.filter p l) = List.filter (fun x => p x && q x) l.
Proof.
  induction l as [|a l IH]; cbn; [reflexivity|].
  destruct (p a); cbn; [destruct (q a); now rewrite IH|exact IH].
Qed.

Lemma filter_length_lt {A} (p : A -> bool) (l : list A) (x : A) :
  In x l -> p x = false -> (List.length (List.filter p l) < List.length l)%nat.
Proof.
  induction l as [|a l IH]; cbn; [intros []|].
  intros [->|Hin] Hx.
  - rewrite Hx. pose proof (List.filter_length_le p l). lia.
  - specialize (IH Hin Hx). destruct (p a); cbn; lia.
Qed.

Lemma skipn_sorted_later (s : list Z) :
  StronglySorted Z.lt s ->
  forall (k : nat) (x : Z),
    In x (skipn k s) <->
    In x s /\ (later_years s x < List.length s - k)%nat.
Proof.
  unfold later_years.
  induction 1 as [|a t Hs IH Ha]; intros k x.
  - rewrite skipn_nil. cbn. intuition lia.
  - assert (Hall : List.length (List.filter (fun other => (a <? other)%Z) t) = List.length t).
    { clear IH Hs. induction t as [|b t IHt]; cbn; [reflexivity|].
      inversion Ha; subst. destruct (Z.ltb_spec a b); [|lia]. cbn. now rewrite IHt. }
    assert (Hin : forall y, In y t ->
              List.length (List.filter (fun other => (y <? other)%Z) (a :: t))
              = List.length (List.filter (fun other => (y <? other)%Z) t)).
    { intros y Hy. cbn. rewrite List.Forall_forall in Ha. specialize (Ha y Hy).
      destruct (Z.ltb_spec y a); [lia|reflexivity]. }
    destruct k as [|k].
    + cbn [skipn]. split; [|tauto]. intros Hx. split; [exact Hx|].
      rewrite Nat.sub_0_r. apply (filter_length_lt _ _ x Hx). apply Z.ltb_irrefl.
    + cbn [skipn]. rewrite IH. cbn [List.length].
      replace (S (List.length t) - S k)%nat with (List.length t - k)%nat by lia.
      split.
      * intros [Hx Hlt]. split; [now right|]. now rewrite Hin.
      * intros [[<-|Hx] Hlt].
        -- exfalso. cbn in Hlt. rewrite Z.ltb_irrefl, Hall in Hlt. lia.
        -- split; [exact Hx|]. now rewrite <- Hin.
Qed.

(** The slice [s[-n:]] of ascending years keeps those with fewer than [n]
    years after them. *)
Lemma last_n_sorted_later (s : list Z) (n : Z) (x : Z) :
  StronglySorted Z.lt s -> (0 < n)%Z ->
  In x (last_n n s) <-> In x s /\ (later_years s x < Z.to_nat n)%nat.
Proof.
  intros Hs Hn. unfold last_n. destruct (Z.ltb_spec 0 n); [|lia].
  rewrite (skipn_sorted_later s Hs).
  split; intros [Hx Hlt]; (split; [exact Hx|]).
  - lia.
  - assert (later_years s x < List.length s)%nat
      by (apply (filter_length_lt _ _ x Hx); apply Z.ltb_irrefl).
    lia.
Qed.

Lemma existsb_Zeqb_In (x : Z) (l : list Z) : existsb (Z.eqb x) l = true <-> In x l.
Proof.
  rewrite existsb_exists. split.
  - intros (y & Hy & ->%Z.eqb_eq). exact Hy.
  - intros Hx. exists x. split; [exact Hx|apply Z.eqb_refl].
Qed.

(** Keeping the rows of the last [n] years of a list of rows *)
Lemma keep_last_n_years (l : list Row) (n : Z) :
  (0 < n)%Z ->
  List.filter
    (fun r => existsb (Z.eqb (row_year r)) (last_n n (sorted_set (map row_year l)))) l
  = List.filter
      (fun r => (later_years (sorted_set (map row_year l)) (row_year r) <? Z.to_nat n)%nat) l.
Proof.
  intros Hn. apply List.filter_ext_in. intros r Hr.
  apply eq_true_iff_eq.
  rewrite existsb_Zeqb_In, (last_n_sorted_later _ n _ (sorted_set_sorted _) Hn).
  rewrite Nat.ltb_lt. split; [tauto|]. intros Hlt. split; [|exact Hlt].
  apply sorted_set_In, in_map, Hr.
Qed.

Lemma later_years_lt (years : list Z) (y : Z) :
  In y years -> (later_years years y < List.length years)%nat.
Proof. intros Hy. apply (filter_length_lt _ _ y Hy). apply Z.ltb_irrefl. Qed.

Lemma keep_all_years (l : list Row) (n : nat) :
  (List.length (sorted_set (map row_year l)) <= n)%nat ->
  List.filter (fun r => (later_years (sorted_set (map row_year l)) (row_year r) <? n)%nat) l
  = l.
Proof.
  intros Hlen.
  rewrite (List.filter_ext_in _ (fun _ => true)).
  - clear. induction l; cbn; congruence.
  - intros r Hr. apply Nat.ltb_lt.
    assert (In (row_year r) (sorted_set (map row_year l)))
      by (apply sorted_set_In, in_map, Hr).
    pose proof (later_years_lt _ _ H). lia.
Qed.

Section FilterDataset.
Context `{contract : SortContract}.

Lemma filter_dataset_selection (df : DataFrame) (location : option string)
    (year : option Z) (year_range : option (Z * Z)) :
  Permutation (rows (filter_dataset df location year year_range None))
    (List.filter
       (fun r => _location_mask location r && within year_range (row_year r)
                 && of_year year (row_year r))
       (rows df)).
Proof.
  unfold filter_dataset. rewrite sort_by_year_perm.
  destruct year as [y|]; destruct year_range as [[a b]|];
    cbn [select with_rows rows within of_year];
    rewrite ?filter_filter;
    (apply Permutation_refl' || idtac);
    apply List.filter_ext; intros r;
    rewrite ?andb_true_r, ?andb_assoc; reflexivity.
Qed.



End FilterDataset.

Lemma strictly_sorted_ext (l1 l2 : list Z) :
  StronglySorted Z.lt l1 -> StronglySorted Z.lt l2 ->
  (forall x, In x l1 <-> In x l2) -> l1 = l2.
Proof.
  intros H1. revert l2. induction H1 as [|a t Ht IH Ha]; intros l2 H2 Hext.
  - destruct l2 as [|b u]; [reflexivity|]. destruct (proj2 (Hext b)); now left.
  - destruct H2 as [|b u Hu Hb].
    + destruct (proj1 (Hext a)); now left.
    + rewrite List.Forall_forall in Ha, Hb.
      assert (a = b).
      { destruct (proj1 (Hext a) (or_introl eq_refl)) as [->|Hau]; [reflexivity|].
        destruct (proj2 (Hext b) (or_introl eq_refl)) as [->|Hbt]; [reflexivity|].
        specialize (Ha b Hbt). specialize (Hb a Hau). lia. }
      subst b. f_equal. apply IH; [exact Hu|].
      intros x. split; intros Hx.
      * destruct (proj1 (Hext x) (or_intror Hx)) as [<-|]; [|assumption].
        specialize (Ha a Hx). lia.
      * destruct (proj2 (Hext x) (or_intror Hx)) as [<-|]; [|assumption].
        specialize (Hb a Hx). lia.
Qed.

(** The distinct years of a list of rows do not depend on its order. *)
Lemma sorted_years_Permutation (l1 l2 : list Row) :
  Permutation l1 l2 ->
  sorted_set (map row_year l1) = sorted_set (map row_year l2).
Proof.
  intros Hp. apply strictly_sorted_ext; try apply sorted_set_sorted.
  intros x. rewrite !sorted_set_In.
  split; apply Permutation_in; [|symmetry]; now apply Permutation_map.
Qed.

Lemma existsb_map_comp {A B} (f : B -> bool) (g : A -> B) (l : list A) :
  existsb f (map g l) = existsb (fun x => f (g x)) l.
Proof. induction l as [|a l IH]; cbn; [reflexivity|now rewrite IH]. Qed.

Lemma is_nil_Permutation {A} (l1 l2 : list A) :
  Permutation l1 l2 -> is_nil l1 = is_nil l2.
Proof.
  intros Hp. destruct l1, l2; try reflexivity.
  - now apply Permutation_nil in Hp.
  - symmetry in Hp. now apply Permutation_nil in Hp.
Qed.

Lemma aggregate_rows (df : DataFrame) (locations : option (list string))
    (year : option Z) (year_range : option (Z * Z)) (last_n_years : option Z) :
  let selection := rows (aggregate_across_locations df locations year year_range None) in
  rows (aggregate_across_locations df locations year year_range last_n_years)
  = match last_n_years with
    | Some n =>
        if (n =? 0)%Z || is_nil selection then selection
        else List.filter
               (fun r => existsb (Z.eqb (row_year r))
                           (last_n n (sorted_set (map row_year selection)))) selection
    | None => selection
    end.
Proof.
  destruct last_n_years as [n|]; [|reflexivity].
  unfold aggregate_across_locations, empty. cbn zeta.
  match goal with |- context [(n =? 0)%Z || is_nil ?l] =>
    destruct ((n =? 0)%Z || is_nil l) end; reflexivity.
Qed.

Lemma filter_dataset_rows `{PandasRuntime} (df : DataFrame) (location : option string)
    (year : option Z) (year_range : option (Z * Z)) (last_n_years : option Z) :
  let selection := rows (filter_dataset df location year year_range None) in
  rows (filter_dataset df location year year_range last_n_years)
  = match last_n_years with
    | Some n =>
        if (n =? 0)%Z || is_nil selection then selection
        else List.filter
               (fun r => existsb (Z.eqb (row_year r))
                           (last_n n (sorted_set (map row_year selection)))) selection
    | None => selection
    end.
Proof.
  destruct last_n_years as [n|]; [|reflexivity].
  unfold filter_dataset, empty. cbn zeta.
  match goal with |- context [(n =? 0)%Z || is_nil ?l] =>
    destruct ((n =? 0)%Z || is_nil l) end; reflexivity.
Qed.

Lemma aggregate_selection (df : DataFrame) (locations : option (list string))
    (year : option Z) (year_range : option (Z * Z)) :
  Permutation (rows (aggregate_across_locations df locations year year_range None))
    (List.filter
       (fun r => _locations_mask locations r && within year_range (row_year r)
                 && of_year year (row_year r))
       (rows df)).
Proof.
  unfold aggregate_across_locations. cbn [rows with_rows].
  rewrite stable_sort_perm.
  destruct year as [y|]; destruct year_range as [[a b]|];
    cbn [select with_rows rows within of_year];
    rewrite ?filter_filter;
    apply Permutation_refl';
    apply List.filter_ext; intros r;
    rewrite ?andb_true_r, ?andb_assoc; reflexivity.
Qed.

(** [aggregate_across_locations] returns the records of the named
    locations (of all, when none is named) within the range and of the
    year, ordered by location and, within a location, by year; a window of
    the last [n] years is taken over the years of all those records
    together. *)
Theorem aggregate_across_locations_selects (df : DataFrame)
    (locations : option (list string)) (year : option Z) (year_range : option (Z * Z))
    (n : Z) :
  let names := default [] locations in
  let selection := rows (aggregate_across_locations df locations year year_range None) in
  let result := rows (aggregate_across_locations df locations year year_range (Some n)) in
  let years := sorted_set (map row_year selection) in
  Permutation selection
    (List.filter
       (fun r =>
          (is_nil names
           || existsb (fun name => String.eqb (_normalize (final_location r)) (_normalize name))
                names)
          && within year_range (row_year r) && of_year year (row_year r))
       (rows df)) /\
  StronglySorted (fun a b => location_year_le a b = true) selection /\
  ((0 < n)%Z ->
   result
   = List.filter (fun r => (later_years years (row_year r) <? Z.to_nat n)%nat) selection).
Proof.
  intros names selection result years. split; [|split].
  - unfold selection, aggregate_across_locations. cbn [rows with_rows].
    rewrite stable_sort_perm.
    assert (Hmask : forall r,
      _locations_mask locations r
      = is_nil names
        || existsb (fun name => String.eqb (_normalize (final_location r)) (_normalize name))
             names).
    { intros r. unfold names, _locations_mask.
      destruct locations as [[|l ls]|]; cbn [default from_option id is_nil orb];
        try reflexivity.
      unfold _normalize. now rewrite existsb_map_comp. }
    destruct year as [y|]; destruct year_range as [[a b]|];
      cbn [select with_rows rows within of_year];
      rewrite ?filter_filter;
      apply Permutation_refl';
      apply List.filter_ext; intros r;
      rewrite Hmask, ?andb_true_r, ?andb_assoc; reflexivity.
  - unfold selection, aggregate_across_locations. cbn [rows with_rows].
    apply (stable_sort_sorted _ (fun _ => True)).
    + apply location_year_le_orders.
    + apply List.Forall_forall. auto.
  - intros Hn. unfold result. rewrite aggregate_rows. cbn zeta. fold selection.
    destruct (Z.eqb_spec n 0); [lia|]. cbn [orb].
    destruct selection as [|r0 rest] eqn:Es; [reflexivity|]. cbn [is_nil].
    apply keep_last_n_years, Hn.
Qed.

(** Over one named location [aggregate_across_locations] selects the
    records that [filter_dataset] selects for it. *)
Theorem aggregate_of_one_location `{contract : SortContract} (df : DataFrame)
    (location : string) (year : option Z) (year_range : option (Z * Z))
    (last_n_years : option Z) :
  location <> EmptyString ->
  Permutation
    (rows (aggregate_across_locations df (Some [location]) year year_range last_n_years))
    (rows (filter_dataset df (Some location) year year_range last_n_years)).
Proof.
  intros Hl.
  assert (Hbase :
    Permutation
      (rows (aggregate_across_locations df (Some [location]) year year_range None))
      (rows (filter_dataset df (Some location) year year_range None))).
  { rewrite aggregate_selection, filter_dataset_selection. apply Permutation_refl'.
    apply List.filter_ext. intros r. f_equal. f_equal.
    cbn [_locations_mask _location_mask map existsb].
    destruct location; [contradiction|]. cbn [is_empty]. now rewrite orb_false_r. }
  rewrite aggregate_rows, filter_dataset_rows. cbn zeta.
  destruct last_n_years as [n|]; [|exact Hbase].
  rewrite (is_nil_Permutation _ _ Hbase), (sorted_years_Permutation _ _ Hbase).
  destruct ((n =? 0)%Z || is_nil _); [exact Hbase|].
  apply filter_Permutation_list, Hbase.
Qed.

(** ** The locations of the workbook *)

Lemma string_ltb_lt (a b : string) : String.ltb a b = true <-> String.compare a b = Lt.
Proof. unfold String.ltb. destruct (String.compare a b); split; congruence. Qed.

Lemma insert_unique_str_In (y x : string) (l : list string) :
  In x (insert_unique_str y l) <-> x = y \/ In x l.
Proof.
  induction l as [|a l IH]; cbn; [intuition|].
  destruct (String.ltb y a); [cbn; intuition|].
  destruct (String.eqb_spec y a) as [->|]; cbn; [intuition|].
  rewrite IH. intuition.
Qed.

Lemma sorted_set_str_In (x : string) (l : list string) :
  In x (sorted_set_str l) <-> In x l.
Proof.
  induction l as [|a l IH]; cbn; [reflexivity|].
  rewrite insert_unique_str_In, IH. intuition.
Qed.

Lemma insert_unique_str_sorted (y : string) (l : list string) :
  StronglySorted (fun a b => String.compare a b = Lt) l ->
  StronglySorted (fun a b => String.compare a b = Lt) (insert_unique_str y l).
Proof.
  induction 1 as [|a l Hl IH Ha]; cbn; [repeat constructor|].
  destruct (String.ltb y a) eqn:Elt.
  - apply string_ltb_lt in Elt. constructor; [now constructor|].
    constructor; [exact Elt|].
    rewrite List.Forall_forall in Ha |- *. intros z Hz.
    eapply string_compare_lt_trans; eauto.
  - destruct (String.eqb_spec y a) as [->|Hne]; [now constructor|].
    constructor; [exact IH|].
    rewrite List.Forall_forall in Ha |- *. intros z Hz.
    apply insert_unique_str_In in Hz. destruct Hz as [->|Hz]; [|auto].
    destruct (String.compare a y) eqn:Ec; [|reflexivity|].
    + apply String.compare_eq_iff in Ec. congruence.
    + rewrite String.compare_antisym in Ec.
      destruct (String.compare y a) eqn:Ec'; try discriminate Ec.
      apply string_ltb_lt in Ec'. congruence.
Qed.

Lemma sorted_set_str_sorted (l : list string) :
  StronglySorted (fun a b => String.compare a b = Lt) (sorted_set_str l).
Proof.
  induction l as [|a l IH]; cbn; [constructor|]. now apply insert_unique_str_sorted.
Qed.

(** [list_locations] lists each location of the records once, in ascending
    order of code points. *)
Theorem list_locations_exact (df : DataFrame) :
  let names := ExcelReader.list_locations df in
  (forall name, In name names <-> exists r, In r (rows df) /\ final_location r = name) /\
  StronglySorted (fun a b => String.compare a b = Lt) names /\
  List.NoDup names.
Proof.
  intros names.
  assert (Hs : StronglySorted (fun a b => String.compare a b = Lt) names)
    by apply sorted_set_str_sorted.
  split; [|split; [exact Hs|]].
  - intros name. unfold names, ExcelReader.list_locations.
    rewrite sorted_set_str_In, in_map_iff. split; intros (r & H1 & H2); eauto.
  - clear -Hs. induction Hs as [|a l Hl IH Ha]; constructor; [|exact IH].
    intros Hin. rewrite List.Forall_forall in Ha. specialize (Ha a Hin).
    now rewrite string_compare_refl in Ha.
Qed.

(** ** Locations resolved against the workbook *)

Lemma match_locations_listed (query : string) (names : list string) (location : string) :
  In location (_match_locations query names) -> In location names.
Proof.
  unfold _match_locations. rewrite match_locations_loop_spec by (cbn; lia).
  cbn [rev app]. intros H%firstn_In. apply filter_In in H. tauto.
Qed.

Lemma location_mask_own (r : Row) :
  _location_mask (Some (final_location r)) r = true.
Proof.
  unfold _location_mask, _normalize.
  destruct (is_empty (final_location r)); [reflexivity|apply String.eqb_refl].
Qed.

Section Resolved.
Context `{contract : SortContract}.

Lemma filter_dataset_perm_location (df : DataFrame) (location : string) :
  Permutation (rows (filter_dataset df (Some location) None None None))
    (List.filter (_location_mask (Some location)) (rows df)).
Proof. unfold filter_dataset. rewrite sort_by_year_perm. reflexivity. Qed.

Lemma listed_location_has_records (df : DataFrame) (location : string) :
  In location (ExcelReader.list_locations df) ->
  empty (filter_dataset df (Some location) None None None) = false.
Proof.
  unfold ExcelReader.list_locations. intros H.
  apply (proj1 (sorted_set_str_In _ _)) in H. apply List.in_map_iff in H.
  destruct H as (r & <- & Hr).
  assert (Hin : In r (rows (filter_dataset df (Some (final_location r)) None None None))).
  { eapply Permutation_in; [symmetry; apply filter_dataset_perm_location|].
    apply filter_In. split; [exact Hr|apply location_mask_own]. }
  unfold empty.
  destruct (rows (filter_dataset df (Some (final_location r)) None None None));
    [destruct Hin|reflexivity].
Qed.

Lemma sorted_rows_latest (df : DataFrame) (r : Row) (rest : list Row) :
  rows (sort_by_year df) = r :: rest -> latest_row df (List.last rest r).
Proof.
  intros E.
  pose proof (sort_by_year_perm df) as Hperm.
  pose proof (sort_by_year_sorted df) as Hsorted.
  rewrite E in Hperm, Hsorted. split.
  - eapply Permutation_in; [exact Hperm|apply last_In_cons].
  - intros r' Hr'. apply (Permutation_in _ (Permutation_sym Hperm)) in Hr'.
    rewrite (last_cons_default r r rest).
    destruct (sorted_last_greatest _ r _ Hsorted r' Hr') as [->|H]; lia.
Qed.

Lemma resolved_location_listed (names : list string) (query location : string) :
  In location (locations (parse_query names query (Some names))) -> In location names.
Proof.
  intros Hin.
  destruct (parse_query_fields names query (Some names)) as (Hloc & _).
  rewrite Hloc in Hin. now apply match_locations_listed in Hin.
Qed.

(** Every location the parser resolves against the list of the workbook
    has records there: with no window of time its frame is not empty. *)
Theorem resolved_locations_have_records (df : DataFrame) (query : string) :
  let names := ExcelReader.list_locations df in
  let parsed := parse_query names query (Some names) in
  forall location, In location (locations parsed) ->
    In location names /\
    empty (filter_dataset df (Some location) None None None) = false.
Proof.
  intros names parsed location Hin. apply resolved_location_listed in Hin.
  split; [exact Hin|]. now apply listed_location_has_records.
Qed.

End Resolved.

(** ** The coordinate strategy *)

Section Coordinates.
Context `{contract : SortContract} `{libm : Libm}.

(** A query for coordinates, and not for what is near, is answered from the
    latest record of its first location: the answer is the refusal for want
    of a location, or the coordinates of that record, which the summary
    spells when the record has both. The handler's other refusal, for a
    location missing in the data, is never given. *)
Theorem coordinate_answer_of_query (df : DataFrame) (query : string) :
  let names := ExcelReader.list_locations df in
  let parsed := parse_query names query (Some names) in
  coordinate parsed = true -> near parsed = false ->
  match locations parsed with
  | [] =>
      _handle_coordinate df parsed
      = Some (Detail "Please mention a location for coordinate queries." 400)
  | location :: _ =>
      exists r,
        latest_row (filter_dataset df (Some location) None None None) r /\
        let lat := lookup_key (cells r) "loc_lat" in
        let lng := lookup_key (cells r) "loc_lng" in
        let summary :=
          match lat, lng with
          | Some a, Some b =>
              "Coordinates for " ++ location ++ ": lat " ++ _format_value (Some a)
              ++ ", lng " ++ _format_value (Some b) ++ "."
          | _, _ =>
              "Latitude/longitude for " ++ location
              ++ " could not be located in the dataset."
          end in
        _handle_coordinate df parsed
        = Some (Payload summary "none" NoChart (CoordinateTable location lat lng))
  end.
Proof.
  intros names parsed Hc Hn.
  unfold _handle_coordinate.
  destruct (locations parsed) as [|location others] eqn:El; [reflexivity|].
  assert (He : empty (filter_dataset df (Some location) None None None) = false).
  { apply listed_location_has_records, (resolved_location_listed names query).
    fold parsed. rewrite El. now left. }
  rewrite He.
  set (filtered := filter_dataset df (Some location) None None None) in *.
  pose proof (Permutation_length (sort_by_year_perm filtered)) as Hlen.
  destruct (rows (sort_by_year filtered)) as [|r rest] eqn:Es.
  - unfold empty in He. destruct (rows filtered); discriminate.
  - exists (List.last rest r). split; [now apply sorted_rows_latest|].
    rewrite Hn. unfold _build_response, generate_summary.
    cbn [coordinate_lat coordinate_lng]. rewrite Hc.
    unfold first_location_or. rewrite El.
    destruct (lookup_key (cells (List.last rest r)) "loc_lat");
      destruct (lookup_key (cells (List.last rest r)) "loc_lng"); reflexivity.
Qed.

(** A query for what is near, parsed against the locations of the
    workbook, is refused for want of a location; otherwise it raises when a
    distance does, and else answers with the nearby list as its table. The
    summary names the localities of that list, or says that none was
    detected; when the query also asks for coordinates, the summary gives
    those of the latest record instead. *)
Theorem near_answer_of_query (df : DataFrame) (query : string) :
  let names := ExcelReader.list_locations df in
  let parsed := parse_query names query (Some names) in
  near parsed = true ->
  match locations parsed with
  | [] =>
      _handle_coordinate df parsed
      = Some (Detail "Please mention a location for coordinate queries." 400)
  | location :: _ =>
      match _nearby_localities df location with
      | None => _handle_coordinate df parsed = None
      | Some nearby_rows =>
          exists summary,
            _handle_coordinate df parsed
            = Some (Payload summary "none" NoChart (NearbyTable nearby_rows)) /\
            (coordinate parsed = false ->
             summary
             = match nearby_rows with
               | [] => "No nearby localities were detected for " ++ location ++ "."
               | _ =>
                   "Localities closest to " ++ location ++ " include "
                   ++ join ", " (map nearby_location nearby_rows) ++ "."
               end) /\
            (coordinate parsed = true ->
             exists r,
               latest_row (filter_dataset df (Some location) None None None) r /\
               summary
               = match lookup_key (cells r) "loc_lat", lookup_key (cells r) "loc_lng" with
                 | Some a, Some b =>
                     "Coordinates for " ++ location ++ ": lat " ++ _format_value (Some a)
                     ++ ", lng " ++ _format_value (Some b) ++ "."
                 | _, _ =>
                     "Latitude/longitude for " ++ location
                     ++ " could not be located in the dataset."
                 end)
      end
  end.
Proof.
  intros names parsed Hn.
  unfold _handle_coordinate.
  destruct (locations parsed) as [|location others] eqn:El; [reflexivity|].
  assert (He : empty (filter_dataset df (Some location) None None None) = false).
  { apply listed_location_has_records, (resolved_location_listed names query).
    fold parsed. rewrite El. now left. }
  rewrite He.
  set (filtered := filter_dataset df (Some location) None None None) in *.
  pose proof (Permutation_length (sort_by_year_perm filtered)) as Hlen.
  destruct (rows (sort_by_year filtered)) as [|r rest] eqn:Es.
  { unfold empty in He. destruct (rows filtered); discriminate. }
  rewrite Hn.
  destruct (_nearby_localities df location) as [nearby_rows|]; [|reflexivity].
  cbn [PyMath.bind]. eexists. split; [reflexivity|].
  unfold generate_summary. cbn [coordinate_lat coordinate_lng nearby].
  rewrite Hn. unfold first_location_or. rewrite El. split.
  - intros ->. destruct nearby_rows; reflexivity.
  - intros ->. exists (List.last rest r). split; [now apply sorted_rows_latest|].
    destruct (lookup_key (cells (List.last rest r)) "loc_lat");
      destruct (lookup_key (cells (List.last rest r)) "loc_lng"); reflexivity.
Qed.

End Coordinates.

(** ** A location spelled with white space around it *)

Lemma length_lower (s : string) : String.length (lower s) = String.length s.
Proof. induction s as [|c r IH]; cbn; [reflexivity|now rewrite IH]. Qed.

Lemma lstrip_length (s : string) :
  (String.length (lstrip s) <= String.length s)%nat /\
  (String.length (lstrip s) = String.length s -> lstrip s = s).
Proof.
  induction s as [|c r [IH1 IH2]]; cbn; [auto|].
  destruct (is_space c); cbn; [|auto]. split; [lia|intros; lia].
Qed.

Lemma rstrip_length (s : string) :
  (String.length (rstrip s) <= String.length s)%nat /\
  (String.length (rstrip s) = String.length s -> rstrip s = s).
Proof.
  induction s as [|c r [IH1 IH2]]; cbn; [auto|].
  destruct (rstrip r) as [|c' r'] eqn:E.
  - destruct (is_space c); cbn in *; [split; [lia|intros; lia]|].
    split; [lia|]. intros H. destruct r; [reflexivity|cbn in H; lia].
  - cbn in *. split; [lia|]. intros H. rewrite IH2; [reflexivity|lia].
Qed.

Lemma strip_length_eq (s : string) :
  String.length (strip s) = String.length s -> strip s = s.
Proof.
  unfold strip. intros H.
  destruct (lstrip_length s) as [L1 L2].
  destruct (rstrip_length (lstrip s)) as [R1 R2].
  rewrite R2 by lia. apply L2. lia.
Qed.

(** No normalised name is the lowered form of a name with white space
    around it. *)
Lemma normalize_never_untrimmed (name location : string) :
  strip location <> location -> _normalize name <> lower location.
Proof.
  intros Hl Heq. apply Hl, strip_length_eq. unfold _normalize in Heq.
  assert (Hclean : strip (lower location) = lower location).
  { rewrite <- Heq, <- lower_strip, strip_idem. reflexivity. }
  rewrite <- (length_lower (strip location)), lower_strip, Hclean.
  apply length_lower.
Qed.

(** [_nearby_localities] lowers the name it is given and does not strip it,
    while the names of the frame are stripped: for a name with white space
    at either end no base record is found, and the list is empty. *)
Theorem nearby_of_untrimmed_location `{pandas : PandasRuntime} `{libm : Libm}
    (df : DataFrame) (location : string) :
  strip location <> location ->
  _nearby_localities df location = Some [].
Proof.
  intros Hl. unfold _nearby_localities.
  replace (List.filter (at_location location) (rows (latest_records_per_location df)))
    with (@nil Row); [reflexivity|].
  symmetry. induction (rows (latest_records_per_location df)) as [|r rest IH];
    cbn [List.filter]; [reflexivity|].
  unfold at_location at 1.
  destruct (String.eqb_spec (_normalize (final_location r)) (lower location)) as [E|_];
    [|exact IH].
  now apply normalize_never_untrimmed in E.
Qed.

(** ** The answer of the ranking strategy *)

Lemma rank_records_locations (column : string) (idx : Z) (rs : list Row) :
  map rank_location (rank_records column idx rs) = map final_location rs.
Proof. revert idx. induction rs as [|r rs IH]; intros idx; cbn; [reflexivity|now rewrite IH]. Qed.

Lemma rank_records_charted (column : string) (idx : Z) (rs : list Row) :
  Forall (fun r => notna (cell column r) = true) rs ->
  _sanitize_values (map (fun r => Some (cell column r)) rs)
  = map (fun record => Some (rank_value record)) (rank_records column idx rs).
Proof.
  intros Hrs. revert idx. induction Hrs as [|r rs Hr _ IH]; intros idx; cbn; [reflexivity|].
  rewrite Hr. f_equal. apply IH.
Qed.

Lemma dispatch_ranking (parsed : ParsedQuery) :
  dispatch parsed = RankingStrategy ->
  coordinate parsed = false /\ near parsed = false /\ ranking parsed = true.
Proof.
  unfold dispatch.
  destruct (coordinate parsed), (near parsed); cbn; try discriminate.
  destruct (ranking parsed); [auto|].
  destruct (comparison parsed && _); discriminate.
Qed.

(** In an answer of the ranking strategy the chart shows the table: its
    labels are the locations of the records and its values their values, none
    of them null; and the summary names the record of rank 1. *)
Theorem ranking_answer_agrees `{contract : SortContract}
    (df : DataFrame) (parsed : ParsedQuery)
    (summary chart_type : string) (chart_data : ChartData) (records : list RankRecord) :
  dispatch parsed = RankingStrategy ->
  _handle_ranking df parsed = Payload summary chart_type chart_data (RankTable records) ->
  chart_type = "bar" /\
  chart_data
  = OneSeries {| labels := map rank_location records;
                 values := map (fun record => Some (rank_value record)) records |} /\
  match records with
  | [] => summary = "No ranking data was available for the requested metric."
  | top :: _ =>
      summary
      = rank_location top ++ " leads " ++ _metric_phrase parsed ++ " "
        ++ (if (rank_year top =? 0)%Z then "based on the latest data"
            else "in " ++ str_of_Z (rank_year top))
        ++ " with " ++ _format_value (Some (rank_value top)) ++ "."
  end /\
  ((0 < _resolve_ranking_limit parsed)%Z -> records <> []).
Proof.
  intros (Hc & Hn & Hr)%dispatch_ranking Hpayload.
  pose proof (handle_ranking_payload df parsed _ _ _ _ Hpayload) as Hrecords.
  set (column := _resolve_value_column parsed) in *.
  set (shown := first_n (_resolve_ranking_limit parsed) (ranking_sorted df parsed)) in *.
  assert (Hshown : Forall (fun r => notna (cell column r) = true) shown).
  { apply List.Forall_forall. intros r Hin. unfold shown in Hin.
    destruct (first_n_is_firstn (_resolve_ranking_limit parsed) (ranking_sorted df parsed))
      as [k Hk].
    rewrite Hk in Hin. apply firstn_In in Hin.
    apply (ranking_candidates_notna df parsed).
    eapply Permutation_in; [apply quicksort_perm|exact Hin]. }
  assert (Hrows :
    rows (head (_resolve_ranking_limit parsed)
            (sort_values column (String.eqb (ranking_order parsed) "asc")
               (dropna column (ranking_frame df (year parsed))))) = shown).
  { unfold shown, ranking_sorted, ranking_candidates, head, sort_values, dropna, select,
      with_rows. cbn [rows]. fold column.
    now rewrite filter_filter_same, filter_negb_filter, app_nil_r. }
  revert Hpayload. unfold _handle_ranking. cbv zeta. fold column.
  destruct (negb (has_column _ _)); [discriminate|].
  destruct (empty _) eqn:Hnonempty; [discriminate|].
  unfold _build_response, column_tolist. rewrite !Hrows.
  intros [= Hsummary Htype Hchart _].
  split; [now symmetry|]. split; [|split].
  - rewrite <- Hchart. unfold build_bar_chart.
    rewrite Hrecords, rank_records_locations.
    now rewrite (rank_records_charted column 1 shown Hshown).
  - rewrite <- Hsummary. unfold generate_summary. rewrite Hc, Hn, Hr.
    cbn [ranking_rows]. rewrite <- Hrecords.
    destruct records as [|top rest]; [reflexivity|].
    destruct (rank_year top =? 0)%Z; reflexivity.
  - intros Hlimit Hnil. rewrite Hnil in Hrecords.
    assert (Hshown_nil : shown = []).
    { destruct shown; [reflexivity|discriminate Hrecords]. }
    unfold shown, first_n in Hshown_nil.
    destruct (Z.leb_spec 0 (_resolve_ranking_limit parsed)); [|lia].
    assert (Hcand : ranking_sorted df parsed = []).
    { destruct (ranking_sorted df parsed); [reflexivity|].
      destruct (Z.to_nat (_resolve_ranking_limit parsed)) eqn:En; [lia|].
      discriminate Hshown_nil. }
    assert (Hlen : List.length (ranking_sorted df parsed)
                   = List.length (ranking_candidates df parsed))
      by (apply Permutation_length, quicksort_perm).
    rewrite Hcand in Hlen. unfold ranking_candidates in Hlen. fold column in Hlen.
    unfold empty in Hnonempty.
    destruct (rows (dropna column (ranking_frame df (year parsed))));
      [discriminate Hnonempty|discriminate Hlen].
Qed.

(** ** The statistics of a column *)

Section FloatOrderMore.
Local Open Scope Z_scope.

Lemma lex_lt_trans (a b c : Z * Z * Z) : lex_lt a b -> lex_lt b c -> lex_lt a c.
Proof.
  destruct a as [[a1 a2] a3], b as [[b1 b2] b3], c as [[c1 c2] c3]. unfold lex_lt. lia.
Qed.

Lemma lex_lt_irrefl (a : Z * Z * Z) : ~ lex_lt a a.
Proof. destruct a as [[a1 a2] a3]. unfold lex_lt. lia. Qed.

Lemma ltb_false_leb (x y : float) :
  notna x = true -> notna y = true ->
  (x <? y)%float = false -> (y <=? x)%float = true.
Proof.
  intros Hx Hy Hlt.
  destruct (float_order x y Hx Hy) as (Hxy & _ & _).
  destruct (float_order y x Hy Hx) as (_ & _ & Hle).
  apply Hle.
  destruct (lex_trichotomy (float_rank x) (float_rank y)) as [(H & _)|[(_ & H & _)|(_ & _ & H)]].
  - apply Hxy in H. congruence.
  - now right.
  - now left.
Qed.

Lemma ltb_true_leb (x y : float) :
  notna x = true -> notna y = true ->
  (x <? y)%float = true -> (x <=? y)%float = true.
Proof.
  intros Hx Hy Hlt. destruct (float_order x y Hx Hy) as (Hxy & _ & Hle).
  apply Hle. left. now apply Hxy.
Qed.

Lemma leb_ltb_trans (x y z : float) :
  notna x = true -> notna y = true -> notna z = true ->
  (x <=? y)%float = true -> (y <? z)%float = true -> (x <? z)%float = true.
Proof.
  intros Hx Hy Hz Hxy Hyz.
  destruct (float_order x y Hx Hy) as (_ & _ & H1).
  destruct (float_order y z Hy Hz) as (H2 & _ & _).
  destruct (float_order x z Hx Hz) as (H3 & _ & _).
  apply H3. apply H2 in Hyz. apply H1 in Hxy.
  destruct Hxy as [Hxy| ->]; [eapply lex_lt_trans; eauto|exact Hyz].
Qed.

Lemma ltb_leb_trans (x y z : float) :
  notna x = true -> notna y = true -> notna z = true ->
  (x <? y)%float = true -> (y <=? z)%float = true -> (x <? z)%float = true.
Proof.
  intros Hx Hy Hz Hxy Hyz.
  destruct (float_order x y Hx Hy) as (H1 & _ & _).
  destruct (float_order y z Hy Hz) as (_ & _ & H2).
  destruct (float_order x z Hx Hz) as (H3 & _ & _).
  apply H3. apply H1 in Hxy. apply H2 in Hyz.
  destruct Hyz as [Hyz| <-]; [eapply lex_lt_trans; eauto|exact Hxy].
Qed.

Lemma leb_refl_notna (x : float) : notna x = true -> (x <=? x)%float = true.
Proof. intros Hx. destruct (leb_total x x Hx Hx); assumption. Qed.

End FloatOrderMore.

Section Extrema.
Variable column : string.

Lemma first_greatest_next (done : list Row) (b r : Row) :
  first_greatest column done b ->
  first_greatest column (done ++ [r])
    (if notna (cell column r) && (cell column b <? cell column r)%float then r else b).
Proof.
  intros (pre & post & -> & Hb & Hall & Hpre).
  destruct (notna (cell column r)) eqn:Hr; cbn [andb].
  - destruct (cell column b <? cell column r)%float eqn:Hlt.
    + exists (pre ++ b :: post)%list, []. split; [reflexivity|]. split; [exact Hr|].
      assert (Hless : forall r', In r' (pre ++ b :: post)%list ->
                notna (cell column r') = true ->
                (cell column r' <? cell column r)%float = true).
      { intros r' Hin Hr'. apply (leb_ltb_trans _ (cell column b)); auto. }
      split; [|exact Hless].
      intros r' Hin Hr'. apply in_app_or in Hin. destruct Hin as [Hin|[<-|[]]].
      * apply ltb_true_leb; auto.
      * now apply leb_refl_notna.
    + exists pre, (post ++ [r])%list.
      split; [now rewrite <- List.app_assoc|]. split; [exact Hb|]. split; [|exact Hpre].
      intros r' Hin Hr'. apply in_app_or in Hin. destruct Hin as [Hin|[<-|[]]]; auto.
      now apply ltb_false_leb.
  - exists pre, (post ++ [r])%list.
    split; [now rewrite <- List.app_assoc|]. split; [exact Hb|]. split; [|exact Hpre].
    intros r' Hin Hr'. apply in_app_or in Hin. destruct Hin as [Hin|[<-|[]]]; auto.
    congruence.
Qed.

Lemma idxmax_from (rs : list Row) :
  forall done b, first_greatest column done b ->
  exists m, idxmax column (Some b) rs = Some m /\ first_greatest column (done ++ rs) m.
Proof.
  induction rs as [|r rest IH]; intros done b Hb; cbn [idxmax].
  - exists b. now rewrite List.app_nil_r.
  - pose proof (first_greatest_next done b r Hb) as Hnext.
    replace (done ++ r :: rest)%list with ((done ++ [r]) ++ rest)%list
      by now rewrite <- List.app_assoc.
    destruct (notna (cell column r)); cbn [andb] in Hnext; apply IH; exact Hnext.
Qed.

Lemma idxmax_first_greatest (rs : list Row) :
  forall done, (forall r, In r done -> notna (cell column r) = false) ->
  match idxmax column None rs with
  | Some m => first_greatest column (done ++ rs) m
  | None => forall r, In r (done ++ rs)%list -> notna (cell column r) = false
  end.
Proof.
  induction rs as [|r rest IH]; intros done Hdone; cbn [idxmax].
  - now rewrite List.app_nil_r.
  - replace (done ++ r :: rest)%list with ((done ++ [r]) ++ rest)%list
      by now rewrite <- List.app_assoc.
    destruct (notna (cell column r)) eqn:Hr.
    + destruct (idxmax_from rest (done ++ [r]) r) as (m & -> & Hm); [|exact Hm].
      exists done, []. split; [reflexivity|]. split; [exact Hr|]. split.
      * intros r' Hin Hr'. apply in_app_or in Hin. destruct Hin as [Hin|[<-|[]]].
        -- rewrite (Hdone r' Hin) in Hr'. discriminate Hr'.
        -- now apply leb_refl_notna.
      * intros r' Hin Hr'. rewrite (Hdone r' Hin) in Hr'. discriminate Hr'.
    + apply IH. intros r' Hin. apply in_app_or in Hin.
      destruct Hin as [Hin|[<-|[]]]; auto.
Qed.

Lemma first_least_next (done : list Row) (b r : Row) :
  first_least column done b ->
  first_least column (done ++ [r])
    (if notna (cell column r) && (cell column r <? cell column b)%float then r else b).
Proof.
  intros (pre & post & -> & Hb & Hall & Hpre).
  destruct (notna (cell column r)) eqn:Hr; cbn [andb].
  - destruct (cell column r <? cell column b)%float eqn:Hlt.
    + exists (pre ++ b :: post)%list, []. split; [reflexivity|]. split; [exact Hr|].
      assert (Hless : forall r', In r' (pre ++ b :: post)%list ->
                notna (cell column r') = true ->
                (cell column r <? cell column r')%float = true).
      { intros r' Hin Hr'. apply (ltb_leb_trans _ (cell column b)); auto. }
      split; [|exact Hless].
      intros r' Hin Hr'. apply in_app_or in Hin. destruct Hin as [Hin|[<-|[]]].
      * apply ltb_true_leb; auto.
      * now apply leb_refl_notna.
    + exists pre, (post ++ [r])%list.
      split; [now rewrite <- List.app_assoc|]. split; [exact Hb|]. split; [|exact Hpre].
      intros r' Hin Hr'. apply in_app_or in Hin. destruct Hin as [Hin|[<-|[]]]; auto.
      now apply ltb_false_leb.
  - exists pre, (post ++ [r])%list.
    split; [now rewrite <- List.app_assoc|]. split; [exact Hb|]. split; [|exact Hpre].
    intros r' Hin Hr'. apply in_app_or in Hin. destruct Hin as [Hin|[<-|[]]]; auto.
    congruence.
Qed.

Lemma idxmin_from (rs : list Row) :
  forall done b, first_least column done b ->
  exists m, idxmin column (Some b) rs = Some m /\ first_least column (done ++ rs) m.
Proof.
  induction rs as [|r rest IH]; intros done b Hb; cbn [idxmin].
  - exists b. now rewrite List.app_nil_r.
  - pose proof (first_least_next done b r Hb) as Hnext.
    replace (done ++ r :: rest)%list with ((done ++ [r]) ++ rest)%list
      by now rewrite <- List.app_assoc.
    destruct (notna (cell column r)); cbn [andb] in Hnext; apply IH; exact Hnext.
Qed.

Lemma idxmin_first_least (rs : list Row) :
  forall done, (forall r, In r done -> notna (cell column r) = false) ->
  match idxmin column None rs with
  | Some m => first_least column (done ++ rs) m
  | None => forall r, In r (done ++ rs)%list -> notna (cell column r) = false
  end.
Proof.
  induction rs as [|r rest IH]; intros done Hdone; cbn [idxmin].
  - now rewrite List.app_nil_r.
  - replace (done ++ r :: rest)%list with ((done ++ [r]) ++ rest)%list
      by now rewrite <- List.app_assoc.
    destruct (notna (cell column r)) eqn:Hr.
    + destruct (idxmin_from rest (done ++ [r]) r) as (m & -> & Hm); [|exact Hm].
      exists done, []. split; [reflexivity|]. split; [exact Hr|]. split.
      * intros r' Hin Hr'. apply in_app_or in Hin. destruct Hin as [Hin|[<-|[]]].
        -- rewrite (Hdone r' Hin) in Hr'. discriminate Hr'.
        -- now apply leb_refl_notna.
      * intros r' Hin Hr'. rewrite (Hdone r' Hin) in Hr'. discriminate Hr'.
    + apply IH. intros r' Hin. apply in_app_or in Hin.
      destruct Hin as [Hin|[<-|[]]]; auto.
Qed.

End Extrema.

Lemma non_null_values_nil (column : string) (df : DataFrame) :
  non_null_values column df = [] ->
  forall r, In r (rows df) -> notna (cell column r) = false.
Proof.
  unfold non_null_values. intros Hnil r Hr.
  destruct (notna (cell column r)) eqn:E; [|reflexivity].
  assert (Hin : In (cell column r) (List.filter notna (map (cell column) (rows df)))).
  { apply filter_In. split; [now apply in_map|exact E]. }
  rewrite Hnil in Hin. destruct Hin.
Qed.

Ltac settle_lookups :=
  repeat match goal with
  | |- context [if ?b then _ else _] => destruct b
  | |- context [match ?o with Some _ => _ | None => _ end] => destruct o
  | |- context [match ?l with [] => _ | _ :: _ => _ end] => destruct l
  end;
  repeat (rewrite lookup_insert_ne by discriminate);
  rewrite ?lookup_insert_eq, ?lookup_empty.

(** The entries "max" and "min" of the statistics: the value and the year
    of the first row to hold the greatest, or the least, value of the column;
    there is none when the frame has no such column or no value in it. *)
Theorem compute_stats_extrema `{pandas : PandasRuntime}
    (df : DataFrame) (column : string) (requested_stats : list string) :
  (requested "max" requested_stats = true ->
   match _compute_stats df column requested_stats !! "max" with
   | Some entry =>
       has_column column df = true /\
       exists m, first_greatest column (rows df) m /\
         entry = {| stat_value := Some (cell column m);
                    stat_year := Some (row_year m);
                    stat_direction := None |}
   | None =>
       has_column column df = false \/
       forall r, In r (rows df) -> notna (cell column r) = false
   end) /\
  (requested "min" requested_stats = true ->
   match _compute_stats df column requested_stats !! "min" with
   | Some entry =>
       has_column column df = true /\
       exists m, first_least column (rows df) m /\
         entry = {| stat_value := Some (cell column m);
                    stat_year := Some (row_year m);
                    stat_direction := None |}
   | None =>
       has_column column df = false \/
       forall r, In r (rows df) -> notna (cell column r) = false
   end).
Proof.
  pose proof (idxmax_first_greatest column (rows df) [] (fun r H => match H with end))
    as Hmax.
  pose proof (idxmin_first_least column (rows df) [] (fun r H => match H with end))
    as Hmin.
  cbn [app] in Hmax, Hmin.
  split; intros Hreq; unfold _compute_stats.
  - destruct (has_column column df) eqn:Hc; cbn [negb orb];
      [|rewrite lookup_empty; now left].
    destruct (empty df) eqn:He; cbn [orb].
    { rewrite lookup_empty. right. unfold empty in He.
      destruct (rows df); [intros r []|discriminate]. }
    destruct (is_nil requested_stats) eqn:Hnil.
    { destruct requested_stats; [discriminate Hreq|discriminate Hnil]. }
    destruct (non_null_values column df) as [|v vs] eqn:Hnn; cbn [is_nil].
    { rewrite lookup_empty. right. now apply non_null_values_nil. }
    rewrite Hreq.
    destruct (idxmax column None (rows df)) as [m|].
    + replace (_ !! "max") with (Some (extremum_entry column m)).
      * split; [reflexivity|]. exists m. split; [exact Hmax|reflexivity].
      * symmetry. clear. settle_lookups; reflexivity.
    + replace (_ !! "max") with (@None StatEntry); [now right|].
      symmetry. clear. settle_lookups; reflexivity.
  - destruct (has_column column df) eqn:Hc; cbn [negb orb];
      [|rewrite lookup_empty; now left].
    destruct (empty df) eqn:He; cbn [orb].
    { rewrite lookup_empty. right. unfold empty in He.
      destruct (rows df); [intros r []|discriminate]. }
    destruct (is_nil requested_stats) eqn:Hnil.
    { destruct requested_stats; [discriminate Hreq|discriminate Hnil]. }
    destruct (non_null_values column df) as [|v vs] eqn:Hnn; cbn [is_nil].
    { rewrite lookup_empty. right. now apply non_null_values_nil. }
    rewrite Hreq.
    destruct (idxmin column None (rows df)) as [m|].
    + replace (_ !! "min") with (Some (extremum_entry column m)).
      * split; [reflexivity|]. exists m. split; [exact Hmin|reflexivity].
      * symmetry. clear. settle_lookups; reflexivity.
    + replace (_ !! "min") with (@None StatEntry); [now right|].
      symmetry. clear. settle_lookups; reflexivity.
Qed.

(** [_compute_stats] reports no statistic that was not asked for, and none
    at all of a column the frame lacks or that holds no value. *)
Theorem compute_stats_only_requested `{pandas : PandasRuntime}
    (df : DataFrame) (column : string) (requested_stats : list string)
    (key : string) (entry : StatEntry) :
  _compute_stats df column requested_stats !! key = Some entry ->
  requested key requested_stats = true /\
  In key ["average"; "max"; "min"; "growth_rate"] /\
  has_column column df = true /\
  exists r, In r (rows df) /\ notna (cell column r) = true.
Proof.
  unfold _compute_stats.
  destruct (has_column column df) eqn:Hc; cbn [negb orb];
    [|rewrite lookup_empty; discriminate].
  destruct (empty df); cbn [orb]; [rewrite lookup_empty; discriminate|].
  destruct (is_nil requested_stats); [rewrite lookup_empty; discriminate|].
  destruct (non_null_values column df) as [|v vs] eqn:Hnn; cbn [is_nil];
    [rewrite lookup_empty; discriminate|].
  intros H.
  assert (Hvalue : exists r, In r (rows df) /\ notna (cell column r) = true).
  { assert (Hin : In v (non_null_values column df)) by (rewrite Hnn; now left).
    unfold non_null_values in Hin. apply filter_In in Hin. destruct Hin as [Hin Hv].
    apply List.in_map_iff in Hin. destruct Hin as (r & <- & Hr). eauto. }
  assert (Hkey : requested key requested_stats = true /\
                 In key ["average"; "max"; "min"; "growth_rate"]);
    [|destruct Hkey; auto].
  clear Hvalue Hnn.
  destruct (requested "average" requested_stats) eqn:Ra;
    destruct (requested "max" requested_stats) eqn:Rx;
    destruct (requested "min" requested_stats) eqn:Rn;
    destruct (requested "growth_rate" requested_stats) eqn:Rg;
    cbn [andb] in H;
    repeat match type of H with
    | context [if ?b then _ else _] => destruct b
    | context [match ?o with Some _ => _ | None => _ end] => destruct o
    | context [match ?l with [] => _ | _ :: _ => _ end] => destruct l
    end;
    repeat (apply lookup_insert_Some in H; destruct H as [[<- _]|[_ H]]);
    try (rewrite lookup_empty in H; discriminate H);
    (split; [assumption|cbn; auto 10]).
Qed.

(** ** Charts of one frame *)

Lemma sorted_Z_head_least (a : Z) (t : list Z) (x : Z) :
  StronglySorted Z.le (a :: t) -> In x (a :: t) -> (a <= x)%Z.
Proof.
  intros Hs [<-|Hx]; [lia|].
  inversion Hs as [|? ? _ Hall]; subst. rewrite List.Forall_forall in Hall. auto.
Qed.

Lemma sorted_Z_unique (k1 k2 : list Z) :
  Permutation k1 k2 -> StronglySorted Z.le k1 -> StronglySorted Z.le k2 -> k1 = k2.
Proof.
  revert k2. induction k1 as [|a t1 IH]; intros k2 Hp H1 H2.
  - apply Permutation_nil in Hp. now subst.
  - destruct k2 as [|b t2]; [symmetry in Hp; now apply Permutation_nil in Hp|].
    assert (a = b).
    { assert (In b (a :: t1)) by (eapply Permutation_in; [symmetry; exact Hp|now left]).
      assert (In a (b :: t2)) by (eapply Permutation_in; [exact Hp|now left]).
      pose proof (sorted_Z_head_least a t1 b H1 H).
      pose proof (sorted_Z_head_least b t2 a H2 H0). lia. }
    subst b. f_equal. apply IH.
    + eapply Permutation_cons_inv; exact Hp.
    + now inversion H1.
    + now inversion H2.
Qed.

Lemma same_keys_unique {A} (key : A -> Z) (l1 l2 : list A) :
  Permutation l1 l2 -> map key l1 = map key l2 -> List.NoDup (map key l1) -> l1 = l2.
Proof.
  revert l2. induction l1 as [|a t1 IH]; intros l2 Hp Hk Hn.
  - apply Permutation_nil in Hp. now subst.
  - destruct l2 as [|b t2]; [discriminate Hk|].
    cbn in Hk, Hn. injection Hk as Hab Hk. inversion Hn as [|? ? Hnotin Hn']; subst.
    assert (a = b).
    { assert (Hb : In b (a :: t1))
        by (eapply Permutation_in; [symmetry; exact Hp|now left]).
      destruct Hb as [->|Hb]; [reflexivity|].
      exfalso. apply Hnotin. rewrite Hab. now apply in_map. }
    subst b. f_equal. apply IH; auto.
    eapply Permutation_cons_inv; exact Hp.
Qed.

(** Two orderings by year of the same rows show the same years; they are
    the same list when no two rows share a year. *)
Lemma sorted_by_year_unique (l1 l2 : list Row) :
  Permutation l1 l2 ->
  StronglySorted (fun a b => (row_year a <= row_year b)%Z) l1 ->
  StronglySorted (fun a b => (row_year a <= row_year b)%Z) l2 ->
  map row_year l1 = map row_year l2 /\
  (List.NoDup (map row_year l1) -> l1 = l2).
Proof.
  intros Hp H1 H2.
  assert (Hk : map row_year l1 = map row_year l2).
  { apply sorted_Z_unique.
    - now apply Permutation_map.
    - now apply StronglySorted_map.
    - now apply StronglySorted_map. }
  split; [exact Hk|]. now apply same_keys_unique.
Qed.

Lemma stable_sort_by_year (l : list Row) :
  Permutation (stable_sort year_le l) l /\
  StronglySorted (fun a b => (row_year a <= row_year b)%Z) (stable_sort year_le l).
Proof.
  split; [apply stable_sort_perm|].
  eapply StronglySorted_weaken;
    [|apply (stable_sort_sorted year_le (fun r => In r l));
      [apply year_le_orders|apply List.Forall_forall; auto]].
  intros a b H. unfold year_le in H. lia.
Qed.

Section LineChart.
Context `{contract : SortContract}.

(** What [sort_values("year")] returns is the rows in ascending order of
    year: the years it shows are fixed by the frame, and so are the rows
    when no two of them share a year. *)
Lemma sort_by_year_fixed (df : DataFrame) :
  map row_year (rows (sort_by_year df))
  = map row_year (stable_sort year_le (rows df)) /\
  (List.NoDup (map row_year (rows df)) ->
   rows (sort_by_year df) = stable_sort year_le (rows df)).
Proof.
  destruct (stable_sort_by_year (rows df)) as [Hp Hs].
  destruct (sorted_by_year_unique (rows (sort_by_year df)) (stable_sort year_le (rows df)))
    as [Hk Hu].
  - rewrite sort_by_year_perm. now symmetry.
  - apply sort_by_year_sorted.
  - exact Hs.
  - split; [exact Hk|]. intros Hn. apply Hu.
    eapply Permutation_NoDup; [|exact Hn].
    apply Permutation_map. symmetry. apply sort_by_year_perm.
Qed.

(** The line chart of a frame: a label and a value for each row, in
    ascending order of year; a value is null where the cell is missing. The
    labels do not depend on how pandas sorts, and nor do the values when the
    frame has one row for each year. Without the column there is no chart. *)
Theorem build_line_chart_aligned (df : DataFrame) (value_column : string) :
  let chart_of ordered :=
    {| labels := map (fun r => str_of_Z (row_year r)) ordered;
       values := map (fun r => if notna (cell value_column r)
                               then Some (cell value_column r) else None) ordered |} in
  match build_line_chart df value_column with
  | None => has_column value_column df = false
  | Some chart =>
      has_column value_column df = true /\
      (exists ordered,
         Permutation ordered (rows df) /\
         StronglySorted (fun a b => (row_year a <= row_year b)%Z) ordered /\
         chart = chart_of ordered) /\
      labels chart = labels (chart_of (stable_sort year_le (rows df))) /\
      (List.NoDup (map row_year (rows df)) ->
       chart = chart_of (stable_sort year_le (rows df)))
  end.
Proof.
  intros chart_of. unfold build_line_chart.
  change (has_column value_column (sort_by_year df)) with (has_column value_column df).
  destruct (has_column value_column df); [|reflexivity].
  split; [reflexivity|].
  assert (Hchart :
    {| labels := year_labels (sort_by_year df);
       values := _sanitize_values (column_tolist value_column (sort_by_year df)) |}
    = chart_of (rows (sort_by_year df))).
  { unfold chart_of, year_labels, _sanitize_values, column_tolist.
    now rewrite List.map_map. }
  rewrite Hchart. destruct (sort_by_year_fixed df) as [Hk Hu].
  split; [|split].
  - exists (rows (sort_by_year df)).
    split; [apply sort_by_year_perm|]. split; [apply sort_by_year_sorted|reflexivity].
  - unfold chart_of. cbn [labels].
    rewrite <- (List.map_map row_year str_of_Z), Hk. now rewrite List.map_map.
  - intros Hn. now rewrite (Hu Hn).
Qed.

End LineChart.

(** ** Charts of several frames *)

Lemma str_of_Z_inj (a b : Z) : str_of_Z a = str_of_Z b -> a = b.
Proof.
  unfold str_of_Z. intros H.
  apply DecimalZ.to_int_inj.
  assert (Some (Z.to_int a) = Some (Z.to_int b)) as [= ->]; [|reflexivity].
  rewrite <- !NilEmpty.isi. now rewrite H.
Qed.

Lemma label_eqb_year (y y' : Z) : String.eqb (str_of_Z y') (str_of_Z y) = (y' =? y)%Z.
Proof.
  destruct (String.eqb_spec (str_of_Z y') (str_of_Z y)) as [E|E];
    destruct (Z.eqb_spec y' y) as [F|F]; try reflexivity.
  - now apply str_of_Z_inj in E.
  - now subst.
Qed.

Lemma series_value_none (column : string) (df : DataFrame) (label : string) :
  series_value column df label = None <->
  (2 <= List.length (List.filter (fun r => String.eqb (str_of_Z (row_year r)) label)
                       (rows df)))%nat.
Proof.
  unfold series_value.
  destruct (List.filter _ (rows df)) as [|a [|b rest]]; cbn; split;
    try discriminate; try lia; reflexivity.
Qed.

Lemma sequence_none {A} (l : list (option A)) : sequence l = None <-> In None l.
Proof.
  induction l as [|[x|] l IH]; cbn.
  - split; [discriminate|intros []].
  - destruct (sequence l); split.
    + discriminate.
    + intros [H|H]; [discriminate H|]. apply IH in H. discriminate H.
    + intros _. right. now apply IH.
    + reflexivity.
  - split; auto.
Qed.

Lemma combined_labels_In (frames : gmap string DataFrame) (label : string) :
  In label
    (sorted_set_str (flat_map (fun item => year_labels (snd item)) (map_to_list frames)))
  <-> exists name df, frames !! name = Some df /\ In label (year_labels df).
Proof.
  rewrite sorted_set_str_In, in_flat_map. split.
  - intros ([name df] & Hin & Hl). exists name, df. split; [|exact Hl].
    apply elem_of_map_to_list. now apply list_elem_of_In.
  - intros (name & df & Hin & Hl). exists (name, df). split; [|exact Hl].
    apply list_elem_of_In. now apply elem_of_map_to_list.
Qed.

(** [build_multi_line_chart] raises when, and only when, one of the frames
    holds two rows for one year. *)
Lemma build_multi_line_chart_none (frames : gmap string DataFrame) (column : string) :
  build_multi_line_chart frames column = None <->
  exists name df, frames !! name = Some df /\ year_repeated df.
Proof.
  unfold build_multi_line_chart.
  set (combined := sorted_set_str _).
  set (computed := _ <$> frames).
  destruct (forallb _ (map_to_list computed)) eqn:Hall.
  - split; [discriminate|]. intros (name & df & Hin & y & Hy). exfalso.
    rewrite forallb_forall in Hall.
    assert (Hlabel : In (str_of_Z y) combined).
    { apply combined_labels_In. exists name, df. split; [exact Hin|].
      unfold year_labels.
      destruct (List.filter (fun r => (row_year r =? y)%Z) (rows df)) as [|r rest] eqn:E;
        [cbn in Hy; lia|].
      assert (Hr : In r (List.filter (fun r => (row_year r =? y)%Z) (rows df)))
        by (rewrite E; now left).
      apply filter_In in Hr. destruct Hr as [Hr Hyr]. apply Z.eqb_eq in Hyr.
      apply List.in_map_iff. exists r. split; [now rewrite Hyr|exact Hr]. }
    assert (Hnone : sequence (map (series_value column df) combined) = None).
    { apply sequence_none. apply List.in_map_iff. exists (str_of_Z y).
      split; [|exact Hlabel]. apply series_value_none.
      erewrite List.filter_ext; [exact Hy|]. intros r. apply label_eqb_year. }
    specialize (Hall (name, None)). cbn in Hall.
    assert (true = false); [|discriminate].
    symmetry. apply Hall. apply list_elem_of_In, elem_of_map_to_list.
    unfold computed. rewrite lookup_fmap, Hin. cbn. now rewrite Hnone.
  - split; [intros _|reflexivity].
    assert (Hex : exists item, In item (map_to_list computed) /\ snd item = None).
    { clear -Hall. induction (map_to_list computed) as [|[k [v|]] l IH]; cbn in Hall.
      - discriminate.
      - destruct (IH Hall) as (item & Hin & Hn). exists item. split; [now right|exact Hn].
      - exists (k, None). split; [now left|reflexivity]. }
    destruct Hex as ([name v] & Hin & Hv). cbn in Hv. subst v.
    apply list_elem_of_In, elem_of_map_to_list in Hin.
    unfold computed in Hin. rewrite lookup_fmap in Hin.
    destruct (frames !! name) as [df|] eqn:Hdf; [|discriminate Hin].
    cbn in Hin. injection Hin as Hseq.
    apply sequence_none, List.in_map_iff in Hseq. destruct Hseq as (label & Hnone & _).
    apply series_value_none in Hnone.
    exists name, df. split; [exact Hdf|].
    destruct (List.filter (fun r => String.eqb (str_of_Z (row_year r)) label) (rows df))
      as [|r rest] eqn:E; [cbn in Hnone; lia|].
    assert (Hr : In r (List.filter (fun r => String.eqb (str_of_Z (row_year r)) label)
                         (rows df))) by (rewrite E; now left).
    apply filter_In in Hr. destruct Hr as [_ Hl]. apply String.eqb_eq in Hl. subst label.
    exists (row_year r).
    erewrite List.filter_ext; [rewrite E; exact Hnone|].
    intros r'. symmetry. apply label_eqb_year.
Qed.

Lemma sequence_some_map {A B} (f : A -> option B) (l : list A) (xs : list B) :
  sequence (map f l) = Some xs ->
  List.length xs = List.length l /\
  forall i a, nth_error l i = Some a -> exists x, f a = Some x /\ nth_error xs i = Some x.
Proof.
  revert xs. induction l as [|a l IH]; intros xs; cbn.
  - intros [= <-]. split; [reflexivity|]. intros [|i] a; discriminate.
  - destruct (f a) as [x|] eqn:Ef; [|discriminate].
    destruct (sequence (map f l)) as [xs'|]; [|discriminate].
    intros [= <-]. destruct (IH xs' eq_refl) as [Hlen Hnth].
    split; [cbn; now rewrite Hlen|].
    intros [|i] a'; cbn.
    + intros [= <-]. eauto.
    + apply Hnth.
Qed.

Lemma series_value_some (column : string) (df : DataFrame) (label : string)
    (v : option float) :
  series_value column df label = Some v ->
  (forall r, In r (rows df) -> str_of_Z (row_year r) = label ->
     v = if notna (cell column r) then Some (cell column r) else None) /\
  ((forall r, In r (rows df) -> str_of_Z (row_year r) <> label) -> v = None).
Proof.
  unfold series_value.
  destruct (List.filter (fun r => String.eqb (str_of_Z (row_year r)) label) (rows df))
    as [|a [|b rest]] eqn:E; [| |discriminate]; intros [= <-].
  - split; [|reflexivity]. intros r Hr Hl.
    assert (Hin : In r (List.filter (fun r => String.eqb (str_of_Z (row_year r)) label)
                          (rows df)))
      by (apply filter_In; split; [exact Hr|now apply String.eqb_eq]).
    rewrite E in Hin. destruct Hin.
  - assert (Ha : In a (List.filter (fun r => String.eqb (str_of_Z (row_year r)) label)
                         (rows df))) by (rewrite E; now left).
    apply filter_In in Ha. destruct Ha as [Ha Hla]. apply String.eqb_eq in Hla.
    split.
    + intros r Hr Hl.
      assert (Hin : In r (List.filter (fun r => String.eqb (str_of_Z (row_year r)) label)
                            (rows df)))
        by (apply filter_In; split; [exact Hr|now apply String.eqb_eq]).
      rewrite E in Hin. destruct Hin as [<-|[]]. reflexivity.
    + intros Hnone. now destruct (Hnone a Ha Hla).
Qed.

(** The chart of several frames: its labels are the years of all the
    frames, each once, in ascending order of their text; it has a series for
    each frame, with a value for each label, the cell of the frame's row of
    that year, and null where the frame has no such row or the cell is
    missing. There is no chart when a frame holds two rows for one year. *)
Theorem build_multi_line_chart_aligned (frames : gmap string DataFrame)
    (column : string) :
  (forall name df, frames !! name = Some df -> has_column column df = true) ->
  match build_multi_line_chart frames column with
  | None => exists name df, frames !! name = Some df /\ year_repeated df
  | Some chart =>
      (forall name df, frames !! name = Some df -> ~ year_repeated df) /\
      StronglySorted (fun a b => String.compare a b = Lt) (multi_labels chart) /\
      (forall label,
         In label (multi_labels chart) <->
         exists name df r,
           frames !! name = Some df /\ In r (rows df) /\ label = str_of_Z (row_year r)) /\
      (forall name, series chart !! name = None <-> frames !! name = None) /\
      (forall name df, frames !! name = Some df ->
         exists points,
           series chart !! name = Some points /\
           List.length points = List.length (multi_labels chart) /\
           forall i label, nth_error (multi_labels chart) i = Some label ->
             exists v,
               nth_error points i = Some v /\
               (forall r, In r (rows df) -> str_of_Z (row_year r) = label ->
                  v = if notna (cell column r) then Some (cell column r) else None) /\
               ((forall r, In r (rows df) -> str_of_Z (row_year r) <> label) -> v = None))
  end.
Proof.
  intros _.
  pose proof (build_multi_line_chart_none frames column) as Hnone.
  destruct (build_multi_line_chart frames column) as [chart|] eqn:Hchart;
    [|now apply Hnone].
  assert (Hclean : forall name df, frames !! name = Some df -> ~ year_repeated df).
  { intros name df Hin Hrep.
    assert (Some chart = None); [|discriminate]. apply Hnone. eauto. }
  split; [exact Hclean|].
  revert Hchart. unfold build_multi_line_chart.
  set (combined := sorted_set_str _).
  set (computed := _ <$> frames).
  destruct (forallb _ (map_to_list computed)) eqn:Hall; [|discriminate].
  intros [= <-]. cbn [multi_labels series].
  split; [apply sorted_set_str_sorted|]. split; [|split].
  - intros label. unfold combined. rewrite combined_labels_In.
    split.
    + intros (name & df & Hin & Hl). unfold year_labels in Hl.
      apply List.in_map_iff in Hl. destruct Hl as (r & <- & Hr). eauto 6.
    + intros (name & df & r & Hin & Hr & ->). exists name, df. split; [exact Hin|].
      unfold year_labels. apply List.in_map_iff. eauto.
  - intros name. unfold computed. rewrite !lookup_fmap.
    destruct (frames !! name); cbn; split; congruence.
  - intros name df Hin.
    rewrite forallb_forall in Hall.
    assert (Hlookup : computed !! name
                      = Some (sequence (map (series_value column df) combined))).
    { unfold computed. now rewrite lookup_fmap, Hin. }
    destruct (sequence (map (series_value column df) combined)) as [points|] eqn:Hseq.
    + exists points. split; [now rewrite lookup_fmap, Hlookup|].
      destruct (sequence_some_map _ _ _ Hseq) as [Hlen Hnth].
      split; [exact Hlen|]. intros i label Hi.
      destruct (Hnth i label Hi) as (v & Hv & Hpoint).
      exists v. split; [exact Hpoint|]. now apply series_value_some.
    + specialize (Hall (name, None)). cbn in Hall.
      assert (true = false); [|discriminate]. symmetry. apply Hall.
      now apply list_elem_of_In, elem_of_map_to_list.
Qed.

(** ** Where the comparison strategy raises *)

(** The chart of two frames, one for each of two names, cannot be built
    exactly when one of the frames holds two rows for one year. *)
Lemma comparison_chart_none (frame_of : string -> DataFrame)
    (first_location second_location column : string) :
  build_multi_line_chart
    (<[second_location := frame_of second_location]>
       (<[first_location := frame_of first_location]> ∅)) column = None <->
  year_repeated (frame_of first_location) \/ year_repeated (frame_of second_location).
Proof.
  rewrite build_multi_line_chart_none. split.
  - intros (name & frame & Hin & Hrep).
    apply lookup_insert_Some in Hin. destruct Hin as [[_ <-]|[_ Hin]]; [now right|].
    apply lookup_insert_Some in Hin. destruct Hin as [[_ <-]|[_ Hin]]; [now left|].
    rewrite lookup_empty in Hin. discriminate Hin.
  - intros [Hrep|Hrep].
    + destruct (String.eqb_spec first_location second_location) as [E|E].
      * exists second_location, (frame_of second_location).
        split; [apply lookup_insert_eq|]. now rewrite <- E.
      * exists first_location, (frame_of first_location). split; [|exact Hrep].
        rewrite lookup_insert_ne by congruence. apply lookup_insert_eq.
    + exists second_location, (frame_of second_location).
      split; [apply lookup_insert_eq|exact Hrep].
Qed.

(** [_handle_comparison] ends in an exception exactly when both locations
    have records in the window, the frame has the value column, and one of
    the two locations has two records for one year: the chart cannot be
    built. Otherwise it answers. *)
Theorem comparison_raises_on_repeated_year `{contract : SortContract}
    (df : DataFrame) (parsed : ParsedQuery) :
  _handle_comparison df parsed = None <->
  exists first_location second_location others,
    locations parsed = first_location :: second_location :: others /\
    let value_column := _resolve_value_column parsed in
    let first_df :=
      filter_dataset df (Some first_location)
        (year parsed) (year_range parsed) (last_n_years parsed) in
    let second_df :=
      filter_dataset df (Some second_location)
        (year parsed) (year_range parsed) (last_n_years parsed) in
    empty first_df = false /\ empty second_df = false /\
    has_column value_column first_df = true /\
    has_column value_column second_df = true /\
    (year_repeated first_df \/ year_repeated second_df).
Proof.
  unfold _handle_comparison, filter_two_locations.
  destruct (locations parsed) as [|first_location [|second_location others]].
  - split; [discriminate|]. intros (? & ? & ? & [=] & _).
  - split; [discriminate|]. intros (? & ? & ? & [=] & _).
  - set (value_column := _resolve_value_column parsed).
    pose proof (comparison_chart_none
                  (fun location =>
                     filter_dataset df (Some location)
                       (year parsed) (year_range parsed) (last_n_years parsed))
                  first_location second_location value_column) as Hrepeated.
    cbv beta in Hrepeated.
    set (first_df := filter_dataset df (Some first_location) _ _ _) in *.
    set (second_df := filter_dataset df (Some second_location) _ _ _) in *.
    split.
    + intros H.
      exists first_location, second_location, others. split; [reflexivity|].
      cbv zeta. fold value_column first_df second_df.
      destruct (empty first_df) eqn:E1; [discriminate H|].
      destruct (empty second_df) eqn:E2; [discriminate H|].
      cbn [orb] in H.
      destruct (has_column value_column first_df); [|discriminate H].
      destruct (has_column value_column second_df); [|discriminate H].
      cbn [negb orb] in H. repeat split.
      apply Hrepeated.
      destruct (build_multi_line_chart _ value_column) as [chart|]; [|reflexivity].
      destruct (latest_value_nonempty value_column first_df E1) as [v1 Hv1].
      destruct (latest_value_nonempty value_column second_df E2) as [v2 Hv2].
      rewrite Hv1, Hv2 in H. discriminate H.
    + intros (f & s & o & [= <- <- <-] & H). cbv zeta in H.
      fold value_column first_df second_df in H.
      destruct H as (-> & -> & -> & -> & Hrep).
      cbn [negb orb]. apply Hrepeated in Hrep. now rewrite Hrep.
Qed.

(** A 200 answer of the comparison strategy: its table holds the records
    of the two locations in the window, ordered by location and then by
    year; its chart has a label for each year found in the table, each once
    and in ascending order of the text, and neither location has two records
    for one year. *)
Theorem comparison_answer_table_and_chart `{contract : SortContract}
    (df : DataFrame) (parsed : ParsedQuery)
    (summary chart_type : string) (chart_data : ChartData) (table_data : TableData) :
  _handle_comparison df parsed = Some (Payload summary chart_type chart_data table_data) ->
  exists first_location second_location others chart table,
    locations parsed = first_location :: second_location :: others /\
    let first_df :=
      filter_dataset df (Some first_location)
        (year parsed) (year_range parsed) (last_n_years parsed) in
    let second_df :=
      filter_dataset df (Some second_location)
        (year parsed) (year_range parsed) (last_n_years parsed) in
    chart_type = "multi_line" /\ chart_data = ManySeries chart /\
    table_data = RowTable table /\
    Permutation table (rows first_df ++ rows second_df) /\
    StronglySorted (fun a b => location_year_le a b = true) table /\
    StronglySorted (fun a b => String.compare a b = Lt) (multi_labels chart) /\
    (forall label,
       In label (multi_labels chart) <->
       exists r, In r table /\ label = str_of_Z (row_year r)) /\
    ~ year_repeated first_df /\ ~ year_repeated second_df.
Proof.
  unfold _handle_comparison, filter_two_locations.
  destruct (locations parsed) as [|first_location [|second_location others]];
    [discriminate..|].
  set (value_column := _resolve_value_column parsed).
  pose proof (comparison_chart_none
                (fun location =>
                   filter_dataset df (Some location)
                     (year parsed) (year_range parsed) (last_n_years parsed))
                first_location second_location value_column) as Hrepeated.
  cbv beta in Hrepeated.
  set (first_df := filter_dataset df (Some first_location) _ _ _) in *.
  set (second_df := filter_dataset df (Some second_location) _ _ _) in *.
  destruct (empty first_df || empty second_df); [discriminate|].
  destruct (negb _ || negb _); [discriminate|].
  destruct (build_multi_line_chart _ value_column) as [chart|] eqn:Hchart; [|discriminate].
  destruct (latest_value value_column first_df); [|discriminate].
  destruct (latest_value value_column second_df); [|discriminate].
  unfold _build_response. intros [= _ <- <- <-].
  exists first_location, second_location, others, chart,
    (stable_sort location_year_le (rows first_df ++ rows second_df)).
  split; [reflexivity|]. cbv zeta. fold first_df second_df.
  split; [reflexivity|]. split; [reflexivity|]. split; [reflexivity|].
  split; [apply stable_sort_perm|]. split.
  { apply (stable_sort_sorted _ (fun _ => True));
      [apply location_year_le_orders|apply List.Forall_forall; auto]. }
  assert (Hclean : ~ (year_repeated first_df \/ year_repeated second_df)).
  { intros H. apply (proj2 Hrepeated) in H. discriminate H. }
  assert (Hlabels : forall label,
    In label (multi_labels chart) <->
    exists name frame,
      (<[second_location := second_df]> (<[first_location := first_df]> ∅)
         : gmap string DataFrame) !! name = Some frame /\ In label (year_labels frame)).
  { revert Hchart. unfold build_multi_line_chart.
    destruct (forallb _ _); [|discriminate]. intros [= <-]. cbn [multi_labels].
    intros label. apply combined_labels_In. }
  split; [|split; [|tauto]].
  - revert Hchart. unfold build_multi_line_chart.
    destruct (forallb _ _); [|discriminate]. intros [= <-]. cbn [multi_labels].
    apply sorted_set_str_sorted.
  - intros label. rewrite Hlabels. split.
    + intros (name & frame & Hin & Hl).
      unfold year_labels in Hl. apply List.in_map_iff in Hl. destruct Hl as (r & <- & Hr).
      exists r. split; [|reflexivity].
      apply (Permutation_in _ (Permutation_sym (stable_sort_perm _ _))).
      apply in_or_app.
      apply lookup_insert_Some in Hin. destruct Hin as [[_ <-]|[_ Hin]]; [now right|].
      apply lookup_insert_Some in Hin. destruct Hin as [[_ <-]|[_ Hin]]; [now left|].
      rewrite lookup_empty in Hin. discriminate Hin.
    + intros (r & Hr & ->).
      apply (Permutation_in _ (stable_sort_perm _ _)) in Hr.
      apply in_app_or in Hr. destruct Hr as [Hr|Hr].
      * destruct (String.eqb_spec first_location second_location) as [E|E].
        -- exists second_location, second_df. split; [apply lookup_insert_eq|].
           unfold year_labels. apply List.in_map_iff. exists r. split; [reflexivity|].
           unfold second_df. rewrite <- E. exact Hr.
        -- exists first_location, first_df.
           split; [rewrite lookup_insert_ne by congruence; apply lookup_insert_eq|].
           unfold year_labels. apply List.in_map_iff. eauto.
      * exists second_location, second_df. split; [apply lookup_insert_eq|].
        unfold year_labels. apply List.in_map_iff. eauto.
Qed.

(** ** The answer for one location *)

Lemma has_column_totals (column : string) (records : list YearTotal) :
  has_column column (totals_frame column records) = true.
Proof. unfold has_column, totals_frame. cbn. now rewrite String.eqb_refl. Qed.

Lemma forallb_false_exists {A} (f : A -> bool) (l : list A) :
  forallb f l = false -> exists x, In x l /\ f x = false.
Proof.
  induction l as [|a l IH]; cbn; [discriminate|].
  destruct (f a) eqn:E; cbn.
  - intros H. destruct (IH H) as (x & Hx & Hf). exists x. split; [now right|exact Hf].
  - intros _. exists a. split; [now left|exact E].
Qed.

Section OneLocation.
Context `{contract : SortContract} `{sums : PandasSums}.

Lemma filter_dataset_columns (df : DataFrame) (location : option string)
    (year : option Z) (year_range : option (Z * Z)) (last_n_years : option Z) :
  columns (filter_dataset df location year year_range last_n_years) = columns df.
Proof.
  unfold filter_dataset.
  destruct year_range as [[a b]|], year as [y|], last_n_years as [n|]; cbn;
    try reflexivity;
    match goal with |- context [if ?b then _ else _] => destruct b end; reflexivity.
Qed.

Lemma filter_dataset_has_column (df : DataFrame) (location : option string)
    (year : option Z) (year_range : option (Z * Z)) (last_n_years : option Z)
    (column : string) :
  has_column column (filter_dataset df location year year_range last_n_years)
  = has_column column df.
Proof. unfold has_column. now rewrite filter_dataset_columns. Qed.

Lemma filter_dataset_sorted (df : DataFrame) (location : option string)
    (year : option Z) (year_range : option (Z * Z)) (last_n_years : option Z) :
  StronglySorted (fun a b => (row_year a <= row_year b)%Z)
    (rows (filter_dataset df location year year_range last_n_years)).
Proof.
  rewrite filter_dataset_rows. cbv zeta.
  assert (Hs : StronglySorted (fun a b => (row_year a <= row_year b)%Z)
                 (rows (filter_dataset df location year year_range None)))
    by apply sort_by_year_sorted.
  destruct last_n_years as [n|]; [|exact Hs].
  destruct (_ || _); [exact Hs|]. now apply StronglySorted_filter.
Qed.

(** Sorting again a frame that is in order of year shows the same years,
    and the same rows when no two share a year. *)
Lemma sort_by_year_again (df : DataFrame) :
  StronglySorted (fun a b => (row_year a <= row_year b)%Z) (rows df) ->
  map row_year (rows (sort_by_year df)) = map row_year (rows df) /\
  (List.NoDup (map row_year (rows df)) -> rows (sort_by_year df) = rows df).
Proof.
  intros Hs.
  destruct (sorted_by_year_unique (rows (sort_by_year df)) (rows df)) as [Hk Hu].
  - apply sort_by_year_perm.
  - apply sort_by_year_sorted.
  - exact Hs.
  - split; [exact Hk|]. intros Hn. apply Hu.
    eapply Permutation_NoDup; [|exact Hn].
    apply Permutation_map. symmetry. apply sort_by_year_perm.
Qed.

Lemma build_multi_line_from_columns_none (df : DataFrame) (column_map : gmap string string) :
  build_multi_line_from_columns df column_map = None <->
  exists label column, column_map !! label = Some column /\ has_column column df = false.
Proof.
  unfold build_multi_line_from_columns.
  change (fun item : string * string => has_column (snd item) (sort_by_year df))
    with (fun item : string * string => has_column (snd item) df).
  destruct (forallb _ (map_to_list column_map)) eqn:Hall.
  - split; [discriminate|]. intros (label & column & Hin & Hc). exfalso.
    rewrite forallb_forall in Hall. specialize (Hall (label, column)). cbn in Hall.
    rewrite Hc in Hall. assert (false = true); [|discriminate].
    apply Hall. now apply list_elem_of_In, elem_of_map_to_list.
  - split; [intros _|reflexivity].
    apply forallb_false_exists in Hall. destruct Hall as ([label column] & Hin & Hc).
    exists label, column. split; [|exact Hc].
    now apply elem_of_map_to_list, list_elem_of_In.
Qed.

Lemma build_line_chart_some (df : DataFrame) (column : string) :
  has_column column df = true ->
  build_line_chart df column
  = Some {| labels := year_labels (sort_by_year df);
            values := _sanitize_values (column_tolist column (sort_by_year df)) |}.
Proof.
  intros Hc. unfold build_line_chart.
  change (has_column column (sort_by_year df)) with (has_column column df).
  now rewrite Hc.
Qed.



Lemma dispatch_single_location (parsed : ParsedQuery) :
  dispatch parsed = SingleLocationStrategy ->
  coordinate parsed = false /\ near parsed = false /\ ranking parsed = false /\
  comparison parsed && (2 <=? List.length (locations parsed))%nat = false.
Proof.
  unfold dispatch.
  destruct (coordinate parsed), (near parsed); cbn; try discriminate.
  destruct (ranking parsed); [discriminate|].
  destruct (comparison parsed && _); [discriminate|auto].
Qed.

Lemma sanitized_cells (column : string) (l : list Row) :
  _sanitize_values (map (fun r => Some (cell column r)) l)
  = map (fun r => if notna (cell column r) then Some (cell column r) else None) l.
Proof. unfold _sanitize_values. now rewrite List.map_map. Qed.


End OneLocation.

(** ** The columns charted for several property types *)

Lemma add_property_columns_from (metric : string) (types : list string) :
  forall (columns : gmap string string) (label column : string),
    fold_left (add_property_column metric) types columns !! label = Some column ->
    columns !! label = Some column \/
    exists property_type,
      In property_type types /\
      _metric_column_for_property metric (Some property_type) = Some column /\
      label = dict_get PROPERTY_LABELS property_type (title property_type)
              ++ " " ++ _metric_label metric.
Proof.
  induction types as [|p types IH]; intros columns label column; cbn [fold_left].
  - auto.
  - intros H. apply IH in H. destruct H as [H|(q & Hq & Hcol & Hl)].
    + unfold add_property_column in H.
      destruct (_metric_column_for_property metric (Some p)) as [c|] eqn:Ec; [|auto].
      destruct (is_empty c); [auto|].
      apply lookup_insert_Some in H. destruct H as [[<- <-]|[_ H]]; [|auto].
      right. exists p. split; [now left|]. split; [exact Ec|reflexivity].
    + right. exists q. split; [now right|]. auto.
Qed.

Lemma add_property_columns_keep (metric : string) (types : list string) :
  forall (columns : gmap string string) (label : string),
    is_Some (columns !! label) ->
    is_Some (fold_left (add_property_column metric) types columns !! label).
Proof.
  induction types as [|p types IH]; intros columns label H; cbn [fold_left]; [exact H|].
  apply IH. unfold add_property_column.
  destruct (_metric_column_for_property metric (Some p)) as [c|]; [|exact H].
  destruct (is_empty c); [exact H|].
  destruct (decide (dict_get PROPERTY_LABELS p (title p) ++ " " ++ _metric_label metric
                    = label)) as [<-|Hne].
  - rewrite lookup_insert_eq. eauto.
  - now rewrite lookup_insert_ne.
Qed.

Lemma add_property_columns_has (metric : string) (types : list string) :
  forall (columns : gmap string string) (property_type column : string),
    In property_type types ->
    _metric_column_for_property metric (Some property_type) = Some column ->
    column <> EmptyString ->
    is_Some (fold_left (add_property_column metric) types columns
             !! (dict_get PROPERTY_LABELS property_type (title property_type)
                 ++ " " ++ _metric_label metric)).
Proof.
  induction types as [|p types IH]; intros columns q column; [intros []|].
  intros [->|Hin] Hcol Hne; cbn [fold_left].
  - apply add_property_columns_keep. unfold add_property_column. rewrite Hcol.
    destruct column; [contradiction|]. cbn [is_empty]. rewrite lookup_insert_eq. eauto.
  - eapply IH; eauto.
Qed.

(** [_multi_property_columns] maps nothing for fewer than two property
    types; for two or more it maps, for each type that has a column under the
    metric, the legend made of the type's label and the metric's to that
    column, and nothing else. *)
Theorem multi_property_columns_entries (parsed : ParsedQuery) :
  let columns := _multi_property_columns parsed in
  let legend property_type :=
    dict_get PROPERTY_LABELS property_type (title property_type)
    ++ " " ++ _metric_label (metric parsed) in
  ((List.length (property_types parsed) <= 1)%nat -> columns = ∅) /\
  (forall label column, columns !! label = Some column ->
     (2 <= List.length (property_types parsed))%nat /\
     exists property_type,
       In property_type (property_types parsed) /\
       _metric_column_for_property (metric parsed) (Some property_type) = Some column /\
       label = legend property_type) /\
  ((2 <= List.length (property_types parsed))%nat ->
   forall property_type column,
     In property_type (property_types parsed) ->
     _metric_column_for_property (metric parsed) (Some property_type) = Some column ->
     column <> EmptyString ->
     is_Some (columns !! legend property_type)).
Proof.
  intros columns legend. unfold columns, _multi_property_columns.
  destruct (Nat.leb_spec (List.length (property_types parsed)) 1) as [Hle|Hgt].
  - split; [reflexivity|]. split.
    + intros label column H. rewrite lookup_empty in H. discriminate H.
    + intros Hlen. lia.
  - split; [intros Hle; lia|]. split.
    + intros label column H. split; [lia|].
      apply add_property_columns_from in H. destruct H as [H|H]; [|exact H].
      rewrite lookup_empty in H. discriminate H.
    + intros _ property_type column Hin Hcol Hne.
      eapply add_property_columns_has; eauto.
Qed.

(** ** The city-wide answer *)

Lemma strictly_sorted_NoDup (l : list Z) : StronglySorted Z.lt l -> List.NoDup l.
Proof.
  induction 1 as [|a l Hl IH Ha]; constructor; [|exact IH].
  intros Hin. rewrite List.Forall_forall in Ha. specialize (Ha a Hin). lia.
Qed.

Lemma sorted_set_single (y : Z) (l : list Z) :
  l <> [] -> (forall x, In x l -> x = y) -> sorted_set l = [y].
Proof.
  intros Hne Hall. apply strictly_sorted_ext.
  - apply sorted_set_sorted.
  - repeat constructor.
  - intros x. rewrite sorted_set_In. split.
    + intros Hx. left. symmetry. now apply Hall.
    + intros [<-|[]]. destruct l as [|a l]; [contradiction|].
      left. apply Hall. now left.
Qed.

Lemma aggregate_columns (df : DataFrame) (locations : option (list string))
    (year : option Z) (year_range : option (Z * Z)) (last_n_years : option Z) :
  columns (aggregate_across_locations df locations year year_range last_n_years)
  = columns df.
Proof.
  unfold aggregate_across_locations.
  destruct year_range as [[a b]|], year as [y|], last_n_years as [n|]; cbn;
    try reflexivity;
    match goal with |- context [if ?b then _ else _] => destruct b end; reflexivity.
Qed.

Lemma aggregate_has_column (df : DataFrame) (locations : option (list string))
    (year : option Z) (year_range : option (Z * Z)) (last_n_years : option Z)
    (column : string) :
  has_column column (aggregate_across_locations df locations year year_range last_n_years)
  = has_column column df.
Proof. unfold has_column. now rewrite aggregate_columns. Qed.

Lemma aggregate_of_year (df : DataFrame) (locations : option (list string))
    (y : Z) (year_range : option (Z * Z)) (last_n_years : option Z) (r : Row) :
  In r (rows (aggregate_across_locations df locations (Some y) year_range last_n_years)) ->
  row_year r = y.
Proof.
  rewrite aggregate_rows. cbv zeta.
  assert (Hsel : forall r,
    In r (rows (aggregate_across_locations df locations (Some y) year_range None)) ->
    row_year r = y).
  { intros r'. unfold aggregate_across_locations. cbn [rows with_rows].
    intros H. apply (Permutation_in _ (stable_sort_perm _ _)) in H.
    destruct year_range as [[a b]|]; cbn [select with_rows rows] in H;
      apply filter_In in H; destruct H as [_ H]; now apply Z.eqb_eq in H. }
  destruct last_n_years as [n|]; [|apply Hsel].
  destruct (_ || _); [apply Hsel|].
  intros H. apply filter_In in H. destruct H as [H _]. now apply Hsel.
Qed.

Lemma filter_all {A} (p : A -> bool) (l : list A) :
  (forall x, In x l -> p x = true) -> List.filter p l = l.
Proof.
  induction l as [|a l IH]; cbn; [reflexivity|]. intros H.
  rewrite (H a (or_introl eq_refl)), IH; [reflexivity|]. intros x Hx. apply H. now right.
Qed.

Lemma cell_of_total (column : string) (t : YearTotal) :
  cell column {| final_location := EmptyString; row_year := total_year t;
                 cells := [(column, total_value t)] |} = total_value t.
Proof. unfold cell, dict_get. cbn. now rewrite String.eqb_refl. Qed.

Section CityWide.
Context `{contract : SortContract} `{sums : PandasSums}.

Lemma groupby_year_sum_years (column : string) (working : DataFrame) :
  map total_year (groupby_year_sum column working)
  = sorted_set (map row_year (rows working)).
Proof.
  unfold groupby_year_sum. rewrite List.map_map. cbn [total_year]. apply List.map_id.
Qed.

(** The line chart of a table of year totals shows the table as it is. *)
Lemma build_line_chart_of_totals (column : string) (totals : list YearTotal) :
  StronglySorted Z.lt (map total_year totals) ->
  build_line_chart (totals_frame column totals) column
  = Some {| labels := map (fun t => str_of_Z (total_year t)) totals;
            values := map (fun t => if notna (total_value t)
                                    then Some (total_value t) else None) totals |}.
Proof.
  intros Hs. rewrite build_line_chart_some by apply has_column_totals.
  set (frame := totals_frame column totals).
  assert (Hyears : map row_year (rows frame) = map total_year totals).
  { unfold frame, totals_frame. cbn [rows]. now rewrite List.map_map. }
  destruct (sort_by_year_again frame) as [_ Hrows].
  { apply StronglySorted_of_map with (f := row_year) (R := Z.le).
    rewrite Hyears. eapply StronglySorted_weaken; [|exact Hs]. intros a b; lia. }
  unfold year_labels, column_tolist.
  rewrite Hrows by (rewrite Hyears; now apply strictly_sorted_NoDup).
  rewrite sanitized_cells. unfold frame, totals_frame. cbn [rows].
  rewrite !List.map_map.
  f_equal; f_equal; try reflexivity;
    apply List.map_ext; intros t; now rewrite cell_of_total.
Qed.


End CityWide.

(** ** Queries that are answered *)

Lemma sequence_is_some {A} (l : list (option A)) :
  (forall x, In x l -> is_Some x) -> is_Some (sequence l).
Proof.
  intros H. destruct (sequence l) eqn:E; [eauto|].
  apply sequence_none in E. destruct (H None E) as [x Hx]. discriminate Hx.
Qed.

Lemma filter_length_le_impl {A} (p q : A -> bool) (l : list A) :
  (forall x, In x l -> p x = true -> q x = true) ->
  (List.length (List.filter p l) <= List.length (List.filter q l))%nat.
Proof.
  induction l as [|a l IH]; intros H; cbn; [lia|].
  assert (IH' := IH (fun x Hx => H x (or_intror Hx))).
  destruct (p a) eqn:Ep.
  - rewrite (H a (or_introl eq_refl) Ep). cbn. lia.
  - destruct (q a); cbn; lia.
Qed.

Lemma record_key_once (l : list Row) (name : string) (y : Z) :
  List.NoDup (map record_key l) ->
  (List.length
     (List.filter (fun r => String.eqb (_normalize (final_location r)) name
                            && (row_year r =? y)%Z) l) <= 1)%nat.
Proof.
  induction l as [|a l IH]; cbn; [lia|]. intros Hn.
  inversion Hn as [|? ? Hnotin Hn']; subst. specialize (IH Hn').
  destruct (String.eqb_spec (_normalize (final_location a)) name) as [E|E]; cbn; [|exact IH].
  destruct (Z.eqb_spec (row_year a) y) as [F|F]; cbn; [|exact IH].
  assert (Hnone : List.filter (fun r => String.eqb (_normalize (final_location r)) name
                                        && (row_year r =? y)%Z) l = []).
  { destruct (List.filter _ l) as [|b rest] eqn:Eb; [reflexivity|]. exfalso.
    assert (Hb : In b (List.filter
                         (fun r => String.eqb (_normalize (final_location r)) name
                                   && (row_year r =? y)%Z) l))
      by (rewrite Eb; now left).
    apply filter_In in Hb. destruct Hb as [Hb Hk]. apply andb_true_iff in Hk.
    destruct Hk as [Hk1 Hk2]. apply String.eqb_eq in Hk1. apply Z.eqb_eq in Hk2.
    apply Hnotin. replace (record_key a) with (record_key b); [now apply in_map|].
    unfold record_key. congruence. }
  rewrite Hnone. cbn. lia.
Qed.

Section Answered.
Context `{contract : SortContract} `{sums : PandasSums} `{libm : Libm}.

(** With clean records, the frame of one location has one record for each
    year. *)
Lemma clean_records_no_repeated_year (df : DataFrame) (location : string)
    (year : option Z) (year_range : option (Z * Z)) (last_n_years : option Z) :
  clean_records df -> location <> EmptyString ->
  ~ year_repeated (filter_dataset df (Some location) year year_range last_n_years).
Proof.
  intros [_ Hkeys] Hl [y Hy].
  pose proof (record_key_once (rows df) (lower (strip location)) y Hkeys) as Honce.
  assert (Hsel :
    (List.length
       (List.filter (fun r => (row_year r =? y)%Z)
          (rows (filter_dataset df (Some location) year year_range None))) <= 1)%nat).
  { rewrite (Permutation_length
               (filter_Permutation_list _ _ _
                  (filter_dataset_selection df (Some location) year year_range))).
    rewrite filter_filter.
    etransitivity; [|exact Honce].
    apply filter_length_le_impl. intros r _ Hr.
    apply andb_true_iff in Hr. destruct Hr as [Hr ->].
    apply andb_true_iff in Hr. destruct Hr as [Hr _].
    apply andb_true_iff in Hr. destruct Hr as [Hr _].
    unfold _location_mask in Hr. destruct location; [contradiction|].
    cbn [is_empty] in Hr. now rewrite Hr. }
  rewrite filter_dataset_rows in Hy. cbv zeta in Hy.
  destruct last_n_years as [n|]; [|lia].
  destruct (_ || _); [lia|].
  rewrite filter_filter in Hy.
  assert (List.length
            (List.filter
               (fun x => existsb (Z.eqb (row_year x))
                           (last_n n (sorted_set
                              (map row_year
                                 (rows (filter_dataset df (Some location) year year_range
                                          None)))))
                         && (row_year x =? y)%Z)
               (rows (filter_dataset df (Some location) year year_range None)))
          <= List.length
               (List.filter (fun r => (row_year r =? y)%Z)
                  (rows (filter_dataset df (Some location) year year_range None))))%nat.
  { apply filter_length_le_impl. intros r _ Hr. apply andb_true_iff in Hr. tauto. }
  lia.
Qed.

Lemma handle_comparison_some (df : DataFrame) (parsed : ParsedQuery) :
  clean_records df ->
  (forall location, In location (locations parsed) -> location <> EmptyString) ->
  is_Some (_handle_comparison df parsed).
Proof.
  intros Hclean Hnames.
  unfold _handle_comparison, filter_two_locations.
  destruct (locations parsed) as [|first_location [|second_location others]]; [eauto..|].
  set (value_column := _resolve_value_column parsed).
  pose proof (comparison_chart_none
                (fun location =>
                   filter_dataset df (Some location)
                     (year parsed) (year_range parsed) (last_n_years parsed))
                first_location second_location value_column) as Hrepeated.
  cbv beta in Hrepeated.
  set (first_df := filter_dataset df (Some first_location) _ _ _) in *.
  set (second_df := filter_dataset df (Some second_location) _ _ _) in *.
  destruct (empty first_df) eqn:E1; [eauto|].
  destruct (empty second_df) eqn:E2; [eauto|]. cbn [orb].
  destruct (negb _ || negb _); [eauto|].
  destruct (build_multi_line_chart _ value_column) as [chart|].
  - destruct (latest_value_nonempty value_column first_df E1) as [v1 ->].
    destruct (latest_value_nonempty value_column second_df E2) as [v2 ->]. eauto.
  - exfalso. destruct (proj1 Hrepeated eq_refl) as [Hrep|Hrep]; revert Hrep.
    + apply clean_records_no_repeated_year; [exact Hclean|]. apply Hnames. now left.
    + apply clean_records_no_repeated_year; [exact Hclean|]. apply Hnames. right. now left.
Qed.

Lemma mapped_columns_listed (parsed : ParsedQuery) (label column : string) :
  _multi_property_columns parsed !! label = Some column ->
  exists metric table property_type,
    In (metric, table) PROPERTY_METRIC_COLUMNS /\ In (property_type, column) table.
Proof.
  unfold _multi_property_columns.
  destruct (_ <=? 1)%nat; [rewrite lookup_empty; discriminate|].
  intros H. apply add_property_columns_from in H.
  destruct H as [H|(p & _ & Hcol & _)]; [rewrite lookup_empty in H; discriminate H|].
  unfold _metric_column_for_property in Hcol.
  destruct (is_empty p); [discriminate Hcol|].
  destruct (lookup_key PROPERTY_METRIC_COLUMNS (metric parsed)) as [table|] eqn:Et;
    [|discriminate Hcol].
  cbn [default from_option id] in Hcol.
  exists (metric parsed), table, p. split.
  - clear Hcol. induction PROPERTY_METRIC_COLUMNS as [|[m t] rest IH]; [discriminate Et|].
    cbn in Et. destruct (String.eqb_spec m (metric parsed)) as [->|_].
    + injection Et as ->. now left.
    + right. now apply IH.
  - clear Et. induction table as [|[q c] rest IH]; [discriminate Hcol|].
    cbn in Hcol. destruct (String.eqb_spec q p) as [->|_].
    + injection Hcol as ->. now left.
    + right. now apply IH.
Qed.

Lemma single_location_none_missing (df : DataFrame) (parsed : ParsedQuery) :
  _handle_single_location df parsed = None ->
  exists label column,
    _multi_property_columns parsed !! label = Some column /\
    has_column column df = false.
Proof.
  unfold _handle_single_location.
  set (value_column := _resolve_value_column parsed).
  destruct (all_locations parsed && negb (nonempty (locations parsed))).
  - destruct (empty _); [discriminate|].
    destruct (has_column value_column _); cbn [negb]; [|discriminate].
    destruct (truthy (year parsed) && _); [discriminate|].
    rewrite build_line_chart_some by apply has_column_totals. discriminate.
  - destruct (locations parsed) as [|location others]; [discriminate|].
    rewrite (filter_dataset_has_column df).
    set (filtered := filter_dataset df (Some location) _ _ _).
    destruct (empty filtered); [discriminate|].
    destruct (has_column value_column df) eqn:Hc; cbn [negb]; [|discriminate].
    destruct (bool_decide (_multi_property_columns parsed = ∅)); cbn [negb].
    + rewrite build_line_chart_some
        by (unfold filtered; now rewrite filter_dataset_has_column).
      discriminate.
    + pose proof (build_multi_line_from_columns_none filtered
                    (_multi_property_columns parsed)) as Hnone.
      destruct (build_multi_line_from_columns filtered _) as [chart|]; [discriminate|].
      intros _. destruct (proj1 Hnone eq_refl) as (label & column & Hin & Hmiss).
      exists label, column. split; [exact Hin|].
      unfold filtered in Hmiss. now rewrite filter_dataset_has_column in Hmiss.
Qed.

Lemma handle_single_location_some (df : DataFrame) (parsed : ParsedQuery) :
  columns_complete df -> is_Some (_handle_single_location df parsed).
Proof.
  intros Hcolumns.
  destruct (_handle_single_location df parsed) eqn:E; [eauto|]. exfalso.
  apply single_location_none_missing in E.
  destruct E as (label & column & Hin & Hmiss).
  apply mapped_columns_listed in Hin. destruct Hin as (m & t & p & Hm & Hp).
  rewrite (Hcolumns m t p column Hm Hp) in Hmiss. discriminate Hmiss.
Qed.

Lemma nearby_localities_some (df : DataFrame) (location : string) :
  distances_computable df -> is_Some (_nearby_localities df location).
Proof.
  intros Hd. unfold _nearby_localities.
  destruct (List.filter (at_location location) (rows (latest_records_per_location df)))
    as [|base bases] eqn:Eb; [eauto|].
  destruct (is_nil _); [eauto|].
  assert (Hbase : In base (rows df)).
  { assert (H : In base (List.filter (at_location location)
                           (rows (latest_records_per_location df))))
      by (rewrite Eb; now left).
    apply filter_In in H. destruct H as [H _]. now apply latest_records_latest in H as [H _]. }
  destruct (sequence_is_some
              (map (with_distance base)
                 (List.filter (fun row => negb (at_location location row))
                    (rows (latest_records_per_location df))))) as [measured ->];
    [|cbn; eauto].
  intros x Hx. apply List.in_map_iff in Hx. destruct Hx as (row & <- & Hrow).
  apply filter_In in Hrow. destruct Hrow as [Hrow _].
  apply latest_records_latest in Hrow as [Hrow _].
  unfold with_distance. destruct (Hd base row Hbase Hrow) as [d ->]. cbn. eauto.
Qed.


End Answered.

(** ** The theorems at work on the sample data *)

Lemma growth_rate_reads_as_price_witness :
  contains "growth rate" (lower (strip "Growth rate of demand in Wakad")) = true /\
  contains "demand" (lower (strip "Growth rate of demand in Wakad")) = true /\
  metric (parse_query sample_locations "Growth rate of demand in Wakad" None) = "price".
Proof.
  split; [reflexivity|]. split; [reflexivity|].
  exact (proj1 (growth_rate_reads_as_price sample_locations
                  "Growth rate of demand in Wakad" None eq_refl)).
Defined.



Lemma aggregate_of_one_location_witness :
  Permutation
    (rows (aggregate_across_locations sample_frame (Some ["Wakad"]) None None (Some 1%Z)))
    (rows (@filter_dataset stable_runtime sample_frame (Some "Wakad") None None (Some 1%Z))).
Proof.
  apply (@aggregate_of_one_location stable_runtime stable_runtime_contract).
  discriminate.
Defined.

Lemma resolved_locations_have_records_witness :
  locations (parse_query (ExcelReader.list_locations sample_frame) "price in wakad"
               (Some (ExcelReader.list_locations sample_frame))) = ["Wakad"] /\
  empty (@filter_dataset stable_runtime sample_frame (Some "Wakad") None None None) = false.
Proof.
  split; [reflexivity|].
  refine (proj2 (@resolved_locations_have_records stable_runtime stable_runtime_contract
                   sample_frame "price in wakad" "Wakad" _)).
  vm_compute. now left.
Defined.

Lemma nearby_of_untrimmed_location_witness :
  empty (@filter_dataset stable_runtime one_point_frame (Some " Wakad") None None None)
  = false /\
  @_nearby_localities stable_runtime libm_at_zero one_point_frame " Wakad" = Some [].
Proof.
  split; [reflexivity|].
  apply (@nearby_of_untrimmed_location stable_runtime libm_at_zero).
  vm_compute. discriminate.
Defined.

Lemma coordinate_answer_of_query_witness :
  exists r,
    final_location r = "Wakad" /\ row_year r = 2023%Z /\
    @_handle_coordinate stable_runtime libm_at_zero one_point_frame
      (parse_query (ExcelReader.list_locations one_point_frame) "coordinates of Wakad"
         (Some (ExcelReader.list_locations one_point_frame)))
    = Some (Payload "Coordinates for Wakad: lat 0, lng 0." "none" NoChart
              (CoordinateTable "Wakad" (lookup_key (cells r) "loc_lat")
                 (lookup_key (cells r) "loc_lng"))).
Proof.
  destruct (@coordinate_answer_of_query stable_runtime stable_runtime_contract libm_at_zero
              one_point_frame "coordinates of Wakad" eq_refl eq_refl)
    as (r & [Hin Hlatest] & H).
  exists r. vm_compute in Hin. destruct Hin as [<-|[]].
  split; [reflexivity|]. split; [reflexivity|]. exact H.
Defined.

Lemma near_answer_of_query_witness :
  exists summary nearby_rows,
    @_handle_coordinate stable_runtime libm_at_zero one_point_frame
      (parse_query (ExcelReader.list_locations one_point_frame) "localities near Wakad"
         (Some (ExcelReader.list_locations one_point_frame)))
    = Some (Payload summary "none" NoChart (NearbyTable nearby_rows)) /\
    map nearby_location nearby_rows = ["Akurdi"; "Aundh"; "Baner"] /\
    summary = "Localities closest to Wakad include Akurdi, Aundh, Baner.".
Proof.
  pose proof (@near_answer_of_query stable_runtime stable_runtime_contract libm_at_zero
                one_point_frame "localities near Wakad" eq_refl) as H.
  cbv zeta in H.
  change (locations (parse_query (ExcelReader.list_locations one_point_frame)
                       "localities near Wakad"
                       (Some (ExcelReader.list_locations one_point_frame))))
    with ["Wakad"] in H.
  cbv iota in H. revert H.
  destruct (@_nearby_localities stable_runtime libm_at_zero one_point_frame "Wakad")
    as [nearby_rows|] eqn:E; [|vm_compute in E; discriminate E].
  intros (summary & Hanswer & Hsummary & _).
  exists summary, nearby_rows. split; [exact Hanswer|].
  rewrite (Hsummary eq_refl). vm_compute in E. injection E as <-.
  split; reflexivity.
Defined.

Lemma ranking_answer_agrees_witness :
  exists summary chart_data records,
    @_handle_ranking stable_runtime sample_frame top3_by_demand
      = Payload summary "bar" chart_data (RankTable records) /\
    summary = "Aundh leads buyer demand in 2023 with 1.5K." /\
    chart_data
    = OneSeries {| labels := map rank_location records;
                   values := map (fun record => Some (rank_value record)) records |}.
Proof.
  eexists _, _, _. split; [vm_compute; reflexivity|]. split; [reflexivity|].
  exact (proj1 (proj2
    (@ranking_answer_agrees stable_runtime stable_runtime_contract
       sample_frame top3_by_demand _ _ _ _ eq_refl eq_refl))).
Defined.

Lemma compute_stats_only_requested_witness :
  exists entry,
    @_compute_stats stable_runtime wakad_frame "total sold - igr" ["max"; "median"]
      !! "max" = Some entry /\
    @_compute_stats stable_runtime wakad_frame "total sold - igr" ["max"; "median"]
      !! "median" = None /\
    requested "max" ["max"; "median"] = true.
Proof.
  eexists. split; [vm_compute; reflexivity|]. split; [reflexivity|].
  exact (proj1 (@compute_stats_only_requested stable_runtime wakad_frame
                  "total sold - igr" ["max"; "median"] "max" _ eq_refl)).
Defined.

Lemma build_line_chart_aligned_witness :
  exists chart,
    @build_line_chart stable_runtime sample_frame "flat - weighted average rate"
      = Some chart /\
    labels chart = ["2020"; "2021"; "2022"; "2023"; "2023"; "2023"] /\
    labels chart
    = map (fun r => str_of_Z (row_year r)) (stable_sort year_le (rows sample_frame)).
Proof.
  pose proof (@build_line_chart_aligned stable_runtime stable_runtime_contract
                sample_frame "flat - weighted average rate") as H.
  cbv zeta in H.
  destruct (@build_line_chart stable_runtime sample_frame "flat - weighted average rate")
    as [chart|] eqn:E; [|vm_compute in E; discriminate E].
  exists chart. split; [reflexivity|].
  destruct H as (_ & _ & Hlabels & _). split; [|exact Hlabels].
  vm_compute in E. injection E as <-. reflexivity.
Defined.

Lemma build_multi_line_chart_aligned_witness :
  exists chart,
    build_multi_line_chart
      (<["Aundh" := @filter_dataset stable_runtime sample_frame (Some "Aundh") None None None]>
         (<["Wakad" := @filter_dataset stable_runtime sample_frame (Some "Wakad")
                         None None None]> ∅))
      "total sold - igr" = Some chart /\
    multi_labels chart = ["2021"; "2022"; "2023"] /\
    StronglySorted (fun a b => String.compare a b = Lt) (multi_labels chart).
Proof.
  set (frames :=
    <["Aundh" := @filter_dataset stable_runtime sample_frame (Some "Aundh") None None None]>
      (<["Wakad" := @filter_dataset stable_runtime sample_frame (Some "Wakad")
                      None None None]> (∅ : gmap string DataFrame))).
  assert (Hcolumns : forall name df,
            frames !! name = Some df -> has_column "total sold - igr" df = true).
  { intros name df H. unfold frames in H.
    apply lookup_insert_Some in H. destruct H as [[_ <-]|[_ H]]; [reflexivity|].
    apply lookup_insert_Some in H. destruct H as [[_ <-]|[_ H]]; [reflexivity|].
    rewrite lookup_empty in H. discriminate H. }
  pose proof (build_multi_line_chart_aligned frames "total sold - igr" Hcolumns) as H.
  destruct (build_multi_line_chart frames "total sold - igr") as [chart|] eqn:E;
    [|vm_compute in E; discriminate E].
  exists chart. split; [reflexivity|].
  destruct H as (_ & Hsorted & _). split; [|exact Hsorted].
  vm_compute in E. injection E as <-. reflexivity.
Defined.

Lemma comparison_raises_on_repeated_year_witness :
  @_handle_comparison stable_runtime repeated_year_frame compare_price = None.
Proof.
  apply (@comparison_raises_on_repeated_year stable_runtime stable_runtime_contract).
  exists "Aundh", "Wakad", []. split; [reflexivity|]. cbv zeta.
  split; [reflexivity|]. split; [reflexivity|]. split; [reflexivity|].
  split; [reflexivity|]. right. exists 2023%Z. vm_compute. lia.
Defined.

Lemma comparison_answer_table_and_chart_witness :
  exists summary chart table,
    @_handle_comparison stable_runtime sample_frame compare_demand
    = Some (Payload summary "multi_line" (ManySeries chart) (RowTable table)) /\
    map (fun r => (final_location r, row_year r)) table
    = [("Aundh", 2021); ("Aundh", 2023); ("Wakad", 2022); ("Wakad", 2023)]%Z /\
    multi_labels chart = ["2021"; "2022"; "2023"] /\
    StronglySorted (fun a b => String.compare a b = Lt) (multi_labels chart).
Proof.
  destruct (@_handle_comparison stable_runtime sample_frame compare_demand)
    as [[summary chart_type chart_data table_data|message status]|] eqn:E;
    try (vm_compute in E; discriminate E).
  destruct (@comparison_answer_table_and_chart stable_runtime stable_runtime_contract
              sample_frame compare_demand _ _ _ _ E)
    as (first_location & second_location & others & chart & table & _ & H).
  cbv zeta in H. destruct H as (-> & -> & -> & _ & _ & Hsorted & _).
  exists summary, chart, table. split; [reflexivity|].
  vm_compute in E. injection E as _ <- <-. repeat split. exact Hsorted.
Defined.



